(** * Neorest message runtime: connection engine and router

    A shallow embedding of [Connection.ts] (both the strategy based variant
    and the older socket based one, whose message handling is textually the
    same), of [TrackedPromise], of the constructors of [types.ts], of
    [Router.ts], of [newConnectionSecret], of the transports
    [WebSocketStrategy] and [HttpStrategy] and of [Client.ts], followed by
    the properties of the runtime.

    Conventions of the embedding.
    - Message ids, status codes, counters and instants are JavaScript numbers
      holding integers; they are modelled in [Z].  A JavaScript number holds
      an integer exactly, and [++] adds one to it, up to 2^53; a number in a
      payload is taken to be such an integer.
    - [Date.now()] is an explicit argument [now] of every function that can
      reach [sendWrappedMsg].
    - A method is a function of the monad [M S]: it threads the object state
      [S], accumulates the observable events (frames handed to the transport,
      application callbacks and handlers invoked) and either returns or
      throws.  State changes made before a [throw] persist, as in JavaScript.
    - Closures written in the repository are defunctionalised ([Callback]);
      closures supplied by the application (response callbacks, route
      handlers, broadcast validators) are opaque: invoking one is recorded as
      an event, and a handler's asynchronous result is delivered later by the
      environment ([settleRouteMessage]).
    - The event hooks of a connection ([onDataSet], [onSubscribeToRoute], ...)
      are a record of functions over an environment state [Env]; the router
      instantiates [Env] with its own state. *)

From stdpp Require Import gmap strings list fin_maps pretty.
From Stdlib Require Import ZArith Lia Ascii.

Set Warnings "-register-all".

Local Open Scope string_scope.
Local Open Scope list_scope.
Local Open Scope Z_scope.

(** ** Payloads ([types.ts]) *)

(** [Payload]: a JSON value; [PUndefined] stands for an absent value. *)
Inductive Payload : Type :=
| PUndefined
| PNull
| PBool (b : bool)
| PNum (n : Z)
| PStr (s : string)
| PArr (items : list Payload)
| PObj (fields : list (string * Payload)).

(** JavaScript truthiness, as used by [payload ? payload : ""], [!resp.error],
    [if (this.header['secret'])] and [header['secret'] || '']. *)
Definition truthy (p : Payload) : bool :=
  match p with
  | PUndefined | PNull => false
  | PBool b => b
  | PNum n => negb (n =? 0)
  | PStr s => negb (String.eqb s "")
  | PArr _ | PObj _ => true
  end.

Fixpoint joinWith (sep : string) (l : list string) : string :=
  match l with
  | [] => ""
  | [s] => s
  | s :: rest => s +:+ sep +:+ joinWith sep rest
  end.

(** The string a value is converted to when it is used as a property key
    ([this.connections[secret]], [this.header[data[0]]]); a number that
    holds an integer of at most 2^53 in absolute value is written in decimal
    notation. *)
Fixpoint toPropertyKey (p : Payload) : string :=
  match p with
  | PUndefined => "undefined"
  | PNull => "null"
  | PBool true => "true"
  | PBool false => "false"
  | PNum n => pretty n
  | PStr s => s
  | PArr items =>
      joinWith "," (map (fun x => match x with
                                  | PUndefined | PNull => ""
                                  | _ => toPropertyKey x
                                  end) items)
  | PObj _ => "[object Object]"
  end.

(** ** Messages ([types.ts]) *)

Abbreviation MsgID := Z (only parsing).
Abbreviation ConnectionSecret := string (only parsing).
Abbreviation RouteVerb := string (only parsing).

Record MsgResponse := mkMsgResponse {
  target : Z;
  status : Z;
  res_data : Payload
}.

Record MsgRoute := mkMsgRoute {
  verb : RouteVerb;
  route : string;
  route_data : Payload;
  headers : option (list (string * string))
}.

(** The body of an envelope, by its discriminator [type]: "set", "ping",
    "on", "off", "res", "route".  [MsgOther t] is a body whose discriminator
    [t] is none of these (a frame is parsed from JSON and not validated). *)
Inductive MsgType : Type :=
| MsgDataSet (key : string) (value : Payload)
| MsgPing
| MsgSubscribeToRoute (r : string)
| MsgUnsubscribeFromRoute (r : string)
| Res (m : MsgResponse)
| Route (m : MsgRoute)
| MsgOther (type : string).

Definition msg_ConnDataSet (key : string) (value : Payload) : MsgType :=
  MsgDataSet key value.
Definition pingMsg : MsgType := MsgPing.

Definition new_MsgResponse (targetMsgId status : Z) (data : Payload) : MsgResponse :=
  {| target := targetMsgId; status := status; res_data := data |}.

(** [new_MsgResponseOK(id, data?)]: [data !== undefined ? data : "OK"]. *)
Definition new_MsgResponseOK (targetMsgId : Z) (data : Payload) : MsgResponse :=
  new_MsgResponse targetMsgId 200
    match data with PUndefined => PStr "OK" | _ => data end.

Definition new_MsgResponseWithCode (targetMsgId status : Z) (text : Payload) : MsgResponse :=
  {| target := targetMsgId; status := status; res_data := text |}.

Definition new_MsgGenericError (targetMsgId : Z) (text : string) : MsgResponse :=
  new_MsgResponseWithCode targetMsgId 500 (PStr text).

(** [RouteResponse]: [{data, error?}]. *)
Record RouteResponse := mkRouteResponse {
  rr_data : Payload;
  rr_error : option Payload
}.

Definition new_RouteResponse (data : Payload) : RouteResponse :=
  {| rr_data := data; rr_error := None |}.

(** [new_RouteResponseError(msg.data as string)]: the cast is erased at run
    time, so [error] holds the payload as received. *)
Definition new_RouteResponseError (error : Payload) : RouteResponse :=
  {| rr_data := PStr ""; rr_error := Some error |}.

(** [!response.error] *)
Definition noError (r : RouteResponse) : bool :=
  match rr_error r with
  | None => true
  | Some e => negb (truthy e)
  end.

Definition new_MsgRoute (route : string) (verb : RouteVerb) (data : Payload)
    (headers : option (list (string * string))) : MsgRoute :=
  {| verb := verb; route := route; route_data := data; headers := headers |}.

Record MsgWrapper := mkMsgWrapper {
  wid : Z;
  wmsg : MsgType
}.

Definition new_MsgWrapper (id : MsgID) (msg : MsgType) : MsgWrapper :=
  {| wid := id; wmsg := msg |}.

Definition new_SendAndForgetMsgWrapper (msg : MsgType) : MsgWrapper :=
  {| wid := -1; wmsg := msg |}.

Record SentMessages := mkSentMessages {
  wrappedMsg : MsgWrapper;
  sentAt : Z;
  sentAmount : Z
}.

(** ** Tracked outcomes ([trackedPromise.ts]) *)

(** A response is a value or a promise; promises live in the table
    [promises] of the connection that created them. *)
Inductive Response : Type :=
| Immediate (m : MsgResponse)
| Promised (p : nat).

(** State of the promise returned by [handleRouteMessage(msgId, msg)].  While
    it is pending, [awaiting] counts the [postAndForget] calls suspended on
    it. *)
Inductive PromiseState : Type :=
| PPending (msgId : Z) (awaiting : nat)
| PFulfilled (m : MsgResponse)
| PRejected.

(** [TrackedPromise<MsgResponse>]: [_original] is kept; [_isPending] is
    cleared by the reaction installed in the constructor, that is, it is
    read off the promise table. *)
Record TrackedPromise := mkTrackedPromise {
  _original : Response
}.

Definition getOriginal (t : TrackedPromise) : Response := _original t.

Definition isPending (table : list PromiseState) (t : TrackedPromise) : bool :=
  match _original t with
  | Immediate _ => false
  | Promised p =>
      match table !! p with
      | Some (PPending _ _) => true
      | _ => false
      end
  end.

Record MessageResponsePair := mkPair {
  wrapper : MsgWrapper;
  response : TrackedPromise
}.

(** ** Callbacks and events *)

(** The closures stored in [callbacks]: the one [setSocket] registers for the
    secret handshake, the one [sendPingWaitForPong] registers for a ping
    round, and application callbacks, identified by a tag.  An application
    callback is code of the caller: it is recorded as an event, returns, and
    does not call back into the connection. *)
Inductive Callback : Type :=
| CbHandshake
| CbPong (round : nat)
| CbUser (tag : nat).

(** What an application callback is called with: a [RouteResponse] from
    [handleResponse], or the [MsgResponse] object [sendToRoute] builds for the
    rate limit. *)
Inductive CallbackArg : Type :=
| ArgRoute (r : RouteResponse)
| ArgMsg (m : MsgResponse).

Inductive Event : Type :=
| EvSend (w : MsgWrapper)                     (* strategy.send(w) *)
| EvCallback (tag : nat) (arg : CallbackArg)  (* application callback called *)
| EvRouteMessage (msgId : Z) (m : MsgRoute)   (* onRouteMessage(msgId, m) called *)
| EvDispatch (w : MsgWrapper)                 (* the switch on msg.type is entered *)
| EvSendToRoute (conn : nat).                 (* the router calls conn.sendToRoute *)

(** ** The method monad *)

Inductive Outcome (A : Type) : Type :=
| Ret (a : A)
| Throw (e : string).
Arguments Ret {A} a.
Arguments Throw {A} e.

Definition M (S A : Type) : Type := S -> Outcome A * S * list Event.

Definition ret {S A} (a : A) : M S A := fun s => (Ret a, s, []).

Definition bind {S A B} (m : M S A) (k : A -> M S B) : M S B :=
  fun s =>
    match m s with
    | (Ret a, s1, e1) =>
        match k a s1 with
        | (o, s2, e2) => (o, s2, e1 ++ e2)
        end
    | (Throw e, s1, e1) => (Throw e, s1, e1)
    end.

Definition throw {S A} (e : string) : M S A := fun s => (Throw e, s, []).

(** [try { m } catch (e) { h }] *)
Definition tryCatch {S A} (m : M S A) (h : string -> M S A) : M S A :=
  fun s =>
    match m s with
    | (Ret a, s1, e1) => (Ret a, s1, e1)
    | (Throw e, s1, e1) =>
        match h e s1 with
        | (o, s2, e2) => (o, s2, e1 ++ e2)
        end
    end.

Definition get {S} : M S S := fun s => (Ret s, s, []).
Definition modify {S} (f : S -> S) : M S unit := fun s => (Ret tt, f s, []).
Definition emit {S} (e : Event) : M S unit := fun s => (Ret tt, s, [e]).

(** Run a method of a component on that component of a pair. *)
Definition onFst {S E A} (m : M S A) : M (S * E) A :=
  fun se =>
    match m (fst se) with
    | (o, s', ev) => (o, (s', snd se), ev)
    end.

#[global] Instance M_ret {S} : MRet (M S) := fun A a => ret a.
#[global] Instance M_bind {S} : MBind (M S) := fun A B k m => bind m k.

Definition state_of {S A} (r : Outcome A * S * list Event) : S := snd (fst r).
Definition events_of {S A} (r : Outcome A * S * list Event) : list Event := snd r.
Definition outcome_of {S A} (r : Outcome A * S * list Event) : Outcome A := fst (fst r).

(** ** The connection object ([Connection.ts]) *)

Record Connection := mkConnection {
  nextMsgId : MsgID;
  isClient : bool;
  messagesToAck : list SentMessages;
  receivedMessages : list MessageResponsePair;
  messagesToSendAfterReconnect : list MsgWrapper;
  callbacks : gmap Z Callback;
  messagesSentInASecond : Z;
  header : gmap string Payload;
  connected : bool;  (* strategy.isConnected(), socket.readyState === OPEN *)
  closingTimer : bool;  (* a close timer is armed *)
  promises : list PromiseState;  (* promises made by handleRouteMessage *)
  pongsReceived : list nat  (* ping rounds whose pongReceived is true *)
}.

(** Field updates. *)
Definition set_nextMsgId (v : MsgID) (c : Connection) : Connection :=
  {| nextMsgId := v; isClient := isClient c;
     messagesToAck := messagesToAck c;
     receivedMessages := receivedMessages c;
     messagesToSendAfterReconnect := messagesToSendAfterReconnect c;
     callbacks := callbacks c;
     messagesSentInASecond := messagesSentInASecond c; header := header c;
     connected := connected c; closingTimer := closingTimer c;
     promises := promises c; pongsReceived := pongsReceived c |}.
Definition set_messagesToAck (v : list SentMessages) (c : Connection) : Connection :=
  {| nextMsgId := nextMsgId c; isClient := isClient c; messagesToAck := v;
     receivedMessages := receivedMessages c;
     messagesToSendAfterReconnect := messagesToSendAfterReconnect c;
     callbacks := callbacks c;
     messagesSentInASecond := messagesSentInASecond c; header := header c;
     connected := connected c; closingTimer := closingTimer c;
     promises := promises c; pongsReceived := pongsReceived c |}.
Definition set_receivedMessages (v : list MessageResponsePair) (c : Connection) : Connection :=
  {| nextMsgId := nextMsgId c; isClient := isClient c;
     messagesToAck := messagesToAck c; receivedMessages := v;
     messagesToSendAfterReconnect := messagesToSendAfterReconnect c;
     callbacks := callbacks c;
     messagesSentInASecond := messagesSentInASecond c; header := header c;
     connected := connected c; closingTimer := closingTimer c;
     promises := promises c; pongsReceived := pongsReceived c |}.
Definition set_messagesToSendAfterReconnect (v : list MsgWrapper) (c : Connection) : Connection :=
  {| nextMsgId := nextMsgId c; isClient := isClient c;
     messagesToAck := messagesToAck c;
     receivedMessages := receivedMessages c;
     messagesToSendAfterReconnect := v; callbacks := callbacks c;
     messagesSentInASecond := messagesSentInASecond c; header := header c;
     connected := connected c; closingTimer := closingTimer c;
     promises := promises c; pongsReceived := pongsReceived c |}.
Definition set_callbacks (v : gmap Z Callback) (c : Connection) : Connection :=
  {| nextMsgId := nextMsgId c; isClient := isClient c;
     messagesToAck := messagesToAck c;
     receivedMessages := receivedMessages c;
     messagesToSendAfterReconnect := messagesToSendAfterReconnect c;
     callbacks := v; messagesSentInASecond := messagesSentInASecond c;
     header := header c; connected := connected c;
     closingTimer := closingTimer c; promises := promises c;
     pongsReceived := pongsReceived c |}.
Definition set_messagesSentInASecond (v : Z) (c : Connection) : Connection :=
  {| nextMsgId := nextMsgId c; isClient := isClient c;
     messagesToAck := messagesToAck c;
     receivedMessages := receivedMessages c;
     messagesToSendAfterReconnect := messagesToSendAfterReconnect c;
     callbacks := callbacks c; messagesSentInASecond := v;
     header := header c; connected := connected c;
     closingTimer := closingTimer c; promises := promises c;
     pongsReceived := pongsReceived c |}.
Definition set_header (v : gmap string Payload) (c : Connection) : Connection :=
  {| nextMsgId := nextMsgId c; isClient := isClient c;
     messagesToAck := messagesToAck c;
     receivedMessages := receivedMessages c;
     messagesToSendAfterReconnect := messagesToSendAfterReconnect c;
     callbacks := callbacks c;
     messagesSentInASecond := messagesSentInASecond c; header := v;
     connected := connected c; closingTimer := closingTimer c;
     promises := promises c; pongsReceived := pongsReceived c |}.
Definition set_connected (v : bool) (c : Connection) : Connection :=
  {| nextMsgId := nextMsgId c; isClient := isClient c;
     messagesToAck := messagesToAck c;
     receivedMessages := receivedMessages c;
     messagesToSendAfterReconnect := messagesToSendAfterReconnect c;
     callbacks := callbacks c;
     messagesSentInASecond := messagesSentInASecond c; header := header c;
     connected := v; closingTimer := closingTimer c; promises := promises c;
     pongsReceived := pongsReceived c |}.
Definition set_closingTimer (v : bool) (c : Connection) : Connection :=
  {| nextMsgId := nextMsgId c; isClient := isClient c;
     messagesToAck := messagesToAck c;
     receivedMessages := receivedMessages c;
     messagesToSendAfterReconnect := messagesToSendAfterReconnect c;
     callbacks := callbacks c;
     messagesSentInASecond := messagesSentInASecond c; header := header c;
     connected := connected c; closingTimer := v; promises := promises c;
     pongsReceived := pongsReceived c |}.
Definition set_promises (v : list PromiseState) (c : Connection) : Connection :=
  {| nextMsgId := nextMsgId c; isClient := isClient c;
     messagesToAck := messagesToAck c;
     receivedMessages := receivedMessages c;
     messagesToSendAfterReconnect := messagesToSendAfterReconnect c;
     callbacks := callbacks c;
     messagesSentInASecond := messagesSentInASecond c; header := header c;
     connected := connected c; closingTimer := closingTimer c;
     promises := v; pongsReceived := pongsReceived c |}.
Definition set_pongsReceived (v : list nat) (c : Connection) : Connection :=
  {| nextMsgId := nextMsgId c; isClient := isClient c;
     messagesToAck := messagesToAck c;
     receivedMessages := receivedMessages c;
     messagesToSendAfterReconnect := messagesToSendAfterReconnect c;
     callbacks := callbacks c;
     messagesSentInASecond := messagesSentInASecond c; header := header c;
     connected := connected c; closingTimer := closingTimer c;
     promises := promises c; pongsReceived := v |}.

(** The constructor: [new Connection(strategy, secret, isClient)]. *)
Definition newConnection (secret : ConnectionSecret) (client : bool) : Connection :=
  {| nextMsgId := 0; isClient := client; messagesToAck := [];
     receivedMessages := []; messagesToSendAfterReconnect := [];
     callbacks := ∅; messagesSentInASecond := 0;
     header := {[ "secret" := PStr secret ]}; connected := false;
     closingTimer := false; promises := []; pongsReceived := [] |}.

Definition RESEND_NOT_ANSWERED_MESSAGES_AFTER_MS : Z := 3000.
Definition SEND_LIMIT_PER_SEC : Z := 100.

(** [getSecret()]: [this.header['secret'] || '']. *)
Definition getSecret (c : Connection) : Payload :=
  match header c !! "secret" with
  | Some p => if truthy p then p else PStr ""
  | None => PStr ""
  end.

(** Index of the last element satisfying [P]: what the loops
    [for (let i = length - 1; i >= 0; i--) if (P(l[i])) ...] stop at. *)
Fixpoint findLastIndex {A} (P : A -> bool) (l : list A) : option nat :=
  match l with
  | [] => None
  | x :: l' =>
      match findLastIndex P l' with
      | Some j => Some (S j)
      | None => if P x then Some 0%nat else None
      end
  end.

Fixpoint forEach {S A} (l : list A) (f : A -> M S unit) : M S unit :=
  match l with
  | [] => ret tt
  | x :: l' => f x;; forEach l' f
  end.

Definition isRes (m : MsgType) : bool :=
  match m with Res _ => true | _ => false end.

Definition messageNeedsAck (w : MsgWrapper) : bool :=
  negb (wid w =? -1) && negb (isRes (wmsg w)).

(** [strategy.send(w)] of [WebSocketStrategy]: throws unless the socket is
    open. *)
Definition strategy_send (w : MsgWrapper) : M Connection unit :=
  c ← get;
  if connected c then emit (EvSend w) else throw "WebSocket is not connected".

Definition hasId (id : Z) (e : SentMessages) : bool := wid (wrappedMsg e) =? id.

(** [messagesToAck[i].sentAmount++; messagesToAck[i].sentAt = Date.now()] *)
Definition resent (now : Z) (e : SentMessages) : SentMessages :=
  {| wrappedMsg := wrappedMsg e; sentAt := now; sentAmount := sentAmount e + 1 |}.

(** [sendWrappedMsg(wrappedMsg, sentIdx = -1)]; [None] is the default -1. *)
Definition sendWrappedMsg (now : Z) (w : MsgWrapper) (sentIdx : option nat)
    : M Connection unit :=
  (if messageNeedsAck w then
     c ← get;
     let targetIndex :=
       match sentIdx with
       | Some i => Some i
       | None => findLastIndex (hasId (wid w)) (messagesToAck c)
       end in
     match targetIndex with
     | None =>
         modify (set_messagesToAck
                   (messagesToAck c ++
                    [{| wrappedMsg := w; sentAt := now; sentAmount := 1 |}]))
     | Some i =>
         match messagesToAck c !! i with
         | Some e => modify (set_messagesToAck (<[i := resent now e]> (messagesToAck c)))
         | None => throw "TypeError"
         end
     end
   else ret tt);;
  strategy_send w.

(** [postAndExpectResponse(msg)] *)
Definition postAndExpectResponse (now : Z) (msg : MsgType) : M Connection MsgID :=
  if isRes msg then throw "Can't send a response that expects an acknowledge"
  else
    c ← get;
    let id := nextMsgId c in
    modify (set_nextMsgId (id + 1));;
    let wrapped := new_MsgWrapper id msg in
    (if connected c
     then tryCatch (sendWrappedMsg now wrapped None) (fun _ => ret tt)
     else modify (fun c' => set_messagesToSendAfterReconnect
                              (messagesToSendAfterReconnect c' ++ [wrapped]) c'));;
    ret id.

(** [postAndForget(msg)] for a message that is not a promise. *)
Definition postAndForgetMsg (now : Z) (msg : MsgType) : M Connection unit :=
  c ← get;
  if connected c
  then tryCatch (sendWrappedMsg now (new_SendAndForgetMsgWrapper msg) None)
                (fun _ => ret tt)
  else ret tt.

(** [postAndForget(msgOrPromise)]: a fulfilled promise gives its value; on a
    pending one the call is suspended; on a rejected one the [await] throws
    inside the async function and nothing is sent.  The function is async:
    its body after the [await] runs in a later microtask, which is taken
    here to run before the next operation on the connection. *)
Definition postAndForget (now : Z) (r : Response) : M Connection unit :=
  match r with
  | Immediate m => postAndForgetMsg now (Res m)
  | Promised p =>
      c ← get;
      match promises c !! p with
      | Some (PFulfilled m) => postAndForgetMsg now (Res m)
      | Some (PPending id n) =>
          modify (set_promises (<[p := PPending id (S n)]> (promises c)))
      | Some PRejected | None => ret tt
      end
  end.

(** [post(msg, callback?)] *)
Definition post (now : Z) (msg : MsgType) (callback : option nat) : M Connection unit :=
  msgId ← postAndExpectResponse now msg;
  match callback with
  | Some tag => modify (fun c => set_callbacks (<[msgId := CbUser tag]> (callbacks c)) c)
  | None => ret tt
  end.

Definition rateLimitText : string :=
  "Rate limit of 100 messages per second exceeded".

(** [sendToRoute(route, verb, payload, headers?, callback?)] *)
Definition sendToRoute (now : Z) (route : string) (verb : RouteVerb) (payload : Payload)
    (headers : option (list (string * string))) (callback : option nat)
    : M Connection unit :=
  c ← get;
  (if SEND_LIMIT_PER_SEC <? messagesSentInASecond c
   then match callback with
        | Some tag =>
            emit (EvCallback tag
                    (ArgMsg (new_MsgResponseWithCode (-1) 429 (PStr rateLimitText))))
        | None => ret tt
        end
   else ret tt);;
  let msg := new_MsgRoute route verb (if truthy payload then payload else PStr "") headers in
  msgId ← postAndExpectResponse now (Route msg);
  modify (fun c' => set_messagesSentInASecond (messagesSentInASecond c' + 1) c');;
  match callback with
  | Some tag => modify (fun c' => set_callbacks (<[msgId := CbUser tag]> (callbacks c')) c')
  | None => ret tt
  end.

(** [sendToRouteAndForget(route, verb, payload, headers?)] *)
Definition sendToRouteAndForget (now : Z) (route : string) (verb : RouteVerb)
    (payload : Payload) (headers : option (list (string * string))) : M Connection unit :=
  postAndForgetMsg now (Route (new_MsgRoute route verb payload headers)).

(** [sendMessagesFromLaterList()] *)
Definition sendMessagesFromLaterList (now : Z) : M Connection unit :=
  c ← get;
  forEach (messagesToSendAfterReconnect c) (fun w => sendWrappedMsg now w None);;
  modify (set_messagesToSendAfterReconnect []).

(** The body of the 10 ms interval of the constructor. *)
Definition retryTick (now : Z) : M Connection unit :=
  c ← get;
  if negb (connected c) then ret tt
  else
    forEach (seq 0 (length (messagesToAck c)))
      (fun i =>
         c' ← get;
         match messagesToAck c' !! i with
         | Some m =>
             if RESEND_NOT_ANSWERED_MESSAGES_AFTER_MS <? now - sentAt m
             then sendWrappedMsg now (wrappedMsg m) (Some i)
             else ret tt
         | None => ret tt
         end).

(** The body of the 1000 ms interval of the constructor. *)
Definition rateReset : M Connection unit :=
  modify (set_messagesSentInASecond 0).

(** [getReceivedPairById(id)] *)
Definition getReceivedPairById (id : MsgID) (c : Connection) : option MessageResponsePair :=
  match findLastIndex (fun p => wid (wrapper p) =? id) (receivedMessages c) with
  | Some i => receivedMessages c !! i
  | None => None
  end.

(** [removeMessageToAck(id)]: [splice(i, 1)] at the last matching index. *)
Definition removeMessageToAck (id : MsgID) : M Connection unit :=
  c ← get;
  match findLastIndex (hasId id) (messagesToAck c) with
  | Some i => modify (set_messagesToAck (delete i (messagesToAck c)))
  | None => ret tt
  end.

(** [data[i]] for [i] = 0, 1: a [TypeError] ([None]) on [null] and
    [undefined], the element or character otherwise, [undefined] when there
    is none. *)
Definition payloadIndex (p : Payload) (i : nat) : option Payload :=
  match p with
  | PUndefined | PNull => None
  | PArr items => Some (default PUndefined (items !! i))
  | PStr s =>
      Some (match String.get i s with
            | Some ch => PStr (String ch EmptyString)
            | None => PUndefined
            end)
  | PObj fields =>
      Some (match findLastIndex (fun kv => String.eqb (fst kv) (pretty i)) fields with
            | Some j => default PUndefined (snd <$> fields !! j)
            | None => PUndefined
            end)
  | PBool _ | PNum _ => Some PUndefined
  end.

(** [handleRouteMessage]'s translation of what [onRouteMessage] resolved to:
    nothing, [{data}] or [{error}]. *)
Definition routeReply (msgId : Z) (resp : option RouteResponse) : MsgResponse :=
  match resp with
  | None => new_MsgResponseOK msgId PUndefined
  | Some r =>
      if noError r then new_MsgResponseOK msgId (rr_data r)
      else new_MsgResponseWithCode msgId 400 (default PUndefined (rr_error r))
  end.

(** How the promise of [onRouteMessage] settles. *)
Inductive HandlerResult : Type :=
| HResolved (resp : option RouteResponse)
| HRejected.

(** The promise [p] made by [handleRouteMessage] settles: the tracked
    promise stops being pending and every [postAndForget] suspended on it
    resumes. *)
Definition settleRouteMessage (now : Z) (p : nat) (result : HandlerResult)
    : M Connection unit :=
  c ← get;
  match promises c !! p with
  | Some (PPending msgId n) =>
      match result with
      | HResolved resp =>
          let m := routeReply msgId resp in
          modify (set_promises (<[p := PFulfilled m]> (promises c)));;
          forEach (replicate n tt) (fun _ => postAndForgetMsg now (Res m))
      | HRejected => modify (set_promises (<[p := PRejected]> (promises c)))
      end
  | _ => ret tt
  end.

(** The event hooks of a connection, over the state [Env] of whoever
    installed them.  A hook reads the connection it belongs to (the router's
    closures call [conn.getSecret()]) and changes only the state of its
    installer; the hooks that return an [Outcome] may throw. *)
Record Hooks (Env : Type) := mkHooks {
  onOpen : Env -> Env;
  onDataSet : Connection -> string * Payload -> Env -> Outcome unit * Env;
  onSubscribeToRoute : Connection -> string -> Env -> Outcome unit * Env;
  onUnsubscribeFromRoute : Connection -> string -> Env -> Outcome unit * Env;
  onClose : Connection -> Env -> Env;
  onClientConnect : Env -> Env
}.
Arguments onOpen {Env} _ _.
Arguments onDataSet {Env} _ _ _ _.
Arguments onSubscribeToRoute {Env} _ _ _ _.
Arguments onUnsubscribeFromRoute {Env} _ _ _ _.
Arguments onClose {Env} _ _ _.
Arguments onClientConnect {Env} _ _.

(** The hooks a connection is created with: [() => { }]. *)
Definition defaultHooks (Env : Type) : Hooks Env :=
  {| onOpen := fun e => e;
     onDataSet := fun _ _ e => (Ret tt, e);
     onSubscribeToRoute := fun _ _ e => (Ret tt, e);
     onUnsubscribeFromRoute := fun _ _ e => (Ret tt, e);
     onClose := fun _ e => e;
     onClientConnect := fun e => e |}.

Section Engine.
Context {Env : Type} (hooks : Hooks Env).

Definition callHook (h : Connection -> Env -> Outcome unit * Env)
    : M (Connection * Env) unit :=
  fun s =>
    match h (fst s) (snd s) with
    | (o, e') => (o, (fst s, e'), [])
    end.

Definition updateConn (f : Connection -> Connection) : M (Connection * Env) unit :=
  onFst (modify f).

(** Calling a closure stored in [callbacks]. *)
Definition runCallback (cb : Callback) (response : RouteResponse)
    : M (Connection * Env) unit :=
  match cb with
  | CbUser tag => emit (EvCallback tag (ArgRoute response))
  | CbPong round =>
      if noError response
      then updateConn (fun c => set_pongsReceived (round :: pongsReceived c) c)
      else ret tt
  | CbHandshake =>
      if noError response then
        match payloadIndex (rr_data response) 0, payloadIndex (rr_data response) 1 with
        | Some k, Some v =>
            updateConn (fun c => set_header (<[toPropertyKey k := v]> (header c)) c);;
            s ← get;
            if truthy (default PUndefined (header (fst s) !! "secret"))
            then callHook (fun _ e => (Ret tt, onClientConnect hooks e))
            else ret tt
        | _, _ => throw "TypeError"
        end
      else updateConn (fun c => set_header (<["secret" := PStr ""]> (header c)) c)
  end.

(** [handleResponse(msg)] *)
Definition handleResponse (msg : MsgResponse) : M (Connection * Env) unit :=
  let msgId := target msg in
  if status msg =? 202 then ret tt
  else
    let response :=
      if status msg =? 200 then new_RouteResponse (res_data msg)
      else new_RouteResponseError (res_data msg) in
    s ← get;
    match callbacks (fst s) !! msgId with
    | Some callback =>
        runCallback callback response;;
        updateConn (fun c => set_callbacks (delete msgId (callbacks c)) c)
    | None => ret tt
    end;;
    onFst (removeMessageToAck msgId).

(** [handleDataSet(msgId, msg)] *)
Definition handleDataSet (msgId : MsgID) (key : string) (value : Payload)
    : M (Connection * Env) MsgResponse :=
  updateConn (fun c => set_header (<[key := value]> (header c)) c);;
  callHook (fun c => onDataSet hooks c (key, value));;
  ret (new_MsgResponseOK msgId (PArr [PStr key; value])).

(** [handleRouteSubscription(msgId, msg)] *)
Definition handleRouteSubscription (msgId : Z) (r : string)
    : M (Connection * Env) MsgResponse :=
  callHook (fun c => onSubscribeToRoute hooks c r);;
  ret (new_MsgResponseOK msgId PUndefined).

(** [handleRouteUnsubscription(msgId, msg)] *)
Definition handleRouteUnsubscription (msgId : Z) (r : string)
    : M (Connection * Env) MsgResponse :=
  callHook (fun c => onUnsubscribeFromRoute hooks c r);;
  ret (new_MsgResponseOK msgId PUndefined).

(** [handleRouteMessage(msgId, msg)]: an async function; it calls
    [onRouteMessage] and returns a pending promise. *)
Definition handleRouteMessage (msgId : Z) (msg : MsgRoute)
    : M (Connection * Env) Response :=
  emit (EvRouteMessage msgId msg);;
  s ← get;
  let p := length (promises (fst s)) in
  updateConn (fun c => set_promises (promises c ++ [PPending msgId 0]) c);;
  ret (Promised p).

(** The [switch (msg.type)] of [handleMessage]; the result is the value
    assigned to [response], [None] for [null]. *)
Definition dispatch (id : MsgID) (msg : MsgType)
    : M (Connection * Env) (option Response) :=
  match msg with
  | MsgDataSet key value =>
      r ← handleDataSet id key value; ret (Some (Immediate r))
  | MsgPing => ret (Some (Immediate (new_MsgResponseOK id (PStr "pong"))))
  | Res m => handleResponse m;; ret None
  | MsgSubscribeToRoute r =>
      m ← handleRouteSubscription id r; ret (Some (Immediate m))
  | MsgUnsubscribeFromRoute r =>
      m ← handleRouteUnsubscription id r; ret (Some (Immediate m))
  | Route m => r ← handleRouteMessage id m; ret (Some r)
  | MsgOther _ => throw "Unknown message type"
  end.

Definition noResponse (id : MsgID) : Response :=
  Immediate (new_MsgGenericError id "No response").

Definition beingProcessed (id : MsgID) : MsgResponse :=
  new_MsgResponseWithCode id 202 (PStr "Message is being processed").

(** [handleMessage(wrapper)] *)
Definition handleMessage (now : Z) (w : MsgWrapper) : M (Connection * Env) unit :=
  let id := wid w in
  let needsResponse := negb (id =? -1) in
  let msg := wmsg w in
  s ← get;
  let alreadyReceived :=
    if needsResponse then getReceivedPairById id (fst s) else None in
  match alreadyReceived with
  | Some received =>
      if isPending (promises (fst s)) (response received)
      then onFst (postAndForget now (Immediate (beingProcessed id)))
      else onFst (postAndForget now (getOriginal (response received)))
  | None =>
      resp ← tryCatch
        (emit (EvDispatch w);;
         r ← dispatch id msg;
         if needsResponse then
           let r' := default (noResponse id) r in
           onFst (postAndForget now r');; ret (Some r')
         else ret r)
        (fun _ =>
           (if needsResponse
            then onFst (postAndForgetMsg now
                          (Res (new_MsgGenericError id "Error handling message")))
            else ret tt);;
           ret None);
      if needsResponse then
        updateConn (fun c =>
          set_receivedMessages
            (receivedMessages c ++
             [{| wrapper := w;
                 response := {| _original := default (noResponse id) resp |} |}]) c)
      else ret tt
  end.

(** *** Transport events and life cycle *)

Definition clearClosingTimer : M (Connection * Env) unit :=
  updateConn (set_closingTimer false).

(** [close()]: the timer is cleared and the transport disconnected. *)
Definition close : M (Connection * Env) unit :=
  clearClosingTimer;;
  updateConn (set_connected false).

(** The handler given to [strategy.onOpen]; the transport is open when it
    runs. *)
Definition transportOpened : M (Connection * Env) unit :=
  updateConn (set_connected true);;
  clearClosingTimer;;
  callHook (fun _ e => (Ret tt, onOpen hooks e)).

(** The handler given to [strategy.onClose] ([socket.onclose]). *)
Definition transportClosed : M (Connection * Env) unit :=
  updateConn (set_connected false);;
  s ← get;
  if isClient (fst s) then callHook (fun c e => (Ret tt, onClose hooks c e))
  else clearClosingTimer;; updateConn (set_closingTimer true).

(** The timeout armed by a close on the server side fires. *)
Definition closeTimerFired : M (Connection * Env) unit :=
  s ← get;
  if closingTimer (fst s)
  then updateConn (set_closingTimer false);;
       callHook (fun c e => (Ret tt, onClose hooks c e))
  else ret tt.

(** [connect()] once the transport reports open. *)
Definition connect : M (Connection * Env) unit :=
  updateConn (set_connected true);;
  callHook (fun _ e => (Ret tt, onOpen hooks e)).

(** [setStrategy(newStrategy)] *)
Definition setStrategy (now : Z) : M (Connection * Env) unit :=
  close;;
  connect;;
  onFst (sendMessagesFromLaterList now).

(** [setSocket(ws)] of the socket based variant; [isOpen] is whether [ws]
    is already open. *)
Definition setSocket (now : Z) (isOpen : bool) : M (Connection * Env) unit :=
  updateConn (set_connected isOpen);;
  clearClosingTimer;;
  s ← get;
  if isClient (fst s) then
    msgId ← onFst (postAndExpectResponse now
                     (msg_ConnDataSet "secret"
                        (default PUndefined (header (fst s) !! "secret"))));
    updateConn (fun c => set_callbacks (<[msgId := CbHandshake]> (callbacks c)) c)
  else ret tt.

(** [socket.onopen] as [setSocket] leaves it. *)
Definition socketOpened (now : Z) : M (Connection * Env) unit :=
  updateConn (set_connected true);;
  onFst (sendMessagesFromLaterList now).

(** [sendPingWaitForPong()] up to its [await]; [round] names the local
    variable [pongReceived] of this call. *)
Definition sendPing (now : Z) (round : nat) : M (Connection * Env) unit :=
  msgId ← onFst (postAndExpectResponse now pingMsg);
  updateConn (fun c => set_callbacks (<[msgId := CbPong round]> (callbacks c)) c).

(** [pingPong()] after the 5000 ms wait of a round. *)
Definition pongTimeout (round : nat) : M (Connection * Env) unit :=
  s ← get;
  if bool_decide (round ∈ pongsReceived (fst s)) then ret tt else close.

(** *** The life of a connection *)

(** What can happen to a connection: calls of its public methods, timer
    ticks, transport events and settlements of route handlers. *)
Inductive Op : Type :=
| OpPost (msg : MsgType) (callback : option nat)
| OpSendToRoute (route : string) (verb : RouteVerb) (payload : Payload)
    (headers : option (list (string * string))) (callback : option nat)
| OpSendToRouteAndForget (route : string) (verb : RouteVerb) (payload : Payload)
    (headers : option (list (string * string)))
| OpDeliver (w : MsgWrapper)
| OpRetryTick
| OpRateReset
| OpPing (round : nat)
| OpPongTimeout (round : nat)
| OpSettle (p : nat) (result : HandlerResult)
| OpTransportOpen
| OpTransportClose
| OpCloseTimer
| OpClose
| OpConnect
| OpSetStrategy
| OpSetSocket (isOpen : bool)
| OpSocketOpen.

Definition step (now : Z) (op : Op) : M (Connection * Env) unit :=
  match op with
  | OpPost msg callback => onFst (post now msg callback)
  | OpSendToRoute r v payload hs callback =>
      onFst (sendToRoute now r v payload hs callback)
  | OpSendToRouteAndForget r v payload hs =>
      onFst (sendToRouteAndForget now r v payload hs)
  | OpDeliver w => handleMessage now w
  | OpRetryTick => onFst (retryTick now)
  | OpRateReset => onFst rateReset
  | OpPing round => sendPing now round
  | OpPongTimeout round => pongTimeout round
  | OpSettle p result => onFst (settleRouteMessage now p result)
  | OpTransportOpen => transportOpened
  | OpTransportClose => transportClosed
  | OpCloseTimer => closeTimerFired
  | OpClose => close
  | OpConnect => connect
  | OpSetStrategy => setStrategy now
  | OpSetSocket isOpen => setSocket now isOpen
  | OpSocketOpen => socketOpened now
  end.

(** A run: each operation happens at an instant; an exception that escapes
    one operation does not prevent the next. *)
Fixpoint run (ops : list (Z * Op)) (s : Connection * Env)
    : (Connection * Env) * list Event :=
  match ops with
  | [] => (s, [])
  | (now, op) :: rest =>
      match step now op s with
      | (_, s1, e1) =>
          match run rest s1 with
          | (s2, e2) => (s2, e1 ++ e2)
          end
      end
  end.

End Engine.

(** ** The router ([Router.ts]) *)

(** Connection objects are referred to by their address in a heap. *)
Abbreviation ConnRef := nat (only parsing).

(** The names of the properties of [Object.prototype]: an object literal
    has a value under each of them without a property of its own. *)
Definition objectPrototypeNames : list string :=
  ["constructor"; "__defineGetter__"; "__defineSetter__"; "hasOwnProperty";
   "__lookupGetter__"; "__lookupSetter__"; "isPrototypeOf"; "propertyIsEnumerable";
   "toString"; "valueOf"; "__proto__"; "toLocaleString"].

(** What a read of the directory [connections], an object literal, gives
    when it is not [undefined]: the connection object stored under the key,
    or the value [Object.prototype] has under that name (a function, the
    prototype itself for [__proto__]) where the directory has no property of
    its own.  Such a value is truthy, differs from every connection and has
    none of the methods of a connection.  [__proto__] is an accessor that a
    runtime may remove from [Object.prototype]: what the router does for an
    inherited name is stated for the other names. *)
Inductive DirectoryValue : Type :=
| Registered (ref : ConnRef)
| FromPrototype (name : string).

#[global] Instance DirectoryValue_eq_dec : EqDecision DirectoryValue.
Proof. solve_decision. Defined.

Record RouteListener := mkRouteListener {
  conn : ConnectionSecret;
  params : list string
}.

(** What a broadcast validator returns: a boolean, or a promise that
    resolves to one ([Some]) or rejects ([None]).  Only its truthiness is
    used. *)
Inductive Validation : Type :=
| VSync (isValid : bool)
| VAsync (isValid : option bool).

(** [OutRouteLayer].  [matchPath] is the function [match(regexp, ...)] made
    for the layer: [None] when the path is not accepted, otherwise the
    object [match.params] as its entries in property order, so that
    [Object.values(match.params)] is [map snd]. *)
Record OutRouteLayer := mkOutRouteLayer {
  layer_id : Z;
  layer_route : string;
  regexp : string;
  matchPath : string -> option (list (string * string));
  keys : list string;
  listeners : list RouteListener;
  validate : option DirectoryValue -> list (string * string) -> Validation
}.

Definition set_listeners (v : list RouteListener) (r : OutRouteLayer) : OutRouteLayer :=
  {| layer_id := layer_id r; layer_route := layer_route r; regexp := regexp r;
     matchPath := matchPath r; keys := keys r; listeners := v;
     validate := validate r |}.

(** The router: the directory [connections] from secrets to connection
    objects and the outbound layers.  (The inbound layers only serve
    [handleRouteMessage], whose result reaches a connection through
    [settleRouteMessage].) *)
Record Router := mkRouter {
  nextRouteSubID : Z;
  connections : gmap string ConnRef;
  outRoutes : list OutRouteLayer
}.

Definition set_connections (v : gmap string ConnRef) (r : Router) : Router :=
  {| nextRouteSubID := nextRouteSubID r; connections := v; outRoutes := outRoutes r |}.
Definition set_outRoutes (v : list OutRouteLayer) (r : Router) : Router :=
  {| nextRouteSubID := nextRouteSubID r; connections := connections r; outRoutes := v |}.

Definition newRouter : Router :=
  {| nextRouteSubID := 0; connections := ∅; outRoutes := [] |}.

Definition objectValues (ps : list (string * string)) : list string := map snd ps.

(** [this.connections[key]]; [None] is [undefined]. *)
Definition readConnection (R : Router) (key : string) : option DirectoryValue :=
  match connections R !! key with
  | Some ref => Some (Registered ref)
  | None => if bool_decide (key ∈ objectPrototypeNames) then Some (FromPrototype key) else None
  end.

(** [subscribeConnectionToRoute(path, connSecret)] *)
Definition subscribeConnectionToRoute (path : string) (connSecret : ConnectionSecret)
    (R : Router) : Outcome unit * Router :=
  match readConnection R connSecret with
  | None => (Throw ("Connection with id " +:+ connSecret +:+ " does not exist"), R)
  | Some _ =>
      (Ret tt,
       set_outRoutes
         (map (fun r =>
                 match matchPath r path with
                 | Some ps =>
                     set_listeners
                       (listeners r ++ [{| conn := connSecret; params := objectValues ps |}]) r
                 | None => r
                 end) (outRoutes R)) R)
  end.

(** [unsubsctibeConnectionFromRoute(path, connSecret)] *)
Definition unsubsctibeConnectionFromRoute (path : string) (connSecret : ConnectionSecret)
    (R : Router) : Outcome unit * Router :=
  match readConnection R connSecret with
  | None => (Throw ("Connection with id " +:+ connSecret +:+ " does not exist"), R)
  | Some _ =>
      (Ret tt,
       set_outRoutes
         (map (fun r =>
                 match matchPath r path with
                 | Some _ =>
                     set_listeners
                       (filter (fun l => conn l ≠ connSecret) (listeners r)) r
                 | None => r
                 end) (outRoutes R)) R)
  end.

(** [removeConnection(connSecret)]: the loop evaluates
    [route.listeners.filter(...)] and drops the result. *)
Definition removeConnection (connSecret : ConnectionSecret) (R : Router) : Router :=
  set_outRoutes
    (map (fun r =>
            let _filtered := filter (fun l => conn l ≠ connSecret) (listeners r) in
            r) (outRoutes R))
    (set_connections (delete connSecret (connections R)) R).

(** The closures [addSocket] installs on the server connection [self].
    [conn.getSecret()] is typed as a string; a secret of another type is
    identified with the property key it is stored under. *)
Definition routerHooks (self : ConnRef) : Hooks Router :=
  {| onOpen := fun R => R;
     onDataSet := fun _ d R =>
       if String.eqb (fst d) "secret"
       then (Ret tt, set_connections (<[toPropertyKey (snd d) := self]> (connections R)) R)
       else (Ret tt, R);
     onSubscribeToRoute := fun c r R =>
       subscribeConnectionToRoute r (toPropertyKey (getSecret c)) R;
     onUnsubscribeFromRoute := fun c r R =>
       unsubsctibeConnectionFromRoute r (toPropertyKey (getSecret c)) R;
     onClose := fun c R => removeConnection (toPropertyKey (getSecret c)) R;
     onClientConnect := fun R => R |}.

(** The loop [for (i < listener.params.length)
    if (listener.params[i] !== paramsArr[i]) paramsMatch = false]. *)
Fixpoint paramsMatch (listenerParams paramsArr : list string) : bool :=
  match listenerParams with
  | [] => true
  | x :: rest =>
      match paramsArr with
      | [] => false
      | y :: rest' => if String.eqb x y then paramsMatch rest rest' else false
      end
  end.

(** The reaction [isValidForListener.then((isValid) => ...)] waiting for a
    validator's promise. *)
Record Reaction := mkReaction {
  rc_conn : option DirectoryValue;
  rc_isValid : option bool;
  rc_route : string;
  rc_verb : RouteVerb;
  rc_payload : Payload
}.

(** The router together with the connection objects it refers to and the
    validator reactions not yet run. *)
Record World := mkWorld {
  router : Router;
  heap : gmap ConnRef Connection;
  reactions : list Reaction
}.

Definition set_router (v : Router) (w : World) : World :=
  {| router := v; heap := heap w; reactions := reactions w |}.
Definition set_heap (v : gmap ConnRef Connection) (w : World) : World :=
  {| router := router w; heap := v; reactions := reactions w |}.
Definition set_reactions (v : list Reaction) (w : World) : World :=
  {| router := router w; heap := heap w; reactions := v |}.

(** Run a method on the connection object at [ref]. *)
Definition onConn (ref : ConnRef) (m : M Connection unit) : M World unit :=
  fun w =>
    match heap w !! ref with
    | Some c =>
        match m c with
        | (o, c', ev) => (o, set_heap (<[ref := c']> (heap w)) w, ev)
        end
    | None => (Ret tt, w, [])
    end.

(** [conn.sendToRoute(route, verb, payload)] where [conn] was read from the
    directory: a [TypeError] when it is [undefined] or a value of
    [Object.prototype], which has no such method. *)
Definition callSendToRoute (now : Z) (target : option DirectoryValue) (route : string)
    (verb : RouteVerb) (payload : Payload) : M World unit :=
  match target with
  | Some (Registered ref) =>
      emit (EvSendToRoute ref);;
      onConn ref (sendToRoute now route verb payload None None)
  | Some (FromPrototype _) | None => throw "TypeError"
  end.

(** The body of [for (const listener of r.listeners)] in
    [internalBroadcast]; [exceptConn] is a connection object or
    [undefined]. *)
Definition broadcastToListener (now : Z) (route : string) (verb : RouteVerb)
    (payload : Payload) (exceptConn : option ConnRef) (r : OutRouteLayer)
    (matched : list (string * string)) (listener : RouteListener) : M World unit :=
  w ← get;
  let target := readConnection (router w) (conn listener) in
  if bool_decide (target ≠ Registered <$> exceptConn) then
    if paramsMatch (params listener) (objectValues matched) then
      match validate r target matched with
      | VAsync isValid =>
          modify (fun w' =>
            set_reactions
              (reactions w' ++
               [{| rc_conn := target; rc_isValid := isValid; rc_route := route;
                   rc_verb := verb; rc_payload := payload |}]) w')
      | VSync true => callSendToRoute now target route verb payload
      | VSync false => ret tt
      end
    else ret tt
  else ret tt.

(** [internalBroadcast(route, action, payload, exceptConn?)] *)
Definition internalBroadcast (now : Z) (route : string) (action : string)
    (payload : Payload) (exceptConn : option ConnRef) : M World unit :=
  let verb : RouteVerb := action in
  w ← get;
  forEach (outRoutes (router w))
    (fun r =>
       match matchPath r route with
       | Some matched =>
           forEach (listeners r)
             (broadcastToListener now route verb payload exceptConn r matched)
       | None => ret tt
       end).

(** The reactions of the validators' promises run: a fulfilled promise with
    a truthy value sends; an exception in a reaction rejects the derived
    promise and goes no further. *)
Definition runReactions (now : Z) : M World unit :=
  w ← get;
  modify (set_reactions []);;
  forEach (reactions w)
    (fun rc =>
       match rc_isValid rc with
       | Some true =>
           tryCatch
             (callSendToRoute now (rc_conn rc) (rc_route rc) (rc_verb rc) (rc_payload rc))
             (fun _ => ret tt)
       | _ => ret tt
       end).

Definition broadcastPost (now : Z) (route : string) (payload : Payload)
    (exceptConn : option ConnRef) : M World unit :=
  internalBroadcast now route "POST" payload exceptConn.

Definition broadcastDeletion (now : Z) (route : string) (payload : Payload)
    (exceptConn : option ConnRef) : M World unit :=
  internalBroadcast now route "DELETE" payload exceptConn.

Definition broadcastUpdate (now : Z) (route : string) (payload : Payload)
    (exceptConn : option ConnRef) : M World unit :=
  internalBroadcast now route "UPDATE" payload exceptConn.

(** Run a method of the connection engine on the server connection at
    [ref], with the hooks the router gave it. *)
Definition onServerConn (ref : ConnRef) (m : Hooks Router -> M (Connection * Router) unit)
    : M World unit :=
  fun w =>
    match heap w !! ref with
    | Some c =>
        match m (routerHooks ref) (c, router w) with
        | (o, s', ev) =>
            (o, set_router (snd s') (set_heap (<[ref := fst s']> (heap w)) w), ev)
        end
    | None => (Ret tt, w, [])
    end.

(** Something happens to the server connection at [ref]. *)
Definition serverStep (now : Z) (ref : ConnRef) (op : Op) : M World unit :=
  onServerConn ref (fun hooks => step hooks now op).

(** [addSocket(socket, reconnectSecret)]; [isOpen] is whether the socket is
    already open.  Where the secret names a value of [Object.prototype]
    the first branch is taken and the call of [setSocket] on that value is
    a [TypeError]. *)
Definition addSocket (now : Z) (isOpen : bool) (reconnectSecret : option ConnectionSecret)
    : M World unit :=
  w ← get;
  let known :=
    match reconnectSecret with
    | Some s => if String.eqb s "" then None else readConnection (router w) s
    | None => None
    end in
  match known with
  | Some (Registered ref) => onServerConn ref (fun _ => setSocket now isOpen)
  | Some (FromPrototype _) => throw "TypeError"
  | None =>
      let ref := fresh (dom (heap w)) in
      modify (fun w' => set_heap (<[ref := newConnection "" false]> (heap w')) w');;
      onServerConn ref (fun _ => setSocket now isOpen)
  end.

Section RouterSetup.
(** The path-to-regexp facility: [pathToRegexp(route, keys)] gives the
    expression (as [String(regexp)]) and the names of its keys;
    [matchOf regexp] is [match(regexp, { decode })]. *)
Variable pathToRegexp : string -> string * list string.
Variable matchOf : string -> string -> option (list (string * string)).

(** [setOutRoute(route, validate)] *)
Definition setOutRoute (route : string)
    (validate : option DirectoryValue -> list (string * string) -> Validation)
    (R : Router) : Z * Router :=
  let '(re, names) := pathToRegexp route in
  match list_find (fun r => bool_decide (regexp r = re)) (outRoutes R) with
  | Some (_, targetRoute) => (layer_id targetRoute, R)
  | None =>
      let targetRoute :=
        {| layer_id := nextRouteSubID R; layer_route := route; regexp := re;
           matchPath := matchOf re; keys := names; listeners := [];
           validate := validate |} in
      (layer_id targetRoute,
       {| nextRouteSubID := nextRouteSubID R + 1; connections := connections R;
          outRoutes := outRoutes R ++ [targetRoute] |})
  end.

(** [onValidateBroadcast(route, validate)] *)
Definition onValidateBroadcast (route : string)
    (validate : option DirectoryValue -> list (string * string) -> Validation)
    (R : Router) : Router :=
  snd (setOutRoute route validate R).
End RouterSetup.

(** ** Connection secrets ([newConnectionSecret.ts]) *)

(** The digit of a value below 16 in [toString(16)]. *)
Definition hexDigit (d : N) : ascii :=
  match d with
  | 0 => "0" | 1 => "1" | 2 => "2" | 3 => "3" | 4 => "4" | 5 => "5" | 6 => "6"
  | 7 => "7" | 8 => "8" | 9 => "9" | 10 => "a" | 11 => "b" | 12 => "c"
  | 13 => "d" | 14 => "e" | _ => "f"
  end%N%char.

Fixpoint toString16_digits (fuel : nat) (n : N) (acc : string) : string :=
  match fuel with
  | O => acc
  | S fuel' =>
      let acc' := String (hexDigit (n mod 16)) acc in
      if (n / 16 =? 0)%N then acc' else toString16_digits fuel' (n / 16) acc'
  end.

(** [n.toString(16)] for a non-negative integer [n]; a number has no more
    hexadecimal digits than binary ones. *)
Definition toString16 (n : N) : string :=
  toString16_digits (S (N.to_nat (N.log2 n))) n "".

Fixpoint padding (n : nat) (ch : ascii) : string :=
  match n with
  | O => ""
  | S n' => String ch (padding n' ch)
  end.

(** [s.padStart(targetLength, ch)] for a one character pad string. *)
Definition padStart (targetLength : nat) (ch : ascii) (s : string) : string :=
  padding (targetLength - String.length s) ch +:+ s.

(** [generateSecret(length)]; [random i] is the byte that
    [crypto.getRandomValues] stores at index [i] of the array. *)
Definition generateSecret (len : nat) (random : nat -> Byte.byte) : string :=
  let array := map random (seq 0 len) in
  joinWith "" (map (fun byte => padStart 2 "0"%char (toString16 (Byte.to_N byte))) array).

Definition newConnectionSecret (random : nat -> Byte.byte) : string :=
  generateSecret 32 random.

(** [Connection.newClient(...)]: a client connection with a new secret. *)
Definition newClient (random : nat -> Byte.byte) : Connection :=
  newConnection (newConnectionSecret random) true.

(** [Connection.newServer(...)] *)
Definition newServer : Connection := newConnection "" false.

(** ** Inbound routes ([Router.ts]) *)

(** [RequestContext]; [ctx_error] and [ctx_response] are absent until a
    handler sets them. *)
Record RequestContext := mkRequestContext {
  ctx_params : gmap string Payload;
  ctx_sender : option DirectoryValue;
  ctx_data : Payload;
  ctx_headers : list (string * string);
  ctx_error : Payload;
  ctx_response : Payload;
  ctx_route : string
}.

(** A route handler, by what it leaves in the context it is given once its
    promise is fulfilled; [None] when it throws or its promise rejects. *)
Definition RouteHandler : Type := RequestContext -> option RequestContext.

Record VerbAndHandler := mkVerbAndHandler {
  vh_verb : RouteVerb;
  vh_handler : RouteHandler
}.

Record InRouteLayer := mkInRouteLayer {
  in_id : Z;
  in_route : string;
  in_regexp : string;
  in_matchPath : string -> option (list (string * string));
  in_keys : list string;
  verbs : list VerbAndHandler
}.

(** The router with its inbound layers. *)
Record RouterIn := mkRouterIn {
  outbound : Router;
  inRoutes : list InRouteLayer
}.

(** [match.params[i]]: the property of the object named by the index. *)
Definition paramAt (ps : list (string * string)) (i : nat) : Payload :=
  match findLastIndex (fun kv => String.eqb (fst kv) (pretty i)) ps with
  | Some j => default PUndefined ((fun kv => PStr (snd kv)) <$> ps !! j)
  | None => PUndefined
  end.

(** The loop [params[route.keys[i]] = match.params[i]] on the object
    literal [params]; assigning a string or [undefined] to [__proto__]
    creates no property. *)
Definition assignParam (ps : list (string * string)) (params : gmap string Payload)
    (ik : nat * string) : gmap string Payload :=
  if String.eqb (snd ik) "__proto__" then params
  else <[snd ik := paramAt ps (fst ik)]> params.

Definition buildParams (keys : list string) (ps : list (string * string))
    : gmap string Payload :=
  foldl (assignParam ps) ∅ (zip (seq 0 (length keys)) keys).

Definition quote : string := String "034"%char "".

(** [Router.handleRouteMessage(connSecret, msgId, msg)] *)
Fixpoint routeInbound (layers : list InRouteLayer) (R : Router)
    (connSecret : ConnectionSecret) (msgId : MsgID) (msg : MsgRoute) : HandlerResult :=
  match layers with
  | [] => HResolved None
  | layer :: rest =>
      match in_matchPath layer (route msg) with
      | Some matched =>
          let ctx :=
            {| ctx_params := buildParams (in_keys layer) matched;
               ctx_sender := readConnection R connSecret;
               ctx_data := route_data msg;
               ctx_headers := default [] (headers msg);
               ctx_error := PUndefined;
               ctx_response := PUndefined;
               ctx_route := route msg |} in
          match list_find (fun vh => bool_decide (vh_verb vh = verb msg)) (verbs layer) with
          | None =>
              HResolved
                (Some (new_RouteResponseError
                         (PStr ("Route " +:+ quote +:+ route msg +:+ quote +:+
                                " does not support verb " +:+ quote +:+ verb msg +:+ quote))))
          | Some (_, verbAndHandler) =>
              match vh_handler verbAndHandler ctx with
              | None => HRejected
              | Some ctx' =>
                  if truthy (ctx_error ctx')
                  then HResolved (Some (new_RouteResponseError (ctx_error ctx')))
                  else HResolved (Some (new_RouteResponse (ctx_response ctx')))
              end
          end
      | None => routeInbound rest R connSecret msgId msg
      end
  end.

Definition handleRouteMessageOfRouter (RI : RouterIn) (connSecret : ConnectionSecret)
    (msgId : MsgID) (msg : MsgRoute) : HandlerResult :=
  routeInbound (inRoutes RI) (outbound RI) connSecret msgId msg.

Definition set_verbs (v : list VerbAndHandler) (l : InRouteLayer) : InRouteLayer :=
  {| in_id := in_id l; in_route := in_route l; in_regexp := in_regexp l;
     in_matchPath := in_matchPath l; in_keys := in_keys l; verbs := v |}.

(** The second half of [setInRoute]: the verb gets the handler. *)
Definition setVerb (verb : RouteVerb) (handler : RouteHandler) (l : InRouteLayer)
    : InRouteLayer :=
  match list_find (fun vh => bool_decide (vh_verb vh = verb)) (verbs l) with
  | None => set_verbs (verbs l ++ [{| vh_verb := verb; vh_handler := handler |}]) l
  | Some (i, vh) =>
      set_verbs (<[i := {| vh_verb := vh_verb vh; vh_handler := handler |}]> (verbs l)) l
  end.

Section InboundSetup.
Variable pathToRegexp : string -> string * list string.
Variable matchOf : string -> string -> option (list (string * string)).

(** [setInRoute(route, verb, handler)] *)
Definition setInRoute (route : string) (verb : RouteVerb) (handler : RouteHandler)
    (RI : RouterIn) : Z * RouterIn :=
  let '(re, names) := pathToRegexp route in
  match list_find (fun r => bool_decide (in_regexp r = re)) (inRoutes RI) with
  | Some (i, targetRoute) =>
      (in_id targetRoute,
       {| outbound := outbound RI;
          inRoutes := <[i := setVerb verb handler targetRoute]> (inRoutes RI) |})
  | None =>
      let R := outbound RI in
      let targetRoute :=
        {| in_id := nextRouteSubID R; in_route := route; in_regexp := re;
           in_matchPath := matchOf re; in_keys := names; verbs := [] |} in
      (in_id targetRoute,
       {| outbound :=
            {| nextRouteSubID := nextRouteSubID R + 1; connections := connections R;
               outRoutes := outRoutes R |};
          inRoutes := inRoutes RI ++ [setVerb verb handler targetRoute] |})
  end.

Definition onPost (route : string) (handler : RouteHandler) (RI : RouterIn) : RouterIn :=
  snd (setInRoute route "POST" handler RI).

Definition onGet (route : string) (handler : RouteHandler) (RI : RouterIn) : RouterIn :=
  snd (setInRoute route "GET" handler RI).

Definition onDelete (route : string) (handler : RouteHandler) (RI : RouterIn) : RouterIn :=
  snd (setInRoute route "DELETE" handler RI).
End InboundSetup.

(** ** Communication strategies ([WebSocketStrategy.ts], [HttpStrategy.ts]) *)

(** What a strategy does that can be observed: it calls one of the
    callbacks it was given (named by a tag), hands a frame to its socket,
    settles the promise of [connect()], or issues a request. *)
Inductive StrategyEvent : Type :=
| SCallMessage (callback : nat) (w : MsgWrapper)
| SCallClose (callback : nat)
| SCallOpen (callback : nat)
| SSocketSend (sock : nat) (w : MsgWrapper)
| SConnectResolved
| SConnectRejected
| SFetchPost (w : MsgWrapper)
| SFetchGet.

Definition SResult (S : Type) : Type := Outcome unit * S * list StrategyEvent.

Definition s_state {S} (r : SResult S) : S := snd (fst r).
Definition s_events {S} (r : SResult S) : list StrategyEvent := snd r.

Inductive ReadyState : Type := CONNECTING | OPEN | CLOSING | CLOSED.

(** The functions [WebSocketStrategy] stores in the handler fields of a
    socket. *)
Inductive SocketHandler : Type :=
| ResolveConnect        (* () => resolve() *)
| RejectConnect         (* (error) => reject(error) *)
| CallMessageCallback   (* (event) => this.messageCallback!(JSON.parse(event.data)) *)
| CallCloseCallback     (* () => { if (this.closeCallback) this.closeCallback() } *)
| CallOpenCallback.     (* () => { if (this.openCallback) this.openCallback() } *)

Record WebSocket := mkWebSocket {
  readyState : ReadyState;
  ws_onopen : option SocketHandler;
  ws_onerror : option SocketHandler;
  ws_onmessage : option SocketHandler;
  ws_onclose : option SocketHandler
}.

(** [WebSocketStrategy]; [sockets] holds the socket objects created so far,
    [socket] refers to one of them. *)
Record WebSocketStrategy := mkWebSocketStrategy {
  sockets : list WebSocket;
  socket : option nat;
  messageCallback : option nat;
  closeCallback : option nat;
  openCallback : option nat
}.

(** [new WebSocketStrategy(url)] *)
Definition newWebSocketStrategy : WebSocketStrategy :=
  {| sockets := []; socket := None; messageCallback := None; closeCallback := None;
     openCallback := None |}.

Definition set_sockets (v : list WebSocket) (s : WebSocketStrategy) : WebSocketStrategy :=
  {| sockets := v; socket := socket s; messageCallback := messageCallback s;
     closeCallback := closeCallback s; openCallback := openCallback s |}.

Definition currentSocket (s : WebSocketStrategy) : option WebSocket :=
  i ← socket s; sockets s !! i.

(** [connect()] up to the return of the promise, for a URL that
    [new WebSocket] accepts. *)
Definition ws_connect (s : WebSocketStrategy) : WebSocketStrategy :=
  {| sockets :=
       sockets s ++
       [{| readyState := CONNECTING; ws_onopen := Some ResolveConnect;
           ws_onerror := Some RejectConnect; ws_onmessage := None; ws_onclose := None |}];
     socket := Some (length (sockets s));
     messageCallback := messageCallback s; closeCallback := closeCallback s;
     openCallback := openCallback s |}.

(** [socket.close()] *)
Definition closeSocket (ws : WebSocket) : WebSocket :=
  match readyState ws with
  | CLOSING | CLOSED => ws
  | _ => {| readyState := CLOSING; ws_onopen := ws_onopen ws; ws_onerror := ws_onerror ws;
            ws_onmessage := ws_onmessage ws; ws_onclose := ws_onclose ws |}
  end.

(** [disconnect()] *)
Definition ws_disconnect (s : WebSocketStrategy) : WebSocketStrategy :=
  {| sockets :=
       match socket s with
       | Some i => alter closeSocket i (sockets s)
       | None => sockets s
       end;
     socket := None;
     messageCallback := messageCallback s; closeCallback := closeCallback s;
     openCallback := openCallback s |}.

(** [isConnected()] *)
Definition ws_isConnected (s : WebSocketStrategy) : bool :=
  match currentSocket s with
  | Some ws => match readyState ws with OPEN => true | _ => false end
  | None => false
  end.

(** [send(message)] *)
Definition ws_send (message : MsgWrapper) (s : WebSocketStrategy)
    : SResult WebSocketStrategy :=
  match socket s with
  | Some i =>
      if ws_isConnected s then (Ret tt, s, [SSocketSend i message])
      else (Throw "WebSocket is not connected", s, [])
  | None => (Throw "WebSocket is not connected", s, [])
  end.

(** [onMessage(callback)] *)
Definition ws_onMessage (callback : nat) (s : WebSocketStrategy) : WebSocketStrategy :=
  {| sockets :=
       match socket s with
       | Some i =>
           alter (fun ws =>
                    {| readyState := readyState ws; ws_onopen := ws_onopen ws;
                       ws_onerror := ws_onerror ws;
                       ws_onmessage := Some CallMessageCallback;
                       ws_onclose := ws_onclose ws |}) i (sockets s)
       | None => sockets s
       end;
     socket := socket s; messageCallback := Some callback;
     closeCallback := closeCallback s; openCallback := openCallback s |}.

(** [onClose(callback)] *)
Definition ws_onClose (callback : nat) (s : WebSocketStrategy) : WebSocketStrategy :=
  {| sockets :=
       match socket s with
       | Some i =>
           alter (fun ws =>
                    {| readyState := readyState ws; ws_onopen := ws_onopen ws;
                       ws_onerror := ws_onerror ws; ws_onmessage := ws_onmessage ws;
                       ws_onclose := Some CallCloseCallback |}) i (sockets s)
       | None => sockets s
       end;
     socket := socket s; messageCallback := messageCallback s;
     closeCallback := Some callback; openCallback := openCallback s |}.

(** [onOpen(callback)] *)
Definition ws_onOpen (callback : nat) (s : WebSocketStrategy) : WebSocketStrategy :=
  {| sockets :=
       match socket s with
       | Some i =>
           alter (fun ws =>
                    {| readyState := readyState ws;
                       ws_onopen := Some CallOpenCallback;
                       ws_onerror := ws_onerror ws; ws_onmessage := ws_onmessage ws;
                       ws_onclose := ws_onclose ws |}) i (sockets s)
       | None => sockets s
       end;
     socket := socket s; messageCallback := messageCallback s;
     closeCallback := closeCallback s; openCallback := Some callback |}.

(** Running a handler stored in a socket; [data] is the parsed frame of a
    message event. *)
Definition runSocketHandler (h : option SocketHandler) (data : option MsgWrapper)
    (s : WebSocketStrategy) : SResult WebSocketStrategy :=
  match h with
  | None => (Ret tt, s, [])
  | Some ResolveConnect => (Ret tt, s, [SConnectResolved])
  | Some RejectConnect => (Ret tt, s, [SConnectRejected])
  | Some CallMessageCallback =>
      match messageCallback s, data with
      | Some cb, Some w => (Ret tt, s, [SCallMessage cb w])
      | _, _ => (Throw "TypeError", s, [])
      end
  | Some CallCloseCallback =>
      match closeCallback s with
      | Some cb => (Ret tt, s, [SCallClose cb])
      | None => (Ret tt, s, [])
      end
  | Some CallOpenCallback =>
      match openCallback s with
      | Some cb => (Ret tt, s, [SCallOpen cb])
      | None => (Ret tt, s, [])
      end
  end.

Definition set_readyState (v : ReadyState) (ws : WebSocket) : WebSocket :=
  {| readyState := v; ws_onopen := ws_onopen ws; ws_onerror := ws_onerror ws;
     ws_onmessage := ws_onmessage ws; ws_onclose := ws_onclose ws |}.

(** What the browser does to the socket [i]. *)
Inductive SocketEvent : Type :=
| SocketOpens
| SocketMessage (w : MsgWrapper)
| SocketCloses
| SocketError.

Definition socketEvent (i : nat) (ev : SocketEvent) (s : WebSocketStrategy)
    : SResult WebSocketStrategy :=
  match sockets s !! i with
  | None => (Ret tt, s, [])
  | Some ws =>
      match ev with
      | SocketOpens =>
          runSocketHandler (ws_onopen ws) None
            (set_sockets (<[i := set_readyState OPEN ws]> (sockets s)) s)
      | SocketMessage w => runSocketHandler (ws_onmessage ws) (Some w) s
      | SocketCloses =>
          runSocketHandler (ws_onclose ws) None
            (set_sockets (<[i := set_readyState CLOSED ws]> (sockets s)) s)
      | SocketError => runSocketHandler (ws_onerror ws) None s
      end
  end.

(** [HttpStrategy]; [polls] holds the intervals that are running. *)
Record HttpStrategy := mkHttpStrategy {
  http_connected : bool;
  http_messageCallback : option nat;
  http_closeCallback : option nat;
  http_openCallback : option nat;
  pollInterval : option nat;
  polls : list nat;
  nextTimer : nat
}.

(** [new HttpStrategy(url)] *)
Definition newHttpStrategy : HttpStrategy :=
  {| http_connected := false; http_messageCallback := None; http_closeCallback := None;
     http_openCallback := None; pollInterval := None; polls := []; nextTimer := 0 |}.

(** [connect()] *)
Definition http_connect (s : HttpStrategy) : SResult HttpStrategy :=
  (Ret tt,
   {| http_connected := true; http_messageCallback := http_messageCallback s;
      http_closeCallback := http_closeCallback s; http_openCallback := http_openCallback s;
      pollInterval := Some (nextTimer s); polls := polls s ++ [nextTimer s];
      nextTimer := S (nextTimer s) |},
   match http_openCallback s with
   | Some cb => [SCallOpen cb]
   | None => []
   end).

(** [disconnect()] *)
Definition http_disconnect (s : HttpStrategy) : SResult HttpStrategy :=
  (Ret tt,
   {| http_connected := false; http_messageCallback := http_messageCallback s;
      http_closeCallback := http_closeCallback s; http_openCallback := http_openCallback s;
      pollInterval := None;
      polls := match pollInterval s with
               | Some t => filter (fun t' => t' ≠ t) (polls s)
               | None => polls s
               end;
      nextTimer := nextTimer s |},
   match http_closeCallback s with
   | Some cb => [SCallClose cb]
   | None => []
   end).

(** [send(message)] up to the request. *)
Definition http_send (message : MsgWrapper) (s : HttpStrategy) : SResult HttpStrategy :=
  if http_connected s then (Ret tt, s, [SFetchPost message])
  else (Throw "HTTP connection is not established", s, []).

Definition http_onMessage (callback : nat) (s : HttpStrategy) : HttpStrategy :=
  {| http_connected := http_connected s; http_messageCallback := Some callback;
     http_closeCallback := http_closeCallback s; http_openCallback := http_openCallback s;
     pollInterval := pollInterval s; polls := polls s; nextTimer := nextTimer s |}.

Definition http_onClose (callback : nat) (s : HttpStrategy) : HttpStrategy :=
  {| http_connected := http_connected s; http_messageCallback := http_messageCallback s;
     http_closeCallback := Some callback; http_openCallback := http_openCallback s;
     pollInterval := pollInterval s; polls := polls s; nextTimer := nextTimer s |}.

Definition http_onOpen (callback : nat) (s : HttpStrategy) : HttpStrategy :=
  {| http_connected := http_connected s; http_messageCallback := http_messageCallback s;
     http_closeCallback := http_closeCallback s; http_openCallback := Some callback;
     pollInterval := pollInterval s; polls := polls s; nextTimer := nextTimer s |}.

Definition http_isConnected (s : HttpStrategy) : bool := http_connected s.

(** How a poll request ends. *)
Inductive PollResult : Type :=
| PollMessage (w : MsgWrapper)   (* [response.ok], the body is an envelope *)
| PollNotOk
| PollFails.                     (* [fetch] or [response.json()] rejects *)

(** One run of the function given to [setInterval] by [pollForMessages]. *)
Definition http_pollTick (result : PollResult) (s : HttpStrategy) : SResult HttpStrategy :=
  if negb (http_connected s) then (Ret tt, s, [])
  else
    match result with
    | PollMessage w =>
        (Ret tt, s,
         SFetchGet :: match http_messageCallback s with
                      | Some cb => [SCallMessage cb w]
                      | None => []
                      end)
    | PollNotOk => (Ret tt, s, [SFetchGet])
    | PollFails =>
        match http_disconnect s with
        | (o, s', ev) => (o, s', SFetchGet :: ev)
        end
    end.

(** ** The client ([Client.ts]) *)

(** The state of a [Client] beside its connection.  [subscribedRoutes] holds
    the own properties of the object of that name in the order of their
    creation, a callback being named by a tag; [reconnectTimeout] is whether
    the timer that leads to [reconnect()] is pending. *)
Record ClientState := mkClientState {
  isFullyConnected : bool;
  url : option string;
  subscribedRoutes : list (string * nat);
  reconnectTimeout : bool
}.

Definition set_isFullyConnected (v : bool) (st : ClientState) : ClientState :=
  {| isFullyConnected := v; url := url st; subscribedRoutes := subscribedRoutes st;
     reconnectTimeout := reconnectTimeout st |}.
Definition set_subscribedRoutes (v : list (string * nat)) (st : ClientState) : ClientState :=
  {| isFullyConnected := isFullyConnected st; url := url st; subscribedRoutes := v;
     reconnectTimeout := reconnectTimeout st |}.
Definition set_reconnectTimeout (v : bool) (st : ClientState) : ClientState :=
  {| isFullyConnected := isFullyConnected st; url := url st;
     subscribedRoutes := subscribedRoutes st; reconnectTimeout := v |}.

(** [subscribedRoutes] is an object literal: a read finds what
    [Object.prototype] defines where the object has no property of its own. *)
Inductive Property : Type :=
| Own (callback : nat)
| Inherited (name : string).

(** [this.subscribedRoutes[key]] *)
Definition getProperty (o : list (string * nat)) (key : string) : option Property :=
  match list_find (fun kv => fst kv = key) o with
  | Some (_, kv) => Some (Own (snd kv))
  | None =>
      if bool_decide (key ∈ objectPrototypeNames) then Some (Inherited key) else None
  end.

(** [this.subscribedRoutes[key] = callback] where the read above found
    nothing: a property is created. *)
Definition createProperty (key : string) (callback : nat) (o : list (string * nat))
    : list (string * nat) :=
  o ++ [(key, callback)].

(** [delete this.subscribedRoutes[key]] *)
Definition deleteProperty (key : string) (o : list (string * nat)) : list (string * nat) :=
  filter (fun kv => fst kv <> key) o.

(** Whether the value [Object.prototype] has under [name], called as a
    function of one object without a receiver, returns: [toString] and
    [constructor] do, the other functions throw on the missing receiver and
    the value of [__proto__] is not a function. *)
Definition inheritedCallReturns (name : string) : bool :=
  String.eqb name "toString" || String.eqb name "constructor".

(** The keys a [for ... in] loop visits: array indices in ascending order,
    then the other keys in the order of their creation. *)
Fixpoint decimalValue (s : string) (acc : N) : option N :=
  match s with
  | EmptyString => Some acc
  | String ch rest =>
      let n := N_of_ascii ch in
      if ((48 <=? n) && (n <=? 57))%N then decimalValue rest (acc * 10 + (n - 48))%N
      else None
  end.

Definition arrayIndex (key : string) : option N :=
  match decimalValue key 0%N with
  | Some n => if (n <? 4294967295)%N && String.eqb (pretty n) key then Some n else None
  | None => None
  end.

Fixpoint insertIndex (k : N * string) (l : list (N * string)) : list (N * string) :=
  match l with
  | [] => [k]
  | h :: t => if (fst k <? fst h)%N then k :: l else h :: insertIndex k t
  end.

Definition forInKeys (o : list (string * nat)) : list string :=
  let keys := fst <$> o in
  (snd <$> foldr insertIndex []
             (omap (fun k => (fun n => (n, k)) <$> arrayIndex k) keys)) ++
  filter (fun k => arrayIndex k = None) keys.

(** The hooks the constructor installs on the connection: [onClose] clears
    the pending timer and arms a new one. *)
Definition clientHooks : Hooks ClientState :=
  {| onOpen := fun st => st;
     onDataSet := fun _ _ st => (Ret tt, st);
     onSubscribeToRoute := fun _ _ st => (Ret tt, st);
     onUnsubscribeFromRoute := fun _ _ st => (Ret tt, st);
     onClose := fun _ st => set_reconnectTimeout true (set_isFullyConnected false st);
     onClientConnect := fun st => set_isFullyConnected true st |}.

(** [conn.onRouteMessage] as the constructor sets it: the callback
    subscribed to [msg.route], if any, is called with [{data, action}]; the
    first component is that call, the second how the promise settles. *)
Definition clientOnRouteMessage (st : ClientState) (msg : MsgRoute)
    : option (nat * Payload * RouteVerb) * HandlerResult :=
  match getProperty (subscribedRoutes st) (route msg) with
  | Some (Own sub) => (Some (sub, route_data msg, verb msg), HResolved None)
  | Some (Inherited name) =>
      (None, if inheritedCallReturns name then HResolved None else HRejected)
  | None => (None, HResolved None)
  end.

(** The class [[a-zA-Z0-9_\/-]]. *)
Definition isRouteChar (ch : ascii) : bool :=
  let n := N_of_ascii ch in
  ((97 <=? n) && (n <=? 122) || (65 <=? n) && (n <=? 90) || (48 <=? n) && (n <=? 57) ||
   (n =? 95) || (n =? 47) || (n =? 45))%N.

Fixpoint allChars (P : ascii -> bool) (s : string) : bool :=
  match s with
  | EmptyString => true
  | String ch rest => P ch && allChars P rest
  end.

(** [/^[a-zA-Z0-9_\/-]+$/.test(route)] *)
Definition routeIsValid (route : string) : bool :=
  negb (String.eqb route "") && allChars isRouteChar route.

(** [route.includes(":")] *)
Fixpoint includesColon (s : string) : bool :=
  match s with
  | EmptyString => false
  | String ch rest => Ascii.eqb ch ":"%char || includesColon rest
  end.

Definition colonError (route : string) : string :=
  "Route " +:+ quote +:+ route +:+ quote +:+
  " contains colons ':' which is not allowed. Colons are reserved for route parameters.".

Definition invalidCharactersError (route : string) : string :=
  "Route " +:+ quote +:+ route +:+ quote +:+
  " contains invalid characters. Only alphanumeric characters, forward slashes, dashes and underscores are allowed.".

(** [Client.sendToRoute(route, verb, payload, headers)]; [resolve] names the
    function that resolves the promise returned. *)
Definition clientSendToRoute (now : Z) (route : string) (verb : RouteVerb)
    (payload : Payload) (headers : option (list (string * string))) (resolve : nat)
    : M Connection unit :=
  if negb (routeIsValid route) then
    if includesColon route then throw (colonError route)
    else throw (invalidCharactersError route)
  else sendToRoute now route verb payload headers (Some resolve).

Definition clientGet (now : Z) (route : string) (headers : option (list (string * string)))
    (resolve : nat) : M Connection unit :=
  clientSendToRoute now route "GET" (PStr "") headers resolve.

Definition clientDelete (now : Z) (route : string) (headers : option (list (string * string)))
    (resolve : nat) : M Connection unit :=
  clientSendToRoute now route "DELETE" (PStr "") headers resolve.

(** [post(route, payload?, headers?)]: an omitted payload is [undefined]. *)
Definition clientPost (now : Z) (route : string) (payload : Payload)
    (headers : option (list (string * string))) (resolve : nat) : M Connection unit :=
  clientSendToRoute now route "POST" payload headers resolve.

Definition clientPostAndForget (now : Z) (route : string) (payload : Payload)
    (headers : option (list (string * string))) : M Connection unit :=
  sendToRouteAndForget now route "POST" payload headers.

Definition alreadySubscribedError (route : string) : string :=
  "Route " +:+ quote +:+ route +:+ quote +:+ " already has a subscription".

Definition failedToSubscribeError (route : string) : string :=
  "Failed to subscribe to route " +:+ quote +:+ route +:+ quote.

(** [on(route, callback)] up to its loop; [Throw] stands for the rejection
    of the promise returned. *)
Definition clientOn (route : string) (callback : nat) (st : ClientState)
    : Outcome unit * ClientState :=
  match getProperty (subscribedRoutes st) route with
  | Some _ => (Throw (alreadySubscribedError route), st)
  | None =>
      (Ret tt, set_subscribedRoutes (createProperty route callback (subscribedRoutes st)) st)
  end.

(** One turn of the loop of [on], which waits 100 ms between turns: once the
    client is fully connected the subscription is posted and the loop left
    ([true]); [answer] names the callback given to [post]. *)
Definition clientOnTurn (now : Z) (route : string) (answer : nat)
    : M (Connection * ClientState) bool :=
  s ← get;
  if isFullyConnected (snd s)
  then onFst (post now (MsgSubscribeToRoute route) (Some answer));; ret true
  else ret false.

(** The callback [on] gives to [post]; [Throw] stands for the rejection of
    the promise of [on]. *)
Definition clientOnAnswer (route : string) (response : RouteResponse) (st : ClientState)
    : Outcome unit * ClientState :=
  if noError response then (Ret tt, st)
  else (Throw (failedToSubscribeError route),
        set_subscribedRoutes (deleteProperty route (subscribedRoutes st)) st).

(** [off(route)]; the callback it gives to [post] only logs. *)
Definition clientOff (now : Z) (route : string) (answer : nat)
    : M (Connection * ClientState) unit :=
  onFst (post now (MsgUnsubscribeFromRoute route) (Some answer));;
  modify (fun s =>
    (fst s, set_subscribedRoutes (deleteProperty route (subscribedRoutes (snd s))) (snd s))).

(** [resubscribeToRoutes()]; [answer route] names the callback made for
    [route]. *)
Definition resubscribeToRoutes (now : Z) (answer : string -> nat)
    : M (Connection * ClientState) unit :=
  s ← get;
  forEach (forInKeys (subscribedRoutes (snd s)))
    (fun route => onFst (post now (MsgSubscribeToRoute route) (Some (answer route)))).

(** The callback [resubscribeToRoutes] gives to [post]. *)
Definition clientResubscribeAnswer (route : string) (response : RouteResponse)
    (st : ClientState) : ClientState :=
  if noError response then st
  else set_subscribedRoutes (deleteProperty route (subscribedRoutes st)) st.

(** [!this.url] *)
Definition hasUrl (st : ClientState) : bool :=
  match url st with
  | Some u => negb (String.eqb u "")
  | None => false
  end.

(** [reconnect()]; [accepted] is whether [new WebSocket(urlWithSecret)]
    returns a socket, which is then connecting, or throws. *)
Definition reconnect (now : Z) (accepted : bool) (answer : string -> nat)
    : M (Connection * ClientState) unit :=
  s ← get;
  if negb (hasUrl (snd s)) then ret tt
  else if negb accepted then throw "SyntaxError"
  else setSocket now false;; resubscribeToRoutes now answer.

(** The timer armed by [conn.onClose] fires. *)
Definition reconnectTimerFired (now : Z) (accepted : bool) (answer : string -> nat)
    : M (Connection * ClientState) unit :=
  s ← get;
  if reconnectTimeout (snd s)
  then modify (fun s' => (fst s', set_reconnectTimeout false (snd s')));;
       reconnect now accepted answer
  else ret tt.

(** ** Vocabulary of the properties *)

(** The ids held in [messagesToAck], and their uniqueness. *)
Definition ackIds (c : Connection) : list Z :=
  (fun e => wid (wrappedMsg e)) <$> messagesToAck c.

Definition uniqueAcks (c : Connection) : Prop := NoDup (ackIds c).

(** An envelope with this id has been recorded in [receivedMessages]. *)
Definition hasReceived (id : MsgID) (c : Connection) : Prop :=
  is_Some (getReceivedPairById id c).

(** The per-body dispatch of an envelope with this id. *)
Definition isDispatchOf (id : MsgID) (e : Event) : bool :=
  match e with
  | EvDispatch w => wid w =? id
  | _ => false
  end.

Definition isDispatch (e : Event) : bool :=
  match e with
  | EvDispatch _ => true
  | _ => false
  end.

Definition countDispatch (id : MsgID) (evs : list Event) : nat :=
  length (List.filter (isDispatchOf id) evs).

(** The invocations of [onRouteMessage] for an envelope with this id. *)
Definition isHandlerCallOf (id : MsgID) (e : Event) : bool :=
  match e with
  | EvRouteMessage i _ => i =? id
  | _ => false
  end.

Definition countHandlerCalls (id : MsgID) (evs : list Event) : nat :=
  length (List.filter (isHandlerCallOf id) evs).

(** A method keeps the state property [P] and emits only events in [Q],
    whether it returns or throws. *)
Definition sat {S A} (P : S -> Prop) (Q : Event -> Prop) (m : M S A) : Prop :=
  forall s, P s -> P (state_of (m s)) /\ Forall Q (events_of (m s)).

(** [this.receivedMessages.push({ wrapper, response: new TrackedPromise(response) })] *)
Definition recordReceived (w : MsgWrapper) (r : Response) (c : Connection) : Connection :=
  set_receivedMessages
    (receivedMessages c ++ [{| wrapper := w; response := {| _original := r |} |}]) c.

(** No dispatch and no handler call for [id]. *)
Definition quietFor (id : MsgID) (e : Event) : Prop :=
  isDispatchOf id e = false /\ isHandlerCallOf id e = false.

(** [msg.type === ROUTE_MESSAGE] *)
Definition isRoute (m : MsgType) : bool :=
  match m with Route _ => true | _ => false end.

(** The value a tracked response has settled to, if any. *)
Definition settledValue (table : list PromiseState) (t : TrackedPromise) : option MsgResponse :=
  match _original t with
  | Immediate m => Some m
  | Promised p =>
      match table !! p with
      | Some (PFulfilled m) => Some m
      | _ => None
      end
  end.

(** Neither a dispatch nor a handler call. *)
Definition silent (e : Event) : Prop :=
  match e with
  | EvDispatch _ | EvRouteMessage _ _ => False
  | _ => True
  end.

(** [handleResponse]'s translation of a response into a [RouteResponse]. *)
Definition translated (msg : MsgResponse) : RouteResponse :=
  if status msg =? 200 then new_RouteResponse (res_data msg)
  else new_RouteResponseError (res_data msg).

(** Whether a broadcast selects the listener [l] of the layer [r], when
    [matched] is what the layer captured from the path; if so, the connection
    read from the directory and the answer of the validator. *)
Definition selected (R : Router) (exceptConn : option ConnRef) (r : OutRouteLayer)
    (matched : list (string * string)) (l : RouteListener)
    : option (option DirectoryValue * Validation) :=
  let target := readConnection R (conn l) in
  if bool_decide (target ≠ Registered <$> exceptConn) &&
     paramsMatch (params l) (objectValues matched)
  then Some (target, validate r target matched)
  else None.

Definition selectedIn (R : Router) (exceptConn : option ConnRef) (r : OutRouteLayer)
    (matched : list (string * string)) : list (option DirectoryValue * Validation) :=
  omap (selected R exceptConn r matched) (listeners r).

(** The same over all layers, in the order of the loops. *)
Definition selectedListeners (R : Router) (route : string) (exceptConn : option ConnRef)
    : list (option DirectoryValue * Validation) :=
  flat_map (fun r =>
              match matchPath r route with
              | Some matched => selectedIn R exceptConn r matched
              | None => []
              end) (outRoutes R).

(** The connection object a read of the directory gave, if it gave one. *)
Definition connectionOf (target : option DirectoryValue) : option ConnRef :=
  match target with
  | Some (Registered ref) => Some ref
  | Some (FromPrototype _) | None => None
  end.

(** The connections of the selected listeners whose validator answered with
    a truthy value at once, and of those whose validator answered with a
    promise of one. *)
Definition validNow (sel : list (option DirectoryValue * Validation)) : list nat :=
  omap (fun tv => match snd tv with VSync true => connectionOf (fst tv) | _ => None end) sel.

Definition validAfter (sel : list (option DirectoryValue * Validation)) : list nat :=
  omap (fun tv => match snd tv with
                  | VAsync (Some true) => connectionOf (fst tv)
                  | _ => None
                  end) sel.

(** Every selected listener whose validator accepts at once has its
    connection in the directory. *)
Definition resolved (sel : list (option DirectoryValue * Validation)) : Prop :=
  Forall (fun tv => snd tv = VSync true -> is_Some (connectionOf (fst tv))) sel.

(** The reactions registered for the selected listeners whose validator
    answered with a promise. *)
Definition validLater (route : string) (verb : RouteVerb) (payload : Payload)
    (sel : list (option DirectoryValue * Validation)) : list Reaction :=
  omap (fun tv =>
          match snd tv with
          | VAsync v =>
              Some {| rc_conn := fst tv; rc_isValid := v; rc_route := route;
                      rc_verb := verb; rc_payload := payload |}
          | VSync _ => None
          end) sel.

Definition isSendToRoute (e : Event) : Prop :=
  match e with EvSendToRoute _ => True | _ => False end.

(** What [sendWrappedMsg(w)] leaves in [messagesToAck]. *)
Definition recordSent (now : Z) (w : MsgWrapper) (c : Connection) : Connection :=
  if messageNeedsAck w then
    match findLastIndex (hasId (wid w)) (messagesToAck c) with
    | Some i =>
        match messagesToAck c !! i with
        | Some e => set_messagesToAck (<[i := resent now e]> (messagesToAck c)) c
        | None => c
        end
    | None =>
        set_messagesToAck
          (messagesToAck c ++ [{| wrappedMsg := w; sentAt := now; sentAmount := 1 |}]) c
    end
  else c.

(** The state [postAndExpectResponse(msg)] leaves: the id is taken and the
    envelope is sent, or queued when the transport is closed. *)
Definition posted (now : Z) (msg : MsgType) (c : Connection) : Connection :=
  let w := new_MsgWrapper (nextMsgId c) msg in
  let c1 := set_nextMsgId (nextMsgId c + 1) c in
  if connected c then recordSent now w c1
  else set_messagesToSendAfterReconnect (messagesToSendAfterReconnect c ++ [w]) c1.

Definition isCallbackEvent (e : Event) : Prop :=
  match e with EvCallback _ _ => True | _ => False end.

Definition isSendToRouteOp (op : Op) : Prop :=
  match op with OpSendToRoute _ _ _ _ _ => True | _ => False end.

(** Every entry of [messagesToAck] holds an envelope that needs an
    acknowledgement. *)
Definition ackEntriesNeedAck (c : Connection) : Prop :=
  Forall (fun e => messageNeedsAck (wrappedMsg e) = true) (messagesToAck c).

(** [now - msg.sentAt > RESEND_NOT_ANSWERED_MESSAGES_AFTER_MS] *)
Definition overdue (now : Z) (e : SentMessages) : bool :=
  RESEND_NOT_ANSWERED_MESSAGES_AFTER_MS <? now - sentAt e.

Definition retried (now : Z) (e : SentMessages) : SentMessages :=
  if overdue now e then resent now e else e.

Definition isSend (e : Event) : Prop :=
  match e with EvSend _ => True | _ => False end.

(** A layer after the connection of secret [s] has subscribed to [path],
    and after it has unsubscribed from it. *)
Definition subscribed (path : string) (s : ConnectionSecret) (r : OutRouteLayer)
    : OutRouteLayer :=
  match matchPath r path with
  | Some ps => set_listeners (listeners r ++ [{| conn := s; params := objectValues ps |}]) r
  | None => r
  end.

Definition unsubscribed (path : string) (s : ConnectionSecret) (r : OutRouteLayer)
    : OutRouteLayer :=
  match matchPath r path with
  | Some _ => set_listeners (filter (fun l => conn l ≠ s) (listeners r)) r
  | None => r
  end.

(** No reaction waiting for a validator is bound to the connection [x]. *)
Definition noReactionFor (x : ConnRef) (w : World) : Prop :=
  Forall (fun rc => rc_conn rc <> Some (Registered x)) (reactions w).

(** Neither a broadcast nor the reactions it leaves call [sendToRoute] on
    the connection [x]. *)
Definition skips (x : ConnRef) (now : Z) (r : Outcome unit * World * list Event) : Prop :=
  Forall (fun e => e <> EvSendToRoute x) (events_of r) /\
  Forall (fun e => e <> EvSendToRoute x) (events_of (runReactions now (state_of r))).

(** The next id is [N] and every id in use (awaiting an acknowledgement,
    queued for the next connection, or with a registered callback) is below
    it. *)
Definition idsWithin (N : Z) (c : Connection) : Prop :=
  nextMsgId c = N /\
  Forall (fun e => wid (wrappedMsg e) < N) (messagesToAck c) /\
  Forall (fun w => wid w < N) (messagesToSendAfterReconnect c) /\
  map_Forall (fun k _ => k < N) (callbacks c).

Definition idsFresh (c : Connection) : Prop := idsWithin (nextMsgId c) c.

Definition usesPostAndExpectResponse (op : Op) : Prop :=
  match op with
  | OpPost _ _ | OpSendToRoute _ _ _ _ _ | OpPing _ | OpSetSocket _ => True
  | _ => False
  end.

Definition counterIs (k : Z) (c : Connection) : Prop := messagesSentInASecond c = k.

Definition touchesCounter (op : Op) : Prop :=
  match op with
  | OpSendToRoute _ _ _ _ _ | OpRateReset => True
  | _ => False
  end.

Fixpoint countSendToRoute (ops : list (Z * Op)) : nat :=
  match ops with
  | [] => 0
  | (_, OpSendToRoute _ _ _ _ _) :: rest => S (countSendToRoute rest)
  | _ :: rest => countSendToRoute rest
  end.

Definition isRateReset (op : Op) : Prop :=
  match op with OpRateReset => True | _ => False end.

(** No two outbound layers have the same expression, and every layer id is
    below [nextRouteSubID]. *)
Definition layersDistinct (R : Router) : Prop :=
  NoDup (regexp <$> outRoutes R) /\
  Forall (fun r => layer_id r < nextRouteSubID R) (outRoutes R).

(** One of the characters 0-9 and a-f. *)
Definition isHexChar (ch : ascii) : bool :=
  let n := N_of_ascii ch in
  ((48 <=? n) && (n <=? 57) || (97 <=? n) && (n <=? 102))%N.

(** The value of a hexadecimal digit. *)
Definition hexValue (ch : ascii) : option N :=
  let n := N_of_ascii ch in
  if ((48 <=? n) && (n <=? 57))%N then Some (n - 48)%N
  else if ((97 <=? n) && (n <=? 102))%N then Some (n - 87)%N
  else None.

(** Reading a string of two-digit hexadecimal numbers. *)
Fixpoint decodeHex (fuel : nat) (s : string) : option (list Byte.byte) :=
  match fuel with
  | O => match s with EmptyString => Some [] | _ => None end
  | S fuel' =>
      match s with
      | String a (String b rest) =>
          match hexValue a, hexValue b with
          | Some x, Some y =>
              match Byte.of_N (16 * x + y), decodeHex fuel' rest with
              | Some byte, Some l => Some (byte :: l)
              | _, _ => None
              end
          | _, _ => None
          end
      | _ => None
      end
  end.

(** The context a handler of [layer] is given for [msg]. *)
Definition contextFor (layer : InRouteLayer) (matched : list (string * string))
    (R : Router) (connSecret : ConnectionSecret) (msg : MsgRoute) : RequestContext :=
  {| ctx_params := buildParams (in_keys layer) matched;
     ctx_sender := readConnection R connSecret;
     ctx_data := route_data msg;
     ctx_headers := default [] (headers msg);
     ctx_error := PUndefined;
     ctx_response := PUndefined;
     ctx_route := route msg |}.

(** What the router answers from the context a handler leaves. *)
Definition answerOf (after : option RequestContext) : HandlerResult :=
  match after with
  | None => HRejected
  | Some ctx' =>
      if truthy (ctx_error ctx')
      then HResolved (Some (new_RouteResponseError (ctx_error ctx')))
      else HResolved (Some (new_RouteResponse (ctx_response ctx')))
  end.

Definition unsupportedVerb (msg : MsgRoute) : string :=
  "Route " +:+ quote +:+ route msg +:+ quote +:+
  " does not support verb " +:+ quote +:+ verb msg +:+ quote.

(** The envelopes [resubscribeToRoutes] posts from id [n] on. *)
Definition resubscriptions (n : Z) (routes : list string) : list MsgWrapper :=
  imap (fun i route => new_MsgWrapper (n + Z.of_nat i) (MsgSubscribeToRoute route)) routes.

(** ** Scenarios *)

(** A client that has just been given an open socket: the handshake message
    has id 0 and awaits its response. *)
Definition handshakingClient : Connection * unit :=
  fst (run (defaultHooks unit) [(0, OpSetSocket true)] (newConnection "5ec2e7" true, tt)).

(** The operations that can write [header['secret']]: the delivery of a
    [set] message for the key "secret", and the delivery of the response to
    a secret handshake. *)
Definition writesSecret (op : Op) (c : Connection) : Prop :=
  match op with
  | OpDeliver w =>
      match wmsg w with
      | MsgDataSet key _ => key = "secret"
      | Res m => callbacks c !! target m = Some CbHandshake
      | _ => False
      end
  | _ => False
  end.

Definition secretIs (v : option Payload) (c : Connection) : Prop :=
  header c !! "secret" = v.

(** A server connection whose client has completed the secret handshake. *)
Definition afterHandshake : Connection * unit :=
  fst (run (defaultHooks unit)
         [(0, OpSetSocket true);
          (1, OpDeliver {| wid := 0; wmsg := MsgDataSet "secret" (PStr "5ec2e7") |})]
         (newConnection "" false, tt)).

Definition secondSet : MsgWrapper :=
  {| wid := 1; wmsg := MsgDataSet "secret" (PStr "0ther") |}.

(** The matcher of the pattern "/t/:id": it accepts "/t/x" for a non-empty
    segment [x] and captures it under [id]. *)
Fixpoint hasSlash (s : string) : bool :=
  match s with
  | EmptyString => false
  | String ch rest => Ascii.eqb ch "/"%char || hasSlash rest
  end.

Definition matchThread (path : string) : option (list (string * string)) :=
  if String.prefix "/t/" path then
    let rest := String.substring 3 (String.length path - 3) path in
    if String.eqb rest "" || hasSlash rest then None else Some [("id", rest)]
  else None.

Definition accept : option DirectoryValue -> list (string * string) -> Validation :=
  fun _ _ => VSync true.

Definition threadLayer (ls : list RouteListener) : OutRouteLayer :=
  {| layer_id := 0; layer_route := "/t/:id"; regexp := "/^\/t(?:\/([^\/#\?]+?))[\/#\?]?$/i";
     matchPath := matchThread; keys := ["id"]; listeners := ls; validate := accept |}.

(** A router with the layer "/t/:id" and one registered connection, which
    listens to "/t/1". *)
Definition routerWithListener : Router :=
  {| nextRouteSubID := 1; connections := {[ "5ec2e7" := 0%nat ]};
     outRoutes := [threadLayer [{| conn := "5ec2e7"; params := ["1"] |}]] |}.

(** The matcher of the pattern "/t/:id?": the segment is optional, and a
    path without it has no entry for [id] in [params]. *)
Definition matchOptional (path : string) : option (list (string * string)) :=
  if String.eqb path "/t" then Some [] else matchThread path.

Definition optionalLayer (ls : list RouteListener) : OutRouteLayer :=
  {| layer_id := 0; layer_route := "/t/:id?";
     regexp := "/^\/t(?:\/([^\/#\?]+?))?[\/#\?]?$/i";
     matchPath := matchOptional; keys := ["id"]; listeners := ls; validate := accept |}.

Definition openServerConn : Connection := set_connected true (newConnection "" false).

(** One connection, registered under "5ec2e7", subscribes to "/t". *)
Definition worldOptional : World :=
  {| router :=
       snd (subscribeConnectionToRoute "/t" "5ec2e7"
              {| nextRouteSubID := 1; connections := {[ "5ec2e7" := 0%nat ]};
                 outRoutes := [optionalLayer []] |});
     heap := {[ 0%nat := openServerConn ]};
     reactions := [] |}.

(** Two connections subscribe to "/t/1"; the first one closes and is
    removed; a third connection exists. *)
Definition worldStale : World :=
  {| router :=
       removeConnection "aaaa"
         (snd (subscribeConnectionToRoute "/t/1" "bbbb"
                 (snd (subscribeConnectionToRoute "/t/1" "aaaa"
                         {| nextRouteSubID := 1;
                            connections := {[ "aaaa" := 0%nat; "bbbb" := 1%nat;
                                              "cccc" := 2%nat ]};
                            outRoutes := [threadLayer []] |}))));
     heap := {[ 0%nat := openServerConn; 1%nat := openServerConn;
                2%nat := openServerConn ]};
     reactions := [] |}.

(** The message by which a client announces the secret "constructor". *)
Definition setConstructor : MsgWrapper :=
  {| wid := 0; wmsg := MsgDataSet "secret" (PStr "constructor") |}.

(** A server connection on an open socket whose client has done so. *)
Definition namedConstructor : Connection :=
  fst (fst (run (defaultHooks unit) [(0, OpSetSocket true); (2, OpDeliver setConstructor)]
              (newConnection "" false, tt))).

(** A router with the layer "/t/:id" and an empty directory. *)
Definition routerWithoutConnections : Router :=
  {| nextRouteSubID := 1; connections := ∅; outRoutes := [threadLayer []] |}.

(** Two sockets are added to that router and both clients announce the
    secret "constructor"; then the first connection closes and its timer
    fires, which removes the directory entry of that name. *)
Definition worldShadowed : World :=
  foldl (fun w (m : M World unit) => state_of (m w))
    {| router := routerWithoutConnections; heap := ∅; reactions := [] |}
    [addSocket 0 true None; addSocket 0 true None;
     serverStep 1 0%nat (OpDeliver setConstructor);
     serverStep 2 1%nat (OpDeliver setConstructor);
     serverStep 3 0%nat OpTransportClose;
     serverStep 5003 0%nat OpCloseTimer].

(** Two registered connections, both open, subscribe to "/t/1". *)
Definition worldTwoListeners : World :=
  {| router :=
       snd (subscribeConnectionToRoute "/t/1" "bbbb"
              (snd (subscribeConnectionToRoute "/t/1" "aaaa"
                      {| nextRouteSubID := 1;
                         connections := {[ "aaaa" := 0%nat; "bbbb" := 1%nat ]};
                         outRoutes := [threadLayer []] |})));
     heap := {[ 0%nat := openServerConn; 1%nat := openServerConn ]};
     reactions := [] |}.

(** The same with a validator that answers with a promise of [true]. *)
Definition acceptLater : option DirectoryValue -> list (string * string) -> Validation :=
  fun _ _ => VAsync (Some true).

Definition worldTwoListenersLater : World :=
  {| router :=
       {| nextRouteSubID := 1;
          connections := {[ "aaaa" := 0%nat; "bbbb" := 1%nat ]};
          outRoutes :=
            [{| layer_id := 0; layer_route := "/t/:id";
                regexp := regexp (threadLayer []); matchPath := matchThread;
                keys := ["id"];
                listeners := [{| conn := "aaaa"; params := ["1"] |};
                              {| conn := "bbbb"; params := ["1"] |}];
                validate := acceptLater |}] |};
     heap := {[ 0%nat := openServerConn; 1%nat := openServerConn ]};
     reactions := [] |}.

Definition sendToRouteCalls (evs : list Event) : list nat :=
  omap (fun e => match e with EvSendToRoute c => Some c | _ => None end) evs.

(** An open server connection and the hooks it is created with. *)
Definition openServer : Connection * unit := (openServerConn, tt).

Definition routeEnvelope : MsgWrapper :=
  {| wid := 42;
     wmsg := Route {| verb := "POST"; route := "/x/7"; route_data := PObj [];
                      headers := None |} |}.

(** An open connection that has posted a ping with a callback; the ping has
    id 0. *)
Definition awaitingPong : Connection * unit :=
  fst (run (defaultHooks unit) [(1, OpPost MsgPing (Some 7%nat))] openServer).

Definition pongResponse : MsgResponse :=
  {| target := 0; status := 200; res_data := PStr "pong" |}.

Definition rateLimited : Connection :=
  set_messagesSentInASecond 101 openServerConn.

Definition unknownEnvelope : MsgWrapper := {| wid := 7; wmsg := MsgOther "err" |}.

(** The layer "/t/:id" with a listener of "5ec2e7", and a second registered
    connection that listens to nothing. *)
Definition routerTwoConnections : Router :=
  {| nextRouteSubID := 1;
     connections := {[ "5ec2e7" := 0%nat; "bbbb" := 1%nat ]};
     outRoutes := [threadLayer [{| conn := "5ec2e7"; params := ["1"] |}]] |}.

(** An open connection with one message awaiting its acknowledgement since
    the instant 1. *)
Definition awaitingAck : Connection :=
  fst (fst (run (defaultHooks unit) [(1, OpPost MsgPing None)] openServer)).

(** A client connection, before its socket is open and on an open socket. *)
Definition closedClientConn : Connection := newConnection "5ec2e7" true.
Definition openClientConn : Connection := set_connected true closedClientConn.

(** A client that is fully connected and has three subscriptions, made in
    this order. *)
Definition subscribedClient : ClientState :=
  {| isFullyConnected := true; url := Some "ws://localhost:8080";
     subscribedRoutes := [("/t/1", 7%nat); ("10", 8%nat); ("9", 9%nat)];
     reconnectTimeout := false |}.

(** A path compiler for patterns without parameters: the expression is the
    pattern itself and accepts the path equal to it. *)
Definition literalRegexp (route : string) : string * list string := (route, []).
Definition literalMatch (re path : string) : option (list (string * string)) :=
  if String.eqb re path then Some [] else None.

Definition emptyRouter : RouterIn := {| outbound := newRouter; inRoutes := [] |}.

(** A handler that answers with the data it was sent. *)
Definition echo : RouteHandler :=
  fun ctx =>
    Some {| ctx_params := ctx_params ctx; ctx_sender := ctx_sender ctx;
            ctx_data := ctx_data ctx; ctx_headers := ctx_headers ctx;
            ctx_error := ctx_error ctx; ctx_response := ctx_data ctx;
            ctx_route := ctx_route ctx |}.

Definition postToX7 : MsgRoute :=
  {| verb := "POST"; route := "/x/7"; route_data := PStr "hi"; headers := None |}.

(** * Properties *)

(** ** Reasoning rules for methods *)

Section Rules.
Context {St : Type}.
Implicit Types (P : St -> Prop) (Q : Event -> Prop).

Lemma sat_ret {A} P Q (a : A) : sat P Q (ret a).
Proof. intros s Hs. split; [exact Hs | constructor]. Qed.

Lemma sat_mret {A} P Q (a : A) : sat P Q (mret a : M St A).
Proof. apply sat_ret. Qed.

Lemma sat_throw {A} P Q e : sat P Q (throw e : M St A).
Proof. intros s Hs. split; [exact Hs | constructor]. Qed.

Lemma sat_get P Q : sat P Q (get : M St St).
Proof. intros s Hs. split; [exact Hs | constructor]. Qed.

Lemma sat_emit P Q e : Q e -> sat P Q (emit e : M St unit).
Proof. intros He s Hs. split; [exact Hs | repeat constructor; exact He]. Qed.

Lemma sat_modify P Q (f : St -> St) :
  (forall s, P s -> P (f s)) -> sat P Q (modify f).
Proof. intros Hf s Hs. split; [apply Hf, Hs | constructor]. Qed.

Lemma sat_bind {A B} P Q (m : M St A) (k : A -> M St B) :
  sat P Q m -> (forall a, sat P Q (k a)) -> sat P Q (bind m k).
Proof.
  intros Hm Hk s Hs. unfold bind, state_of, events_of in *.
  specialize (Hm s Hs). destruct (m s) as [[o s1] e1]. simpl in Hm.
  destruct Hm as [Hs1 He1]. destruct o as [a|e]; simpl.
  - specialize (Hk a s1 Hs1). destruct (k a s1) as [[o2 s2] e2]. simpl in *.
    destruct Hk as [Hs2 He2]. split; [exact Hs2 | apply Forall_app; auto].
  - auto.
Qed.

Lemma sat_mbind {A B} P Q (m : M St A) (k : A -> M St B) :
  sat P Q m -> (forall a, sat P Q (k a)) -> sat P Q (m ≫= k).
Proof. apply sat_bind. Qed.

Lemma sat_tryCatch {A} P Q (m : M St A) (h : string -> M St A) :
  sat P Q m -> (forall e, sat P Q (h e)) -> sat P Q (tryCatch m h).
Proof.
  intros Hm Hh s Hs. unfold tryCatch, state_of, events_of in *.
  specialize (Hm s Hs). destruct (m s) as [[o s1] e1]. simpl in Hm.
  destruct Hm as [Hs1 He1]. destruct o as [a|e]; simpl; [auto|].
  specialize (Hh e s1 Hs1). destruct (h e s1) as [[o2 s2] e2]. simpl in *.
  destruct Hh as [Hs2 He2]. split; [exact Hs2 | apply Forall_app; auto].
Qed.

Lemma sat_forEach {A} P Q (l : list A) (f : A -> M St unit) :
  (forall x, sat P Q (f x)) -> sat P Q (forEach l f).
Proof.
  intros Hf. induction l as [|x l IH]; simpl.
  - apply sat_ret.
  - apply sat_mbind; [apply Hf | intros _; exact IH].
Qed.

Lemma sat_weaken {A} P Q Q' (m : M St A) :
  (forall e, Q e -> Q' e) -> sat P Q m -> sat P Q' m.
Proof.
  intros HQ Hm s Hs. destruct (Hm s Hs) as [H1 H2]. split; [exact H1|].
  eapply Forall_impl; eauto.
Qed.
End Rules.

Lemma sat_onFst {S E A} (P : S -> Prop) Q (m : M S A) :
  sat P Q m -> sat (fun se : S * E => P (fst se)) Q (onFst m).
Proof.
  intros Hm [s e] Hs. unfold onFst, state_of, events_of in *. simpl in *.
  specialize (Hm s Hs). destruct (m s) as [[o s1] e1]. simpl in *. exact Hm.
Qed.

Lemma sat_callHook {Env} (P : Connection -> Prop) Q
    (h : Connection -> Env -> Outcome unit * Env) :
  sat (fun se : Connection * Env => P (fst se)) Q (callHook h).
Proof.
  intros [c e] Hs. unfold callHook, state_of, events_of. simpl.
  destruct (h c e) as [o e']. simpl. split; [exact Hs | constructor].
Qed.

Lemma sat_updateConn {Env} (P : Connection -> Prop) Q (f : Connection -> Connection) :
  (forall c, P c -> P (f c)) ->
  sat (fun se : Connection * Env => P (fst se)) Q (updateConn f).
Proof. intros Hf. apply sat_onFst, sat_modify, Hf. Qed.

(** One step of the decomposition of a [sat] goal along the structure of a
    method; [tac] discharges the side conditions on events and updates. *)
Ltac sat_step tac :=
  first
    [ apply sat_ret | apply sat_mret | apply sat_throw | apply sat_get
    | apply sat_emit; solve [tac]
    | apply sat_modify; solve [tac]
    | apply sat_updateConn; solve [tac]
    | apply sat_callHook
    | solve [eauto 3 with sat]
    | apply sat_onFst
    | apply sat_mbind; [|intros ?]
    | apply sat_tryCatch; [|intros ?]
    | apply sat_forEach; intros ?
    | match goal with
      | |- sat _ _ (match ?x with _ => _ end) => destruct x
      | |- sat _ _ (let '(_, _) := ?x in _) => destruct x
      end ].

Ltac sat_go tac := repeat (sat_step tac).

(** Expose the state passing of a method. *)
Ltac munfold :=
  cbv [mbind M_bind bind mret M_ret ret get modify emit throw tryCatch onFst
       callHook updateConn state_of events_of outcome_of].

Lemma mbind_run {S A B} (m : M S A) (k : A -> M S B) s :
  (m ≫= k) s =
  match m s with
  | (Ret a, s1, e1) => match k a s1 with (o, s2, e2) => (o, s2, e1 ++ e2) end
  | (Throw e, s1, e1) => (Throw e, s1, e1)
  end.
Proof. reflexivity. Qed.

Lemma tryCatch_run {S A} (m : M S A) (h : string -> M S A) s :
  tryCatch m h s =
  match m s with
  | (Ret a, s1, e1) => (Ret a, s1, e1)
  | (Throw e, s1, e1) => match h e s1 with (o, s2, e2) => (o, s2, e1 ++ e2) end
  end.
Proof. reflexivity. Qed.

Create HintDb sat.

(** ** Invariants kept by every operation

    [P] is a property of the connection that does not depend on the fields
    other than [messagesToAck], [receivedMessages] and [header], and that a
    push of an envelope that needs an acknowledgement under a fresh id, a
    re-send and a removal in [messagesToAck] keep;
    [Q] is a property of events that holds of every frame sent and of every
    callback invocation. *)
Section Stable.
Variable P : Connection -> Prop.
Variable Q : Event -> Prop.

Hypothesis P_nextMsgId : forall v c, P c -> P (set_nextMsgId v c).
Hypothesis P_later : forall v c, P c -> P (set_messagesToSendAfterReconnect v c).
Hypothesis P_callbacks : forall v c, P c -> P (set_callbacks v c).
Hypothesis P_counter : forall v c, P c -> P (set_messagesSentInASecond v c).
Hypothesis P_connected : forall v c, P c -> P (set_connected v c).
Hypothesis P_timer : forall v c, P c -> P (set_closingTimer v c).
Hypothesis P_promises : forall v c, P c -> P (set_promises v c).
Hypothesis P_pongs : forall v c, P c -> P (set_pongsReceived v c).
Hypothesis P_push : forall now w c,
  messageNeedsAck w = true ->
  findLastIndex (hasId (wid w)) (messagesToAck c) = None ->
  P c ->
  P (set_messagesToAck
       (messagesToAck c ++ [{| wrappedMsg := w; sentAt := now; sentAmount := 1 |}]) c).
Hypothesis P_resent : forall now i e c,
  messagesToAck c !! i = Some e ->
  P c -> P (set_messagesToAck (<[i := resent now e]> (messagesToAck c)) c).
Hypothesis P_remove : forall i c,
  P c -> P (set_messagesToAck (delete i (messagesToAck c)) c).
Hypothesis Q_send : forall w, Q (EvSend w).
Hypothesis Q_callback : forall tag arg, Q (EvCallback tag arg).

Local Ltac side := intros; simpl; eauto.

Lemma sat_strategy_send w : sat P Q (strategy_send w).
Proof. unfold strategy_send. sat_go side. Qed.
Hint Resolve sat_strategy_send : sat.

Lemma sat_sendWrappedMsg now w sentIdx : sat P Q (sendWrappedMsg now w sentIdx).
Proof.
  unfold sendWrappedMsg. apply sat_mbind; [|intros ?; sat_go side].
  destruct (messageNeedsAck w) eqn:Hack; [|apply sat_mret].
  intros c Hc. unfold mbind, M_bind, bind, get. simpl.
  destruct sentIdx as [i|].
  - destruct (messagesToAck c !! i) as [e|] eqn:Hi; simpl.
    + split; [eapply P_resent; eauto | constructor].
    + split; [exact Hc | constructor].
  - destruct (findLastIndex (hasId (wid w)) (messagesToAck c)) as [i|] eqn:Hf.
    + destruct (messagesToAck c !! i) as [e|] eqn:Hi; simpl.
      * split; [eapply P_resent; eauto | constructor].
      * split; [exact Hc | constructor].
    + simpl. split; [apply P_push; auto | constructor].
Qed.
Hint Resolve sat_sendWrappedMsg : sat.

Lemma sat_postAndExpectResponse now msg : sat P Q (postAndExpectResponse now msg).
Proof. unfold postAndExpectResponse. sat_go side. Qed.
Hint Resolve sat_postAndExpectResponse : sat.

Lemma sat_postAndForgetMsg now msg : sat P Q (postAndForgetMsg now msg).
Proof. unfold postAndForgetMsg. sat_go side. Qed.
Hint Resolve sat_postAndForgetMsg : sat.

Lemma sat_postAndForget now r : sat P Q (postAndForget now r).
Proof. unfold postAndForget. sat_go side. Qed.
Hint Resolve sat_postAndForget : sat.

Lemma sat_post now msg cb : sat P Q (post now msg cb).
Proof. unfold post. sat_go side. Qed.

Lemma sat_sendToRoute now r v payload hs cb : sat P Q (sendToRoute now r v payload hs cb).
Proof. unfold sendToRoute. sat_go side. Qed.

Lemma sat_sendToRouteAndForget now r v payload hs :
  sat P Q (sendToRouteAndForget now r v payload hs).
Proof. unfold sendToRouteAndForget. sat_go side. Qed.

Lemma sat_sendMessagesFromLaterList now : sat P Q (sendMessagesFromLaterList now).
Proof. unfold sendMessagesFromLaterList. sat_go side. Qed.

Lemma sat_retryTick now : sat P Q (retryTick now).
Proof. unfold retryTick. sat_go side. Qed.

Lemma sat_rateReset : sat P Q rateReset.
Proof. unfold rateReset. sat_go side. Qed.

Lemma sat_removeMessageToAck id : sat P Q (removeMessageToAck id).
Proof.
  intros c Hc. unfold removeMessageToAck, mbind, M_bind, bind, get. simpl.
  destruct (findLastIndex (hasId id) (messagesToAck c)); simpl.
  - split; [apply P_remove, Hc | constructor].
  - split; [exact Hc | constructor].
Qed.

Lemma sat_settleRouteMessage now p result : sat P Q (settleRouteMessage now p result).
Proof. unfold settleRouteMessage. sat_go side. Qed.
Hint Resolve sat_post sat_sendToRoute sat_sendToRouteAndForget
  sat_sendMessagesFromLaterList sat_retryTick sat_rateReset
  sat_removeMessageToAck sat_settleRouteMessage : sat.

(** The engine: [P] is also kept when a pair is pushed on
    [receivedMessages] and when [header] is written. *)
Context {Env : Type} (hooks : Hooks Env).
Hypothesis P_received : forall p c,
  P c -> P (set_receivedMessages (receivedMessages c ++ [p]) c).
Hypothesis P_header : forall v c, P c -> P (set_header v c).

Local Abbreviation P' := (fun se : Connection * Env => P (fst se)).

Lemma sat_runCallback cb response : sat P' Q (runCallback hooks cb response).
Proof. unfold runCallback. sat_go side. Qed.
Hint Resolve sat_runCallback : sat.

Lemma sat_handleResponse msg : sat P' Q (handleResponse hooks msg).
Proof. unfold handleResponse. sat_go side. Qed.
Hint Resolve sat_handleResponse : sat.

Lemma sat_handleDataSet id key value : sat P' Q (handleDataSet hooks id key value).
Proof. unfold handleDataSet. sat_go side. Qed.

Lemma sat_handleRouteSubscription id r : sat P' Q (handleRouteSubscription hooks id r).
Proof. unfold handleRouteSubscription. sat_go side. Qed.

Lemma sat_handleRouteUnsubscription id r :
  sat P' Q (handleRouteUnsubscription hooks id r).
Proof. unfold handleRouteUnsubscription. sat_go side. Qed.

Lemma sat_handleRouteMessage id (m : MsgRoute) :
  Q (EvRouteMessage id m) -> sat P' Q (handleRouteMessage (Env:=Env) id m).
Proof. intros Hq. unfold handleRouteMessage. sat_go side. Qed.

Hint Resolve sat_handleDataSet sat_handleRouteSubscription
  sat_handleRouteUnsubscription sat_handleRouteMessage : sat.

Lemma sat_dispatch id msg :
  (forall m, Q (EvRouteMessage id m)) -> sat P' Q (dispatch hooks id msg).
Proof. intros Hq. unfold dispatch. sat_go side. Qed.
Hint Resolve sat_dispatch : sat.

Lemma sat_handleMessage now w :
  Q (EvDispatch w) -> (forall m, Q (EvRouteMessage (wid w) m)) ->
  sat P' Q (handleMessage hooks now w).
Proof. intros Hd Hr. unfold handleMessage. sat_go side. Qed.

Lemma sat_close : sat P' Q (close (Env:=Env)).
Proof. unfold close, clearClosingTimer. sat_go side. Qed.
Hint Resolve sat_close : sat.

Lemma sat_transportOpened : sat P' Q (transportOpened hooks).
Proof. unfold transportOpened, clearClosingTimer. sat_go side. Qed.

Lemma sat_transportClosed : sat P' Q (transportClosed hooks).
Proof. unfold transportClosed, clearClosingTimer. sat_go side. Qed.

Lemma sat_closeTimerFired : sat P' Q (closeTimerFired hooks).
Proof. unfold closeTimerFired. sat_go side. Qed.

Lemma sat_connect : sat P' Q (connect hooks).
Proof. unfold connect. sat_go side. Qed.
Hint Resolve sat_connect : sat.

Lemma sat_setStrategy now : sat P' Q (setStrategy hooks now).
Proof. unfold setStrategy. sat_go side. Qed.

Lemma sat_setSocket now isOpen : sat P' Q (setSocket (Env:=Env) now isOpen).
Proof. unfold setSocket, clearClosingTimer. sat_go side. Qed.

Lemma sat_socketOpened now : sat P' Q (socketOpened (Env:=Env) now).
Proof. unfold socketOpened. sat_go side. Qed.

Lemma sat_sendPing now round : sat P' Q (sendPing (Env:=Env) now round).
Proof. unfold sendPing. sat_go side. Qed.

Lemma sat_pongTimeout round : sat P' Q (pongTimeout (Env:=Env) round).
Proof. unfold pongTimeout. sat_go side. Qed.

(** Every operation but the delivery of an envelope. *)
Lemma sat_step_other now op :
  (forall w, op <> OpDeliver w) -> sat P' Q (step hooks now op).
Proof.
  intros Hop. destruct op; simpl;
    try (exfalso; eapply Hop; reflexivity);
    eauto using sat_onFst, sat_post, sat_sendToRoute, sat_sendToRouteAndForget,
      sat_retryTick, sat_rateReset, sat_settleRouteMessage, sat_sendPing,
      sat_pongTimeout, sat_transportOpened, sat_transportClosed,
      sat_closeTimerFired, sat_close, sat_connect, sat_setStrategy,
      sat_setSocket, sat_socketOpened.
Qed.

Lemma sat_step now op :
  (forall w, Q (EvDispatch w)) -> (forall id m, Q (EvRouteMessage id m)) ->
  sat P' Q (step hooks now op).
Proof.
  intros Hd Hr. destruct op; try (apply sat_step_other; congruence).
  simpl. apply sat_handleMessage; auto.
Qed.

(** A run keeps what each of its steps keeps. *)
Lemma sat_run ops s :
  (forall now op, sat P' Q (step hooks now op)) ->
  P (fst s) ->
  P (fst (fst (run hooks ops s))) /\ Forall Q (snd (run hooks ops s)).
Proof.
  intros Hstep. revert s. induction ops as [|[now op] ops IH]; intros s Hs; simpl.
  - split; [exact Hs | constructor].
  - destruct (Hstep now op s Hs) as [H1 H2].
    unfold state_of, events_of in *.
    destruct (step hooks now op s) as [[o s1] e1]. simpl in *.
    destruct (IH s1 H1) as [H3 H4].
    destruct (run hooks ops s1) as [s2 e2]. simpl in *.
    split; [exact H3 | apply Forall_app; auto].
Qed.
End Stable.

(** ** Searching from the end *)

Lemma findLastIndex_None {A} (P : A -> bool) (l : list A) :
  findLastIndex P l = None <-> Forall (fun x => P x = false) l.
Proof.
  induction l as [|x l IH]; simpl.
  - split; [constructor | reflexivity].
  - destruct (findLastIndex P l) as [j|] eqn:Hj.
    + split; [discriminate|]. intros H. inversion H; subst.
      apply IH in H3. discriminate.
    + destruct (P x) eqn:Hx.
      * split; [discriminate|]. intros H. inversion H; subst. congruence.
      * split; [|reflexivity]. intros _. constructor; [exact Hx | apply IH; reflexivity].
Qed.

Lemma findLastIndex_Some {A} (P : A -> bool) (l : list A) i :
  findLastIndex P l = Some i ->
  exists x, l !! i = Some x /\ P x = true /\
            forall j y, (i < j)%nat -> l !! j = Some y -> P y = false.
Proof.
  revert i. induction l as [|x l IH]; simpl; intros i H; [discriminate|].
  destruct (findLastIndex P l) as [j|] eqn:Hj.
  - inversion H; subst. destruct (IH j eq_refl) as (y & Hy & Py & Hlast).
    exists y. split; [exact Hy|]. split; [exact Py|].
    intros k z Hk Hz. destruct k as [|k]; [lia|]. simpl in Hz.
    eapply Hlast; [|exact Hz]. lia.
  - destruct (P x) eqn:Hx; [|discriminate]. inversion H; subst.
    exists x. split; [reflexivity|]. split; [exact Hx|].
    intros k z Hk Hz. destruct k as [|k]; [lia|]. simpl in Hz.
    apply findLastIndex_None in Hj. rewrite Forall_forall in Hj.
    apply Hj. eapply list_elem_of_lookup_2; eauto.
Qed.

Lemma findLastIndex_is_Some {A} (P : A -> bool) (l : list A) x :
  x ∈ l -> P x = true -> is_Some (findLastIndex P l).
Proof.
  intros Hin Hx. destruct (findLastIndex P l) eqn:H; [eauto|].
  apply findLastIndex_None in H. rewrite Forall_forall in H.
  specialize (H x Hin). congruence.
Qed.

Lemma findLastIndex_app_last {A} (P : A -> bool) (l : list A) x :
  P x = true -> findLastIndex P (l ++ [x]) = Some (length l).
Proof.
  intros Hx. induction l as [|y l IH]; simpl.
  - rewrite Hx. reflexivity.
  - rewrite IH. reflexivity.
Qed.

Lemma findLastIndex_app_keep {A} (P : A -> bool) (l : list A) x :
  P x = false -> findLastIndex P (l ++ [x]) = findLastIndex P l.
Proof.
  intros Hx. induction l as [|y l IH]; simpl.
  - rewrite Hx. reflexivity.
  - rewrite IH. reflexivity.
Qed.

(** ** [messagesToAck] holds one entry per id *)

Lemma ackIds_absent w c :
  findLastIndex (hasId (wid w)) (messagesToAck c) = None -> wid w ∉ ackIds c.
Proof.
  intros H Hin. apply findLastIndex_None in H. rewrite Forall_forall in H.
  unfold ackIds in Hin. apply list_elem_of_fmap in Hin as (e & He & Hin).
  specialize (H e Hin). unfold hasId in H. lia.
Qed.

Lemma uniqueAcks_push now w c :
  findLastIndex (hasId (wid w)) (messagesToAck c) = None ->
  uniqueAcks c ->
  uniqueAcks (set_messagesToAck
                (messagesToAck c ++ [{| wrappedMsg := w; sentAt := now; sentAmount := 1 |}]) c).
Proof.
  intros Hnone Hu. unfold uniqueAcks, ackIds in *. simpl. rewrite fmap_app. simpl.
  apply NoDup_app. split; [exact Hu|]. split; [|apply NoDup_singleton].
  intros x Hx Hx'. apply list_elem_of_singleton in Hx'. subst x.
  exact (ackIds_absent w c Hnone Hx).
Qed.

Lemma ackIds_resent now i e c :
  messagesToAck c !! i = Some e ->
  ackIds (set_messagesToAck (<[i := resent now e]> (messagesToAck c)) c) = ackIds c.
Proof.
  intros Hi. unfold ackIds. simpl. rewrite list_fmap_insert. simpl.
  apply list_insert_id. rewrite list_lookup_fmap, Hi. reflexivity.
Qed.

Lemma uniqueAcks_resent now i e c :
  messagesToAck c !! i = Some e ->
  uniqueAcks c ->
  uniqueAcks (set_messagesToAck (<[i := resent now e]> (messagesToAck c)) c).
Proof. intros Hi Hu. unfold uniqueAcks. rewrite ackIds_resent; assumption. Qed.

Lemma uniqueAcks_remove i c :
  uniqueAcks c -> uniqueAcks (set_messagesToAck (delete i (messagesToAck c)) c).
Proof.
  unfold uniqueAcks, ackIds. simpl. intros Hu. rewrite list_fmap_delete.
  exact (sublist_NoDup _ _ Hu (sublist_delete _ i)).
Qed.

(** With unique ids, the search from the end finds the one entry of an id. *)
Lemma uniqueAcks_find id i e c :
  uniqueAcks c -> messagesToAck c !! i = Some e -> wid (wrappedMsg e) = id ->
  findLastIndex (hasId id) (messagesToAck c) = Some i.
Proof.
  intros Hu Hi Hid.
  destruct (findLastIndex_is_Some (hasId id) (messagesToAck c) e) as [j Hj].
  { eapply list_elem_of_lookup_2; eauto. }
  { unfold hasId. lia. }
  rewrite Hj. f_equal.
  destruct (findLastIndex_Some _ _ _ Hj) as (e' & Hj' & He' & _).
  unfold hasId in He'.
  eapply (NoDup_lookup (ackIds c) j i id Hu); unfold ackIds;
    rewrite list_lookup_fmap; [rewrite Hj' | rewrite Hi]; simpl; f_equal; lia.
Qed.

Lemma step_uniqueAcks {Env} (hooks : Hooks Env) now op :
  sat (fun se : Connection * Env => uniqueAcks (fst se)) (fun _ => True)
    (step hooks now op).
Proof.
  apply sat_step; intros; simpl; auto using uniqueAcks_push, uniqueAcks_resent,
    uniqueAcks_remove.
Qed.

(** C5. [messagesToAck] has at most one entry per message id at every point
    of a connection's life: [sendWrappedMsg] pushes an entry with
    [sentAmount = 1] and [sentAt = now] only when the id has no entry, and
    otherwise increments [sentAmount] and refreshes [sentAt] of the existing
    entry; [removeMessageToAck] removes at most the one matching entry; every
    operation keeps the ids unique, so they are unique in every state reached
    from a new connection. *)
Theorem messagesToAck_one_entry_per_id :
  (forall now w c,
      messageNeedsAck w = true ->
      (forall e, e ∈ messagesToAck c -> wid (wrappedMsg e) <> wid w) ->
      messagesToAck (state_of (sendWrappedMsg now w None c)) =
      messagesToAck c ++ [{| wrappedMsg := w; sentAt := now; sentAmount := 1 |}]) /\
  (forall now w c i e,
      messageNeedsAck w = true ->
      uniqueAcks c ->
      messagesToAck c !! i = Some e -> wid (wrappedMsg e) = wid w ->
      messagesToAck (state_of (sendWrappedMsg now w None c)) =
      <[i := {| wrappedMsg := wrappedMsg e; sentAt := now;
                sentAmount := sentAmount e + 1 |}]> (messagesToAck c)) /\
  (forall id c,
      let c' := state_of (removeMessageToAck id c) in
      (messagesToAck c' = messagesToAck c /\
       forall e, e ∈ messagesToAck c -> wid (wrappedMsg e) <> id) \/
      (exists i e, messagesToAck c !! i = Some e /\ wid (wrappedMsg e) = id /\
                   messagesToAck c' = delete i (messagesToAck c))) /\
  (forall Env (hooks : Hooks Env) now op s,
      uniqueAcks (fst s) -> uniqueAcks (fst (state_of (step hooks now op s)))) /\
  (forall Env (hooks : Hooks Env) secret client (env : Env) ops,
      uniqueAcks (fst (fst (run hooks ops (newConnection secret client, env))))).
Proof.
  repeat split.
  - intros now w c Hack Habs.
    assert (findLastIndex (hasId (wid w)) (messagesToAck c) = None) as Hf.
    { apply findLastIndex_None, Forall_forall. intros e He.
      specialize (Habs e He). unfold hasId. lia. }
    unfold sendWrappedMsg, strategy_send. munfold. rewrite Hack, Hf.
    simpl. destruct (connected c); reflexivity.
  - intros now w c i e Hack Hu Hi Hid.
    unfold sendWrappedMsg, strategy_send. munfold. rewrite Hack.
    rewrite (uniqueAcks_find (wid w) i e c Hu Hi Hid). rewrite Hi.
    simpl. destruct (connected c); reflexivity.
  - intros id c. simpl.
    unfold removeMessageToAck. munfold.
    destruct (findLastIndex (hasId id) (messagesToAck c)) as [i|] eqn:Hf; simpl.
    + right. destruct (findLastIndex_Some _ _ _ Hf) as (e & Hi & He & _).
      exists i, e. unfold hasId in He. repeat split; auto. lia.
    + left. split; [reflexivity|]. intros e He.
      apply findLastIndex_None in Hf. rewrite Forall_forall in Hf.
      specialize (Hf e He). unfold hasId in Hf. lia.
  - intros Env hooks now op s Hs. apply (step_uniqueAcks hooks now op s Hs).
  - intros Env hooks secret client env ops.
    apply (sat_run uniqueAcks (fun _ => True) hooks ops).
    + intros now op. apply step_uniqueAcks.
    + simpl. constructor.
Qed.

(** The hypotheses of the theorem above hold in a concrete case. *)
Lemma messagesToAck_one_entry_per_id_witness :
  messageNeedsAck {| wid := 0; wmsg := MsgPing |} = true /\
  messagesToAck (state_of (sendWrappedMsg 5 {| wid := 0; wmsg := MsgPing |} None
                             openServerConn)) =
    [{| wrappedMsg := {| wid := 0; wmsg := MsgPing |}; sentAt := 5; sentAmount := 1 |}] /\
  uniqueAcks (fst (fst (run (defaultHooks unit)
                          [(1, OpPost MsgPing None); (4000, OpRetryTick);
                           (4001, OpPost MsgPing None)] openServer))).
Proof.
  destruct messagesToAck_one_entry_per_id as (Hpush & _ & _ & Hstep & Hrun).
  split; [reflexivity|]. split.
  - apply (Hpush 5 {| wid := 0; wmsg := MsgPing |} openServerConn); [reflexivity|].
    intros e He. simpl in He. inversion He.
  - assert (uniqueAcks (fst openServer)) as H0 by (vm_compute; constructor).
    pose proof (Hstep unit (defaultHooks unit) 1 (OpPost MsgPing None) _ H0) as H1.
    pose proof (Hstep unit (defaultHooks unit) 4000 OpRetryTick _ H1) as H2.
    exact (Hstep unit (defaultHooks unit) 4001 (OpPost MsgPing None) _ H2).
Defined.

(** ** Duplicate deliveries *)

Lemma postAndForgetMsg_spec now msg c :
  postAndForgetMsg now msg c =
  (Ret tt, c, if connected c then [EvSend (new_SendAndForgetMsgWrapper msg)] else []).
Proof.
  unfold postAndForgetMsg, sendWrappedMsg, strategy_send. munfold. simpl.
  destruct (connected c) eqn:Hc; [|reflexivity]. simpl. rewrite Hc. reflexivity.
Qed.

Lemma postAndForget_returns now r c : outcome_of (postAndForget now r c) = Ret tt.
Proof.
  destruct r as [m|p]; simpl.
  - rewrite postAndForgetMsg_spec. reflexivity.
  - munfold. destruct (promises c !! p) as [[id n|m|]|]; try reflexivity.
    rewrite postAndForgetMsg_spec. reflexivity.
Qed.

Lemma handleMessage_first {Env} (hooks : Hooks Env) now w s :
  wid w <> -1 -> getReceivedPairById (wid w) (fst s) = None ->
  handleMessage hooks now w s =
  match dispatch hooks (wid w) (wmsg w) s with
  | (Ret r, s1, e1) =>
      let r' := default (noResponse (wid w)) r in
      match postAndForget now r' (fst s1) with
      | (_, c2, e2) =>
          (Ret tt, (recordReceived w r' c2, snd s1), EvDispatch w :: e1 ++ e2)
      end
  | (Throw _, s1, e1) =>
      match postAndForgetMsg now
              (Res (new_MsgGenericError (wid w) "Error handling message")) (fst s1) with
      | (_, c2, e2) =>
          (Ret tt, (recordReceived w (noResponse (wid w)) c2, snd s1),
           EvDispatch w :: e1 ++ e2)
      end
  end.
Proof.
  intros Hid Hnone. unfold handleMessage.
  assert (negb (wid w =? -1) = true) as Hn by (apply negb_true_iff; lia).
  munfold. rewrite Hn, Hnone.
  destruct (dispatch hooks (wid w) (wmsg w) s) as [[[r|e] s1] e1]; simpl.
  - pose proof (postAndForget_returns now (default (noResponse (wid w)) r) (fst s1)) as Hr.
    unfold outcome_of in Hr.
    destruct (postAndForget now (default (noResponse (wid w)) r) (fst s1)) as [[o c2] e2].
    simpl in Hr. subst o. simpl. repeat rewrite app_nil_r. reflexivity.
  - rewrite postAndForgetMsg_spec. simpl. repeat rewrite app_nil_r. reflexivity.
Qed.

Lemma handleMessage_duplicate {Env} (hooks : Hooks Env) now w s received :
  wid w <> -1 -> getReceivedPairById (wid w) (fst s) = Some received ->
  handleMessage hooks now w s =
  onFst (postAndForget now
           (if isPending (promises (fst s)) (response received)
            then Immediate (beingProcessed (wid w))
            else getOriginal (response received))) s.
Proof.
  intros Hid Hsome. unfold handleMessage.
  assert (negb (wid w =? -1) = true) as Hn by (apply negb_true_iff; lia).
  munfold. rewrite Hn, Hsome.
  destruct (isPending (promises (fst s)) (response received)); simpl;
    match goal with
    | |- context [postAndForget ?n ?r ?c] => destruct (postAndForget n r c) as [[? ?] ?]
    | |- context [postAndForgetMsg ?n ?r ?c] => destruct (postAndForgetMsg n r c) as [[? ?] ?]
    end; reflexivity.
Qed.

Lemma getReceivedPairById_push id w r c :
  getReceivedPairById id (recordReceived w r c) =
  if wid w =? id
  then Some {| wrapper := w; response := {| _original := r |} |}
  else getReceivedPairById id c.
Proof.
  unfold getReceivedPairById, recordReceived. simpl.
  destruct (wid w =? id) eqn:Hw.
  - rewrite findLastIndex_app_last by (simpl; exact Hw).
    rewrite lookup_app_r by lia. rewrite Nat.sub_diag. reflexivity.
  - rewrite findLastIndex_app_keep by (simpl; exact Hw).
    destruct (findLastIndex _ (receivedMessages c)) as [i|] eqn:Hf; [|reflexivity].
    destruct (findLastIndex_Some _ _ _ Hf) as (x & Hx & _).
    rewrite lookup_app_l; [reflexivity|]. eapply lookup_lt_Some; eauto.
Qed.

Lemma hasReceived_push id p c :
  hasReceived id c ->
  hasReceived id (set_receivedMessages (receivedMessages c ++ [p]) c).
Proof.
  intros H. destruct p as [w [r]].
  change (hasReceived id (recordReceived w r c)).
  unfold hasReceived. rewrite getReceivedPairById_push.
  destruct (wid w =? id); [eauto | exact H].
Qed.

Lemma step_hasReceived {Env} (hooks : Hooks Env) id now op :
  id <> -1 ->
  sat (fun se : Connection * Env => hasReceived id (fst se)) (quietFor id)
    (step hooks now op).
Proof.
  intros Hid.
  destruct op;
    try (apply sat_step_other; intros; simpl;
         solve [ assumption | split; reflexivity | apply hasReceived_push; assumption
               | discriminate ]).
  simpl. destruct (Z.eq_dec (wid w) id) as [Heq|Hne].
  - intros s [received Hs]. subst id.
    rewrite (handleMessage_duplicate hooks now w s received Hid Hs).
    apply (sat_onFst (hasReceived (wid w)) (quietFor (wid w))).
    + apply sat_postAndForget; intros; simpl; first [assumption | split; reflexivity].
    + exists received. exact Hs.
  - apply sat_handleMessage; intros; simpl;
      first [ assumption | apply hasReceived_push; assumption
            | split; simpl; try reflexivity; apply Z.eqb_neq; assumption ].
Qed.

Lemma countDispatch_app id a b :
  countDispatch id (a ++ b) = (countDispatch id a + countDispatch id b)%nat.
Proof. unfold countDispatch. rewrite List.filter_app, length_app. reflexivity. Qed.

Lemma countHandlerCalls_app id a b :
  countHandlerCalls id (a ++ b) = (countHandlerCalls id a + countHandlerCalls id b)%nat.
Proof. unfold countHandlerCalls. rewrite List.filter_app, length_app. reflexivity. Qed.

Lemma quietFor_counts id evs :
  Forall (quietFor id) evs -> countDispatch id evs = 0%nat /\ countHandlerCalls id evs = 0%nat.
Proof.
  unfold countDispatch, countHandlerCalls.
  induction 1 as [|e evs [Hd Hh] _ [IH1 IH2]]; simpl; [auto|].
  rewrite Hd, Hh. auto.
Qed.

Lemma silent_quietFor id e : silent e -> quietFor id e.
Proof. destruct e; simpl; intros H; try contradiction; split; reflexivity. Qed.

Lemma silent_counts id evs :
  Forall silent evs -> countDispatch id evs = 0%nat /\ countHandlerCalls id evs = 0%nat.
Proof.
  intros H. apply quietFor_counts. eapply Forall_impl; [exact H|].
  intros e. apply silent_quietFor.
Qed.

Lemma dispatch_route {Env} (hooks : Hooks Env) id m s :
  dispatch hooks id (Route m) s =
  (Ret (Some (Promised (length (promises (fst s))))),
   (set_promises (promises (fst s) ++ [PPending id 0]) (fst s), snd s),
   [EvRouteMessage id m]).
Proof. reflexivity. Qed.

Lemma dispatch_silent {Env} (hooks : Hooks Env) id msg s :
  isRoute msg = false -> Forall silent (events_of (dispatch hooks id msg s)).
Proof.
  intros Hr.
  assert (sat (fun _ : Connection * Env => True) silent (dispatch hooks id msg)) as H.
  { destruct msg; try discriminate; unfold dispatch;
      (apply sat_mbind; [|intros ?; apply sat_mret]) || apply sat_mret || apply sat_throw.
    - apply (sat_handleDataSet (fun _ => True) silent); simpl; auto.
    - apply (sat_handleRouteSubscription (fun _ => True) silent).
    - apply (sat_handleRouteUnsubscription (fun _ => True) silent).
    - apply (sat_handleResponse (fun _ => True) silent); simpl; auto. }
  apply (H s I).
Qed.

Lemma postAndForget_silent now r c : Forall silent (events_of (postAndForget now r c)).
Proof.
  assert (sat (fun _ : Connection => True) silent (postAndForget now r)) as H
    by (apply sat_postAndForget; simpl; auto).
  apply (H c I).
Qed.

Lemma handleMessage_first_counts {Env} (hooks : Hooks Env) now w s :
  wid w <> -1 -> getReceivedPairById (wid w) (fst s) = None ->
  countDispatch (wid w) (events_of (handleMessage hooks now w s)) = 1%nat /\
  countHandlerCalls (wid w) (events_of (handleMessage hooks now w s)) =
    (if isRoute (wmsg w) then 1 else 0)%nat /\
  hasReceived (wid w) (fst (state_of (handleMessage hooks now w s))).
Proof.
  intros Hid Hnone. rewrite (handleMessage_first hooks now w s Hid Hnone).
  assert (forall e1 e2 k,
    Forall silent e2 ->
    countDispatch (wid w) e1 = 0%nat -> countHandlerCalls (wid w) e1 = k ->
    countDispatch (wid w) (EvDispatch w :: e1 ++ e2) = 1%nat /\
    countHandlerCalls (wid w) (EvDispatch w :: e1 ++ e2) = k) as Hcount.
  { intros e1 e2 k H2 Hd Hh. destruct (silent_counts (wid w) e2 H2) as [Hd2 Hh2].
    change (EvDispatch w :: e1 ++ e2) with ([EvDispatch w] ++ e1 ++ e2).
    rewrite !countDispatch_app, !countHandlerCalls_app, Hd, Hh, Hd2, Hh2.
    unfold countDispatch, countHandlerCalls. simpl. rewrite Z.eqb_refl. simpl. lia. }
  assert (forall r c, hasReceived (wid w) (recordReceived w r c)) as Hrec.
  { intros r c. unfold hasReceived. rewrite getReceivedPairById_push, Z.eqb_refl. eauto. }
  assert (countDispatch (wid w) (events_of (dispatch hooks (wid w) (wmsg w) s)) = 0%nat /\
          countHandlerCalls (wid w) (events_of (dispatch hooks (wid w) (wmsg w) s)) =
          (if isRoute (wmsg w) then 1 else 0)%nat) as [Hd Hh].
  { destruct (isRoute (wmsg w)) eqn:Hr.
    - destruct (wmsg w) as [| | | | |m|]; try discriminate.
      rewrite dispatch_route. unfold countDispatch, countHandlerCalls, events_of. simpl.
      rewrite Z.eqb_refl. auto.
    - apply silent_counts, dispatch_silent, Hr. }
  unfold events_of, state_of in *.
  destruct (dispatch hooks (wid w) (wmsg w) s) as [[[r|e] s1] e1]; simpl in Hd, Hh.
  - pose proof (postAndForget_silent now (default (noResponse (wid w)) r) (fst s1)) as H2.
    unfold events_of in H2. simpl.
    destruct (postAndForget now (default (noResponse (wid w)) r) (fst s1)) as [[o c2] e2].
    simpl in *. destruct (Hcount e1 e2 _ H2 Hd Hh). auto.
  - rewrite postAndForgetMsg_spec. simpl.
    assert (Forall silent (if connected (fst s1)
              then [EvSend (new_SendAndForgetMsgWrapper
                     (Res (new_MsgGenericError (wid w) "Error handling message")))]
              else [])) as H2 by (destruct (connected (fst s1)); repeat constructor).
    destruct (Hcount e1 _ _ H2 Hd Hh). auto.
Qed.

Lemma postAndForget_fulfilled now p m c :
  promises c !! p = Some (PFulfilled m) ->
  postAndForget now (Promised p) c = postAndForgetMsg now (Res m) c.
Proof.
  intros H. unfold postAndForget. munfold. rewrite H.
  destruct (postAndForgetMsg now (Res m) c) as [[? ?] ?]. reflexivity.
Qed.

Lemma handleMessage_forget {Env} (hooks : Hooks Env) now w s :
  wid w = -1 ->
  handleMessage hooks now w s =
  match dispatch hooks (wid w) (wmsg w) s with
  | (_, s1, e1) => (Ret tt, s1, EvDispatch w :: e1)
  end.
Proof.
  intros Hid. unfold handleMessage. rewrite Hid. munfold. cbn.
  destruct (dispatch hooks (-1) (wmsg w) s) as [[[r|e] s1] e1]; cbn;
    repeat rewrite app_nil_r; reflexivity.
Qed.

Lemma handleMessage_route {Env} (hooks : Hooks Env) now id m s :
  id <> -1 -> getReceivedPairById id (fst s) = None ->
  let w := {| wid := id; wmsg := Route m |} in
  let p := length (promises (fst s)) in
  handleMessage hooks now w s =
  (Ret tt,
   (recordReceived w (Promised p)
      (set_promises (promises (fst s) ++ [PPending id 1]) (fst s)), snd s),
   [EvDispatch w; EvRouteMessage id m]).
Proof.
  intros Hid Hnone. cbv zeta.
  rewrite (handleMessage_first hooks now _ s) by assumption.
  cbn [wid wmsg]. rewrite dispatch_route. cbv zeta. cbn [default from_option].
  unfold Datatypes.id. unfold postAndForget. munfold. cbn [fst snd promises set_promises].
  rewrite lookup_app_r by lia. rewrite Nat.sub_diag. cbn.
  rewrite insert_app_r_alt by lia. rewrite Nat.sub_diag. reflexivity.
Qed.

Lemma settleRouteMessage_pending now p id n result c :
  promises c !! p = Some (PPending id n) ->
  settleRouteMessage now p result c =
  (Ret tt,
   set_promises (<[p := match result with
                        | HResolved resp => PFulfilled (routeReply id resp)
                        | HRejected => PRejected
                        end]> (promises c)) c,
   match result with
   | HResolved resp =>
       if connected c
       then replicate n (EvSend {| wid := -1; wmsg := Res (routeReply id resp) |})
       else []
   | HRejected => []
   end).
Proof.
  intros Hp. unfold settleRouteMessage. rewrite mbind_run. cbn [get]. rewrite Hp.
  destruct result as [resp|]; [|reflexivity].
  rewrite mbind_run. cbn [modify].
  set (c' := set_promises _ c).
  assert (forall k,
    forEach (replicate k tt) (fun _ => postAndForgetMsg now (Res (routeReply id resp))) c' =
    (Ret tt, c',
     if connected c
     then replicate k (EvSend {| wid := -1; wmsg := Res (routeReply id resp) |})
     else [])) as Hloop.
  { induction k as [|k IH]; cbn [replicate forEach].
    - destruct (connected c); reflexivity.
    - rewrite mbind_run, postAndForgetMsg_spec, IH. unfold c'. cbn [connected set_promises].
      destruct (connected c); reflexivity. }
  rewrite Hloop. reflexivity.
Qed.

Lemma dispatch_immediate {Env} (hooks : Hooks Env) id msg s :
  isRoute msg = false ->
  match dispatch hooks id msg s with
  | (Ret (Some (Promised _)), _, _) => False
  | _ => True
  end.
Proof.
  destruct msg; try discriminate; intros _; unfold dispatch;
    try (rewrite mbind_run;
         match goal with |- context [match ?m s with _ => _ end] =>
           destruct (m s) as [[[?|?] ?] ?] end);
    exact I.
Qed.

(** What a delivery does when the id has been recorded: nothing but a
    [postAndForget], decided by the state of the tracked response. *)
Lemma handleMessage_again {Env} (hooks : Hooks Env) now w s received :
  wid w <> -1 -> getReceivedPairById (wid w) (fst s) = Some received ->
  let sent m := if connected (fst s) then [EvSend {| wid := -1; wmsg := Res m |}] else [] in
  match _original (response received) with
  | Immediate m => handleMessage hooks now w s = (Ret tt, s, sent m)
  | Promised p =>
      match promises (fst s) !! p with
      | Some (PPending _ _) =>
          handleMessage hooks now w s =
            (Ret tt, s,
             sent {| target := wid w; status := 202;
                     res_data := PStr "Message is being processed" |})
      | Some (PFulfilled m) => handleMessage hooks now w s = (Ret tt, s, sent m)
      | Some PRejected | None => handleMessage hooks now w s = (Ret tt, s, [])
      end
  end.
Proof.
  intros Hid Hsome. cbv zeta.
  rewrite (handleMessage_duplicate hooks now w s received Hid Hsome).
  unfold isPending, getOriginal.
  destruct (_original (response received)) as [m|p].
  - unfold onFst, postAndForget. rewrite postAndForgetMsg_spec. destruct s; reflexivity.
  - destruct (promises (fst s) !! p) as [[id n|m|]|] eqn:Hp.
    + unfold onFst, postAndForget. rewrite postAndForgetMsg_spec. destruct s; reflexivity.
    + unfold onFst. rewrite (postAndForget_fulfilled now p m (fst s) Hp).
      rewrite postAndForgetMsg_spec. destruct s; reflexivity.
    + unfold onFst, postAndForget. munfold. rewrite Hp. destruct s; reflexivity.
    + unfold onFst, postAndForget. munfold. rewrite Hp. destruct s; reflexivity.
Qed.

(** What the first delivery leaves in [receivedMessages]: for a route
    message the promise of the handler, pending, with the first
    [postAndForget] waiting for it; a value for every other body. *)
Lemma handleMessage_caches {Env} (hooks : Hooks Env) now w s :
  wid w <> -1 -> getReceivedPairById (wid w) (fst s) = None ->
  let s1 := state_of (handleMessage hooks now w s) in
  exists r,
    getReceivedPairById (wid w) (fst s1) =
      Some {| wrapper := w; response := {| _original := r |} |} /\
    match wmsg w with
    | Route m =>
        r = Promised (length (promises (fst s))) /\
        promises (fst s1) !! length (promises (fst s)) = Some (PPending (wid w) 1)
    | _ => exists m, r = Immediate m
    end.
Proof.
  intros Hid Hnone. cbv zeta.
  assert (forall r c, getReceivedPairById (wid w) (recordReceived w r c) =
                      Some {| wrapper := w; response := {| _original := r |} |}) as Hpush.
  { intros r c. rewrite getReceivedPairById_push, Z.eqb_refl. reflexivity. }
  destruct (isRoute (wmsg w)) eqn:Hroute.
  - destruct w as [id msg]. cbn [wid wmsg] in *.
    destruct msg as [| | | | |m|]; try discriminate.
    rewrite (handleMessage_route hooks now id m s Hid Hnone). unfold state_of. cbn [fst snd].
    eexists. split; [apply (Hpush _ _)|]. split; [reflexivity|].
    cbn [promises recordReceived set_receivedMessages set_promises].
    rewrite lookup_app_r by lia. rewrite Nat.sub_diag. reflexivity.
  - rewrite (handleMessage_first hooks now w s Hid Hnone).
    pose proof (dispatch_immediate hooks (wid w) (wmsg w) s Hroute) as Hshape.
    assert (forall r : Response,
              (exists m, r = Immediate m) ->
              match wmsg w with
              | Route m =>
                  r = Promised (length (promises (fst s))) /\
                  promises (fst (state_of (handleMessage hooks now w s))) !!
                    length (promises (fst s)) = Some (PPending (wid w) 1)
              | _ => exists m, r = Immediate m
              end) as Hcase.
    { intros r Hr. destruct (wmsg w); try discriminate; exact Hr. }
    rewrite (handleMessage_first hooks now w s Hid Hnone) in Hcase.
    destruct (dispatch hooks (wid w) (wmsg w) s) as [[[r|e] s1] e1].
    + cbv zeta.
      destruct (postAndForget now (default (noResponse (wid w)) r) (fst s1)) as [[o c2] e2]
        eqn:Hpost.
      unfold state_of. cbn [fst snd]. eexists. split; [apply Hpush|].
      unfold state_of in Hcase. rewrite Hpost in Hcase. apply Hcase.
      destruct r as [[m|p]|]; [eauto | contradiction | unfold noResponse; eauto].
    + rewrite postAndForgetMsg_spec. unfold state_of. cbn [fst snd].
      eexists. split; [apply Hpush|].
      rewrite postAndForgetMsg_spec in Hcase. apply Hcase. unfold noResponse. eauto.
Qed.

(** No operation changes the pair stored for an id: a pair is pushed only
    for an id that has none. *)
Lemma step_keeps_pair {Env} (hooks : Hooks Env) id pair now op :
  id <> -1 ->
  sat (fun se : Connection * Env => getReceivedPairById id (fst se) = Some pair)
      (fun _ => True) (step hooks now op).
Proof.
  intros Hid.
  pose (P := fun c : Connection => getReceivedPairById id c = Some pair).
  change (sat (fun se : Connection * Env => P (fst se)) (fun _ => True) (step hooks now op)).
  destruct op;
    try (apply sat_step_other; intros; simpl; solve [assumption | exact I | discriminate]).
  cbn [step].
  match goal with |- sat _ _ (handleMessage hooks now ?x) => rename x into w end.
  assert (sat (fun se : Connection * Env => P (fst se)) (fun _ => True)
            (dispatch hooks (wid w) (wmsg w))) as Hdispatch
    by (apply sat_dispatch; intros; simpl; solve [assumption | exact I]).
  assert (forall r, sat P (fun _ => True) (postAndForget now r)) as Hpost
    by (intros r; apply sat_postAndForget; intros; simpl; solve [assumption | exact I]).
  intros s Hs. cbn beta in Hs. unfold P in Hs |- *.
  destruct (Z.eq_dec (wid w) (-1)) as [Hforget|Hneeds].
  - rewrite (handleMessage_forget hooks now w s Hforget).
    destruct (Hdispatch s Hs) as [H _]. unfold state_of, events_of in *.
    destruct (dispatch hooks (wid w) (wmsg w) s) as [[o s1] e1]. cbn [fst snd] in *.
    split; [exact H | apply Forall_forall; auto].
  - destruct (getReceivedPairById (wid w) (fst s)) as [received|] eqn:Hfound.
    + rewrite (handleMessage_duplicate hooks now w s received Hneeds Hfound).
      destruct (sat_onFst (E:=Env) _ _ _ (Hpost
                  (if isPending (promises (fst s)) (response received)
                   then Immediate (beingProcessed (wid w))
                   else getOriginal (response received))) s Hs) as [H _].
      split; [exact H | apply Forall_forall; auto].
    + assert ((wid w =? id) = false) as Hother.
      { apply Z.eqb_neq. intros Heq. rewrite Heq in Hfound. congruence. }
      rewrite (handleMessage_first hooks now w s Hneeds Hfound).
      destruct (Hdispatch s Hs) as [H _]. unfold state_of, events_of in *.
      destruct (dispatch hooks (wid w) (wmsg w) s) as [[[r|e] s1] e1]; cbn [fst snd] in *.
      * destruct (Hpost (default (noResponse (wid w)) r) (fst s1) H) as [H2 _].
        unfold state_of in H2. cbv zeta.
        destruct (postAndForget now (default (noResponse (wid w)) r) (fst s1))
          as [[o c2] e2]. cbn [fst snd] in *.
        split; [|apply Forall_forall; auto].
        rewrite getReceivedPairById_push, Hother. exact H2.
      * rewrite postAndForgetMsg_spec. cbn [fst snd].
        split; [|apply Forall_forall; auto].
        rewrite getReceivedPairById_push, Hother. exact H.
Qed.

(** A route message from its first delivery on: a second delivery while the
    handler's promise is pending, one after the promise is fulfilled and one
    after it is rejected. *)
Lemma route_message_redelivered {Env} (hooks : Hooks Env) now t1 t2 id m s :
  id <> -1 -> getReceivedPairById id (fst s) = None ->
  let w := {| wid := id; wmsg := Route m |} in
  let p := length (promises (fst s)) in
  let sent r := if connected (fst s) then [EvSend {| wid := -1; wmsg := Res r |}] else [] in
  let start := [EvDispatch w; EvRouteMessage id m] in
  snd (run hooks [(now, OpDeliver w); (t1, OpDeliver w)] s) =
    start ++ sent {| target := id; status := 202;
                     res_data := PStr "Message is being processed" |} /\
  (forall resp,
     snd (run hooks [(now, OpDeliver w); (t1, OpSettle p (HResolved resp));
                     (t2, OpDeliver w)] s) =
       start ++ sent (routeReply id resp) ++ sent (routeReply id resp)) /\
  snd (run hooks [(now, OpDeliver w); (t1, OpSettle p HRejected); (t2, OpDeliver w)] s) =
    start.
Proof.
  intros Hid Hnone. cbv zeta.
  set (w := {| wid := id; wmsg := Route m |}).
  set (p := length (promises (fst s))).
  set (c1 := recordReceived w (Promised p)
               (set_promises (promises (fst s) ++ [PPending id 1]) (fst s))).
  assert (handleMessage hooks now w s = (Ret tt, (c1, snd s), [EvDispatch w; EvRouteMessage id m]))
    as Hfirst by (apply handleMessage_route; assumption).
  assert (forall v c, getReceivedPairById id (set_promises v (recordReceived w (Promised p) c)) =
                      Some {| wrapper := w; response := {| _original := Promised p |} |})
    as Hpair.
  { intros v c.
    change (getReceivedPairById (wid w) (recordReceived w (Promised p) (set_promises v c)) =
            Some {| wrapper := w; response := {| _original := Promised p |} |}).
    rewrite getReceivedPairById_push, Z.eqb_refl. reflexivity. }
  assert (promises c1 !! p = Some (PPending id 1)) as Hp1.
  { unfold c1. cbn [promises recordReceived set_receivedMessages set_promises].
    rewrite lookup_app_r by (unfold p; lia). unfold p. rewrite Nat.sub_diag. reflexivity. }
  assert (forall v, <[p := v]> (promises c1) !! p = Some v) as Hset.
  { intros v. apply list_lookup_insert_eq. eapply lookup_lt_Some, Hp1. }
  assert (forall t result,
    step hooks t (OpSettle p result) (c1, snd s) =
    (Ret tt,
     (set_promises (<[p := match result with
                           | HResolved resp => PFulfilled (routeReply id resp)
                           | HRejected => PRejected
                           end]> (promises c1)) c1, snd s),
     match result with
     | HResolved resp =>
         if connected (fst s) then [EvSend {| wid := -1; wmsg := Res (routeReply id resp) |}]
         else []
     | HRejected => []
     end)) as Hsettle.
  { intros t result. cbn [step]. unfold onFst. cbn [fst snd].
    rewrite (settleRouteMessage_pending t p id 1 result c1 Hp1).
    destruct result; reflexivity. }
  split; [|split].
  - cbn [run]. change (step hooks now (OpDeliver w) s) with (handleMessage hooks now w s).
    rewrite Hfirst.
    change (step hooks t1 (OpDeliver w) (c1, snd s)) with (handleMessage hooks t1 w (c1, snd s)).
    pose proof (handleMessage_again hooks t1 w (c1, snd s) _ Hid (Hpair (promises c1) _)) as H.
    cbv zeta in H. cbn [_original response fst] in H. rewrite Hp1 in H. rewrite H.
    cbn [snd]. rewrite app_nil_r. reflexivity.
  - intros resp. cbn [run].
    change (step hooks now (OpDeliver w) s) with (handleMessage hooks now w s).
    rewrite Hfirst, Hsettle.
    set (c2 := set_promises _ c1).
    change (step hooks t2 (OpDeliver w) (c2, snd s)) with (handleMessage hooks t2 w (c2, snd s)).
    pose proof (handleMessage_again hooks t2 w (c2, snd s) _ Hid (Hpair _ _)) as H.
    cbv zeta in H. cbn [_original response fst] in H.
    assert (promises c2 !! p = Some (PFulfilled (routeReply id resp))) as Hp2 by apply Hset.
    rewrite Hp2 in H. rewrite H. cbn [snd]. rewrite app_nil_r. reflexivity.
  - cbn [run].
    change (step hooks now (OpDeliver w) s) with (handleMessage hooks now w s).
    rewrite Hfirst, Hsettle.
    set (c2 := set_promises _ c1).
    change (step hooks t2 (OpDeliver w) (c2, snd s)) with (handleMessage hooks t2 w (c2, snd s)).
    pose proof (handleMessage_again hooks t2 w (c2, snd s) _ Hid (Hpair _ _)) as H.
    cbv zeta in H. cbn [_original response fst] in H.
    assert (promises c2 !! p = Some PRejected) as Hp2 by apply Hset.
    rewrite Hp2 in H. rewrite H. reflexivity.
Qed.




(** ** Response processing *)

Lemma runCallback_callbacks {Env} (hooks : Hooks Env) cb response :
  forall v a, sat (fun se : Connection * Env =>
                     callbacks (fst se) = v /\ messagesToAck (fst se) = a)
                  (fun _ => True) (runCallback hooks cb response).
Proof. intros v a. unfold runCallback. sat_go ltac:(intros; simpl; auto). Qed.

Lemma runCallback_user {Env} (hooks : Hooks Env) tag response s :
  runCallback hooks (CbUser tag) response s = (Ret tt, s, [EvCallback tag (ArgRoute response)]).
Proof. reflexivity. Qed.

Lemma runCallback_returns {Env} (hooks : Hooks Env) cb response s :
  cb <> CbHandshake -> outcome_of (runCallback hooks cb response s) = Ret tt.
Proof.
  intros Hcb. destruct cb as [|round|tag]; [congruence| |reflexivity].
  unfold runCallback. destruct (noError response); reflexivity.
Qed.

Lemma removeMessageToAck_spec id c :
  removeMessageToAck id c =
  (Ret tt,
   match findLastIndex (hasId id) (messagesToAck c) with
   | Some i => set_messagesToAck (delete i (messagesToAck c)) c
   | None => c
   end, []).
Proof.
  unfold removeMessageToAck. munfold.
  destruct (findLastIndex (hasId id) (messagesToAck c)); reflexivity.
Qed.

Lemma removeMessageToAck_gone id c :
  uniqueAcks c ->
  forall e, e ∈ messagesToAck (state_of (removeMessageToAck id c)) ->
            wid (wrappedMsg e) <> id.
Proof.
  intros Hu e. rewrite removeMessageToAck_spec. unfold state_of. simpl.
  destruct (findLastIndex (hasId id) (messagesToAck c)) as [i|] eqn:Hf.
  - simpl. destruct (findLastIndex_Some _ _ _ Hf) as (x & Hx & Hid & _).
    unfold hasId in Hid. intros He Heq.
    apply list_elem_of_lookup in He as [j Hj].
    assert (messagesToAck c !! (if decide (j < i)%nat then j else S j) = Some e) as Hj'.
    { destruct (decide (j < i)%nat).
      - rewrite list_lookup_delete_lt in Hj by lia. exact Hj.
      - rewrite list_lookup_delete_ge in Hj by lia. exact Hj. }
    assert ((if decide (j < i)%nat then j else S j) = i) as Hji.
    { eapply (NoDup_lookup (ackIds c) _ _ id Hu); unfold ackIds;
        rewrite list_lookup_fmap; [rewrite Hj' | rewrite Hx]; simpl; f_equal; lia. }
    destruct (decide (j < i)%nat); lia.
  - intros He. apply findLastIndex_None in Hf. rewrite Forall_forall in Hf.
    specialize (Hf e He). unfold hasId in Hf. lia.
Qed.

Lemma handleResponse_spec {Env} (hooks : Hooks Env) msg s :
  handleResponse hooks msg s =
  if status msg =? 202 then (Ret tt, s, [])
  else
    match callbacks (fst s) !! target msg with
    | Some cb =>
        match runCallback hooks cb (translated msg) s with
        | (Ret _, s1, ev) =>
            (Ret tt,
             (state_of (removeMessageToAck (target msg)
                          (set_callbacks (delete (target msg) (callbacks (fst s1)))
                                         (fst s1))),
              snd s1), ev)
        | (Throw e, s1, ev) => (Throw e, s1, ev)
        end
    | None =>
        (Ret tt, (state_of (removeMessageToAck (target msg) (fst s)), snd s), [])
    end.
Proof.
  unfold handleResponse, translated.
  destruct (status msg =? 202); [reflexivity|].
  munfold. destruct (callbacks (fst s) !! target msg) as [cb|].
  - destruct (runCallback hooks cb _ s) as [[[[]|e] s1] ev]; [|reflexivity].
    unfold state_of. repeat rewrite removeMessageToAck_spec. simpl.
    repeat rewrite app_nil_r. reflexivity.
  - unfold state_of. repeat rewrite removeMessageToAck_spec. reflexivity.
Qed.

(** C2, amended. [handleResponse] does nothing on status 202.  On any other
    status the response is translated (200 to [{data}], otherwise to
    [{error: data, data: ""}]) and the callback registered for the target id,
    if any, is called once with it; when [handleResponse] returns, which it
    does unless that callback is the handshake callback, the callback has
    been removed from [callbacks] and the entry of the target id from
    [messagesToAck].  When the callback throws, the exception leaves
    [handleResponse] before both removals. *)
Theorem handleResponse_bookkeeping {Env} (hooks : Hooks Env) msg s :
  (status msg = 202 -> handleResponse hooks msg s = (Ret tt, s, [])) /\
  (status msg = 200 -> translated msg = {| rr_data := res_data msg; rr_error := None |}) /\
  (status msg <> 200 ->
   translated msg = {| rr_data := PStr ""; rr_error := Some (res_data msg) |}) /\
  (status msg <> 202 ->
   let r := handleResponse hooks msg s in
   let id := target msg in
   (forall tag, callbacks (fst s) !! id = Some (CbUser tag) ->
                events_of r = [EvCallback tag (ArgRoute (translated msg))]) /\
   (forall cb, callbacks (fst s) !! id = Some cb ->
               r = match runCallback hooks cb (translated msg) s with
                   | (Ret _, s1, ev) =>
                       (Ret tt,
                        (state_of (removeMessageToAck id
                                     (set_callbacks (delete id (callbacks (fst s1)))
                                                    (fst s1))),
                         snd s1), ev)
                   | (Throw e, s1, ev) => (Throw e, s1, ev)
                   end) /\
   (callbacks (fst s) !! id = None -> events_of r = []) /\
   (callbacks (fst s) !! id <> Some CbHandshake -> outcome_of r = Ret tt) /\
   (outcome_of r = Ret tt ->
    callbacks (fst (state_of r)) = delete id (callbacks (fst s)) /\
    messagesToAck (fst (state_of r)) =
      messagesToAck (state_of (removeMessageToAck id (fst s))) /\
    (uniqueAcks (fst s) ->
     forall e, e ∈ messagesToAck (fst (state_of r)) -> wid (wrappedMsg e) <> id))).
Proof.
  split; [|split; [|split; [|]]].
  - intros H. rewrite handleResponse_spec, H. reflexivity.
  - intros H. unfold translated. rewrite H. reflexivity.
  - intros H. unfold translated. apply Z.eqb_neq in H. rewrite H. reflexivity.
  - intros H202. simpl. rewrite handleResponse_spec.
    apply Z.eqb_neq in H202. rewrite H202.
    split; [|split; [|split; [|split]]].
    + intros tag Hcb. rewrite Hcb, runCallback_user. reflexivity.
    + intros cb Hcb. rewrite Hcb. reflexivity.
    + intros Hcb. rewrite Hcb. reflexivity.
    + intros Hcb. destruct (callbacks (fst s) !! target msg) as [cb|]; [|reflexivity].
      assert (cb <> CbHandshake) as Hne by congruence.
      pose proof (runCallback_returns hooks cb (translated msg) s Hne) as Hr.
      unfold outcome_of in *.
      destruct (runCallback hooks cb (translated msg) s) as [[[[]|e] s1] ev];
        [reflexivity | discriminate].
    + destruct (callbacks (fst s) !! target msg) as [cb|] eqn:Hcb.
      * pose proof (runCallback_callbacks hooks cb (translated msg)
                      (callbacks (fst s)) (messagesToAck (fst s)) s
                      (conj eq_refl eq_refl)) as [[Hc Ha] _].
        unfold state_of, outcome_of in *.
        destruct (runCallback hooks cb (translated msg) s) as [[[[]|e] s1] ev];
          simpl in *; [|discriminate].
        intros _. rewrite !removeMessageToAck_spec. simpl. rewrite Hc, Ha.
        split; [|split].
        -- destruct (findLastIndex _ _); simpl; rewrite ?Hc; reflexivity.
        -- destruct (findLastIndex _ _); simpl; rewrite ?Ha; reflexivity.
        -- intros Hu e He.
           apply (removeMessageToAck_gone (target msg) (fst s) Hu e).
           rewrite removeMessageToAck_spec. unfold state_of. simpl.
           destruct (findLastIndex _ _); simpl in *; rewrite ?Ha in He; exact He.
      * intros _. unfold state_of. simpl. rewrite removeMessageToAck_spec. simpl.
        split; [|split].
        -- rewrite (delete_id _ _ Hcb). destruct (findLastIndex _ _); reflexivity.
        -- reflexivity.
        -- intros Hu e He.
           apply (removeMessageToAck_gone (target msg) (fst s) Hu e).
           rewrite removeMessageToAck_spec. exact He.
Qed.

(** The hypotheses of the theorem above hold in a concrete case. *)
Lemma handleResponse_bookkeeping_witness :
  status pongResponse <> 202 /\
  callbacks (fst awaitingPong) !! 0 = Some (CbUser 7) /\
  events_of (handleResponse (defaultHooks unit) pongResponse awaitingPong) =
    [EvCallback 7 (ArgRoute {| rr_data := PStr "pong"; rr_error := None |})] /\
  outcome_of (handleResponse (defaultHooks unit) pongResponse awaitingPong) = Ret tt /\
  callbacks (fst (state_of (handleResponse (defaultHooks unit) pongResponse awaitingPong)))
    = delete 0 (callbacks (fst awaitingPong)).
Proof.
  assert (status pongResponse <> 202) as H202 by (simpl; lia).
  assert (callbacks (fst awaitingPong) !! 0 = Some (CbUser 7)) as Hcb
    by (vm_compute; reflexivity).
  destruct (handleResponse_bookkeeping (defaultHooks unit) pongResponse awaitingPong)
    as (_ & _ & _ & H).
  destruct (H H202) as (Huser & _ & _ & Hret & Hdone).
  assert (outcome_of (handleResponse (defaultHooks unit) pongResponse awaitingPong) = Ret tt)
    as Hok by (apply Hret; intros Hx; vm_compute in Hx; discriminate).
  split; [exact H202|]. split; [exact Hcb|]. split; [exact (Huser 7%nat Hcb)|].
  split; [exact Hok|]. exact (proj1 (Hdone Hok)).
Defined.

(** C2 as stated fails: the response [{status: 200, data: null}] to a secret
    handshake makes the handshake callback throw on [data[0]], and neither
    the callback nor the entry of [messagesToAck] is removed. *)
Lemma handshake_null_response_keeps_bookkeeping :
  let s := handshakingClient in
  let msg := {| target := 0; status := 200; res_data := PNull |} in
  let r := handleResponse (defaultHooks unit) msg s in
  callbacks (fst s) !! 0 = Some CbHandshake /\
  status msg <> 202 /\
  ~ (callbacks (fst (state_of r)) !! 0 = None /\
     forall e, e ∈ messagesToAck (fst (state_of r)) -> wid (wrappedMsg e) <> 0).
Proof.
  simpl. split; [vm_compute; reflexivity|]. split; [discriminate|].
  intros [H _]. vm_compute in H. discriminate.
Qed.

(** ** Rate limit *)

Lemma postAndExpectResponse_spec now msg c :
  isRes msg = false ->
  postAndExpectResponse now msg c =
  let w := new_MsgWrapper (nextMsgId c) msg in
  if connected c
  then match sendWrappedMsg now w None (set_nextMsgId (nextMsgId c + 1) c) with
       | (_, c', ev) => (Ret (nextMsgId c), c', ev)
       end
  else (Ret (nextMsgId c),
        set_messagesToSendAfterReconnect (messagesToSendAfterReconnect c ++ [w])
          (set_nextMsgId (nextMsgId c + 1) c), []).
Proof.
  intros Hres. unfold postAndExpectResponse. rewrite Hres. munfold. simpl.
  destruct (connected c); [|reflexivity].
  destruct (sendWrappedMsg now _ None _) as [[[[]|e] c'] ev]; simpl;
    repeat rewrite app_nil_r; reflexivity.
Qed.

(** C4. When [messagesSentInASecond] exceeds 100 on entry, [sendToRoute]
    first calls the callback, if one was given, with a response of target -1
    and status 429, and then proceeds as usual: the message takes the next
    id, is sent (and recorded in [messagesToAck]) when the transport is open
    and queued otherwise, the counter is incremented and the callback is
    registered under the id. *)
Theorem sendToRoute_rate_limit_is_advisory now r v payload hs callback c :
  SEND_LIMIT_PER_SEC < messagesSentInASecond c ->
  let res := sendToRoute now r v payload hs callback c in
  let id := nextMsgId c in
  let w := new_MsgWrapper id
             (Route (new_MsgRoute r v (if truthy payload then payload else PStr "") hs)) in
  let notice := match callback with
                | Some tag =>
                    [EvCallback tag
                       (ArgMsg {| target := -1; status := 429;
                                  res_data := PStr "Rate limit of 100 messages per second exceeded" |})]
                | None => []
                end in
  outcome_of res = Ret tt /\
  nextMsgId (state_of res) = id + 1 /\
  messagesSentInASecond (state_of res) = messagesSentInASecond c + 1 /\
  callbacks (state_of res) =
    match callback with
    | Some tag => <[id := CbUser tag]> (callbacks c)
    | None => callbacks c
    end /\
  (connected c = true ->
   events_of res = notice ++ [EvSend w] /\
   messagesToAck (state_of res) = messagesToAck (state_of (sendWrappedMsg now w None c)) /\
   messagesToSendAfterReconnect (state_of res) = messagesToSendAfterReconnect c) /\
  (connected c = false ->
   events_of res = notice /\
   messagesToAck (state_of res) = messagesToAck c /\
   messagesToSendAfterReconnect (state_of res) = messagesToSendAfterReconnect c ++ [w]).
Proof.
  intros Hlimit. cbv zeta.
  assert ((SEND_LIMIT_PER_SEC <? messagesSentInASecond c) = true) as Hb
    by (apply Z.ltb_lt; lia).
  unfold sendToRoute, postAndExpectResponse, sendWrappedMsg, strategy_send.
  munfold. rewrite Hb. cbn.
  repeat (match goal with
          | H : ?b = _ |- context [if ?b then _ else _] => rewrite H
          | |- context [if connected ?c then _ else _] => destruct (connected c) eqn:?
          | |- context [if messageNeedsAck ?w then _ else _] =>
              destruct (messageNeedsAck w) eqn:?
          | |- context [match findLastIndex ?f ?l with _ => _ end] =>
              destruct (findLastIndex f l) eqn:?
          | |- context [match ?l !! ?i with _ => _ end] => destruct (l !! i) eqn:?
          | |- context [match ?cb with Some _ => _ | None => _ end] =>
              is_var cb; destruct cb
          end; cbn in *);
    try (exfalso;
         match goal with
         | H : findLastIndex _ _ = Some ?i, H' : _ !! ?i = None |- _ =>
             destruct (findLastIndex_Some _ _ _ H) as (? & ? & _); congruence
         end);
    repeat split; intros; try discriminate; repeat split; congruence.
Qed.

(** The hypotheses of the theorem above hold in a concrete case. *)
Lemma sendToRoute_rate_limit_is_advisory_witness :
  SEND_LIMIT_PER_SEC < messagesSentInASecond rateLimited /\
  events_of (sendToRoute 5 "/a" "GET" (PStr "") None (Some 3%nat) rateLimited) =
    [EvCallback 3
       (ArgMsg {| target := -1; status := 429;
                  res_data := PStr "Rate limit of 100 messages per second exceeded" |});
     EvSend {| wid := 0;
               wmsg := Route {| verb := "GET"; route := "/a"; route_data := PStr "";
                                headers := None |} |}] /\
  messagesSentInASecond (state_of (sendToRoute 5 "/a" "GET" (PStr "") None (Some 3%nat)
                                     rateLimited)) = 102.
Proof.
  assert (SEND_LIMIT_PER_SEC < messagesSentInASecond rateLimited) as H
    by (vm_compute; reflexivity).
  destruct (sendToRoute_rate_limit_is_advisory 5 "/a" "GET" (PStr "") None (Some 3%nat)
              rateLimited H) as (_ & _ & Hcount & _ & Hopen & _).
  split; [exact H|]. split; [exact (proj1 (Hopen eq_refl)) | exact Hcount].
Defined.

(** ** A dispatch that throws *)

(** C9. When the dispatch of an envelope whose id is not -1 throws, the
    response sent to the peer is [{status: 500, data: "Error handling
    message"}], the response stored in [receivedMessages] for the id is
    [{status: 500, data: "No response"}], and a later delivery of the same id
    is answered with the stored one, which differs from the first. *)
Theorem dispatch_error_reply_differs_from_cached {Env} (hooks : Hooks Env) now w s e s1 e1 :
  wid w <> -1 ->
  getReceivedPairById (wid w) (fst s) = None ->
  dispatch hooks (wid w) (wmsg w) s = (Throw e, s1, e1) ->
  let sent := {| target := wid w; status := 500;
                 res_data := PStr "Error handling message" |} in
  let cached := {| target := wid w; status := 500; res_data := PStr "No response" |} in
  let r := handleMessage hooks now w s in
  events_of r =
    EvDispatch w :: e1 ++
    (if connected (fst s1) then [EvSend {| wid := -1; wmsg := Res sent |}] else []) /\
  getReceivedPairById (wid w) (fst (state_of r)) =
    Some {| wrapper := w; response := {| _original := Immediate cached |} |} /\
  (forall now' w',
     wid w' = wid w ->
     handleMessage hooks now' w' (state_of r) =
       (Ret tt, state_of r,
        if connected (fst (state_of r))
        then [EvSend {| wid := -1; wmsg := Res cached |}] else [])) /\
  connected (fst (state_of r)) = connected (fst s1) /\
  sent <> cached.
Proof.
  intros Hid Hnone Hthrow. cbv zeta.
  rewrite (handleMessage_first hooks now w s Hid Hnone), Hthrow.
  rewrite postAndForgetMsg_spec. unfold events_of, state_of. cbn [fst snd].
  split; [reflexivity|]. split; [|split; [|split]].
  - rewrite getReceivedPairById_push, Z.eqb_refl. reflexivity.
  - intros now' w' Hw'.
    assert (wid w' <> -1) as Hid' by congruence.
    rewrite (handleMessage_duplicate hooks now' w' _
               {| wrapper := w; response := {| _original := noResponse (wid w) |} |} Hid').
    + unfold isPending, getOriginal, noResponse, onFst, postAndForget. cbn [_original response fst snd].
      rewrite postAndForgetMsg_spec. reflexivity.
    + rewrite Hw'. cbn [fst]. rewrite getReceivedPairById_push, Z.eqb_refl. reflexivity.
  - reflexivity.
  - discriminate.
Qed.

(** The hypotheses of the theorem above hold in a concrete case. *)
Lemma dispatch_error_reply_differs_from_cached_witness :
  wid unknownEnvelope <> -1 /\
  getReceivedPairById 7 (fst openServer) = None /\
  dispatch (defaultHooks unit) 7 (MsgOther "err") openServer =
    (Throw "Unknown message type", openServer, []) /\
  events_of (handleMessage (defaultHooks unit) 5 unknownEnvelope openServer) =
    [EvDispatch unknownEnvelope;
     EvSend {| wid := -1;
               wmsg := Res {| target := 7; status := 500;
                              res_data := PStr "Error handling message" |} |}] /\
  events_of (handleMessage (defaultHooks unit) 6 unknownEnvelope
               (state_of (handleMessage (defaultHooks unit) 5 unknownEnvelope openServer))) =
    [EvSend {| wid := -1;
               wmsg := Res {| target := 7; status := 500;
                              res_data := PStr "No response" |} |}].
Proof.
  assert (wid unknownEnvelope <> -1) as Hid by (simpl; lia).
  destruct (dispatch_error_reply_differs_from_cached (defaultHooks unit) 5 unknownEnvelope
              openServer "Unknown message type" openServer [] Hid eq_refl eq_refl)
    as (Hsent & _ & Hdup & Hconn & _).
  split; [exact Hid|]. split; [reflexivity|]. split; [reflexivity|].
  split; [exact Hsent|].
  rewrite (Hdup 6 unknownEnvelope eq_refl), Hconn. reflexivity.
Defined.

(** ** The header entry [secret] *)

Lemma secretIs_stable v :
  (forall x c, secretIs v c -> secretIs v (set_nextMsgId x c)) /\
  (forall x c, secretIs v c -> secretIs v (set_messagesToSendAfterReconnect x c)) /\
  (forall x c, secretIs v c -> secretIs v (set_callbacks x c)) /\
  (forall x c, secretIs v c -> secretIs v (set_messagesSentInASecond x c)) /\
  (forall x c, secretIs v c -> secretIs v (set_connected x c)) /\
  (forall x c, secretIs v c -> secretIs v (set_closingTimer x c)) /\
  (forall x c, secretIs v c -> secretIs v (set_promises x c)) /\
  (forall x c, secretIs v c -> secretIs v (set_pongsReceived x c)) /\
  (forall x c, secretIs v c -> secretIs v (set_messagesToAck x c)) /\
  (forall x c, secretIs v c -> secretIs v (set_receivedMessages x c)).
Proof. repeat split; intros; assumption. Qed.

Lemma handleResponse_keeps_secret {Env} (hooks : Hooks Env) v m s :
  callbacks (fst s) !! target m <> Some CbHandshake ->
  secretIs v (fst s) ->
  secretIs v (fst (state_of (handleResponse hooks m s))).
Proof.
  intros Hcb Hs. rewrite handleResponse_spec.
  destruct (status m =? 202); [exact Hs|].
  destruct (callbacks (fst s) !! target m) as [[|round|tag]|].
  - congruence.
  - unfold runCallback. destruct (noError (translated m)); cbn;
      rewrite removeMessageToAck_spec; cbn; destruct (findLastIndex _ _); exact Hs.
  - cbn. rewrite removeMessageToAck_spec. cbn. destruct (findLastIndex _ _); exact Hs.
  - cbn. rewrite removeMessageToAck_spec. cbn. destruct (findLastIndex _ _); exact Hs.
Qed.

Lemma dispatch_keeps_secret {Env} (hooks : Hooks Env) v id msg s :
  ~ writesSecret (OpDeliver {| wid := id; wmsg := msg |}) (fst s) ->
  secretIs v (fst s) ->
  secretIs v (fst (state_of (dispatch hooks id msg s))).
Proof.
  intros Hw Hs. simpl in Hw. destruct msg as [key value| | r | r | m | m | t].
  - unfold dispatch, handleDataSet. munfold. cbn.
    destruct (onDataSet hooks _ _ _) as [[[]|e] env']; cbn;
      unfold secretIs; cbn; rewrite lookup_insert_ne by congruence; exact Hs.
  - exact Hs.
  - unfold dispatch, handleRouteSubscription. munfold. cbn.
    destruct (onSubscribeToRoute hooks _ _ _) as [[[]|e] env']; exact Hs.
  - unfold dispatch, handleRouteUnsubscription. munfold. cbn.
    destruct (onUnsubscribeFromRoute hooks _ _ _) as [[[]|e] env']; exact Hs.
  - pose proof (handleResponse_keeps_secret hooks v m s Hw Hs) as H.
    unfold dispatch. munfold. unfold state_of in *.
    destruct (handleResponse hooks m s) as [[[[]|e] s1] e1]; exact H.
  - exact Hs.
  - exact Hs.
Qed.

Lemma step_keeps_secret {Env} (hooks : Hooks Env) v now op s :
  ~ writesSecret op (fst s) ->
  secretIs v (fst s) ->
  secretIs v (fst (state_of (step hooks now op s))).
Proof.
  intros Hw Hs.
  assert (forall n r c, secretIs v c -> secretIs v (state_of (postAndForget n r c))) as Hpf.
  { intros n r c Hc.
    apply (sat_postAndForget (secretIs v) (fun _ => True)); auto. }
  destruct op;
    try (apply (sat_step_other (secretIs v) (fun _ => True)); auto; discriminate).
  simpl. destruct (Z.eq_dec (wid w) (-1)) as [Hid|Hid].
  - rewrite (handleMessage_forget hooks now w s Hid).
    pose proof (dispatch_keeps_secret hooks v (wid w) (wmsg w) s) as Hd.
    destruct w as [id msg]. specialize (Hd Hw Hs). unfold state_of in *. cbn in *.
    destruct (dispatch hooks id msg s) as [[o s1] e1]. exact Hd.
  - destruct (getReceivedPairById (wid w) (fst s)) as [received|] eqn:Hrec.
    + rewrite (handleMessage_duplicate hooks now w s received Hid Hrec).
      unfold onFst, state_of.
      match goal with |- context [postAndForget ?n ?r ?c] =>
        pose proof (Hpf n r c Hs) as H; unfold state_of in H;
        destruct (postAndForget n r c) as [[? ?] ?] end.
      exact H.
    + rewrite (handleMessage_first hooks now w s Hid Hrec).
      pose proof (dispatch_keeps_secret hooks v (wid w) (wmsg w) s) as Hd.
      destruct w as [id msg]. specialize (Hd Hw Hs). unfold state_of in *. cbn in *.
      destruct (dispatch hooks id msg s) as [[[r|e] s1] e1]; cbn in *.
      * match goal with |- context [postAndForget ?n ?r ?c] =>
          pose proof (Hpf n r c Hd) as H; unfold state_of in H;
          destruct (postAndForget n r c) as [[? ?] ?] end.
        exact H.
      * rewrite postAndForgetMsg_spec. exact Hd.
Qed.

(** C3 as stated fails: after the handshake has set the secret of a server
    connection, a further [set] message for the key "secret" replaces it. *)
Lemma later_set_message_changes_secret :
  let s := afterHandshake in
  let s' := state_of (handleMessage (defaultHooks unit) 2 secondSet s) in
  header (fst s) !! "secret" = Some (PStr "5ec2e7") /\
  header (fst s') !! "secret" = Some (PStr "0ther") /\
  header (fst s') !! "secret" <> header (fst s) !! "secret".
Proof.
  cbv zeta. split; [vm_compute; reflexivity|]. split; [vm_compute; reflexivity|].
  vm_compute. discriminate.
Qed.

(** C3, amended. The header entry "secret" is written only by the delivery
    of a [set] message whose key is "secret" and by the delivery of the
    response to a secret handshake; every other operation of the connection
    leaves it as it is. *)
Theorem secret_written_only_by_set_or_handshake {Env} (hooks : Hooks Env) now op s :
  ~ writesSecret op (fst s) ->
  header (fst (state_of (step hooks now op s))) !! "secret" = header (fst s) !! "secret".
Proof.
  intros Hw. apply (step_keeps_secret hooks (header (fst s) !! "secret") now op s Hw).
  reflexivity.
Qed.

(** The hypotheses of the theorem above hold in a concrete case. *)
Lemma secret_written_only_by_set_or_handshake_witness :
  ~ writesSecret (OpDeliver {| wid := 5; wmsg := MsgDataSet "lang" (PStr "en") |})
      (fst afterHandshake) /\
  header (fst (state_of (step (defaultHooks unit) 9
                           (OpDeliver {| wid := 5; wmsg := MsgDataSet "lang" (PStr "en") |})
                           afterHandshake))) !! "secret" =
  header (fst afterHandshake) !! "secret".
Proof.
  assert (~ writesSecret (OpDeliver {| wid := 5; wmsg := MsgDataSet "lang" (PStr "en") |})
            (fst afterHandshake)) as H by (simpl; discriminate).
  split; [exact H|].
  exact (secret_written_only_by_set_or_handshake (defaultHooks unit) 9 _ afterHandshake H).
Defined.

(** ** Closing a connection *)

Lemma removeConnection_spec connSecret R :
  removeConnection connSecret R =
  set_connections (delete connSecret (connections R)) R.
Proof.
  unfold removeConnection. destruct R as [n cs rs]. unfold set_outRoutes, set_connections.
  simpl. f_equal. induction rs as [|r rs IH]; simpl; [reflexivity | f_equal; exact IH].
Qed.

(** C7. [removeConnection] deletes the entry of the directory and leaves
    every listener list as it was: after it has run for the connection
    "5ec2e7", which listens to "/t/1", the listener is still in the layer. *)
Theorem removeConnection_leaves_listeners :
  (forall connSecret R,
     connections (removeConnection connSecret R) = delete connSecret (connections R) /\
     outRoutes (removeConnection connSecret R) = outRoutes R) /\
  (let R' := removeConnection "5ec2e7" routerWithListener in
   connections R' !! "5ec2e7" = None /\
   listeners <$> outRoutes R' = [[{| conn := "5ec2e7"; params := ["1"] |}]]).
Proof.
  split.
  - intros s R. rewrite removeConnection_spec. split; reflexivity.
  - cbv zeta. rewrite removeConnection_spec. split; [vm_compute; reflexivity | reflexivity].
Qed.

(** ** Subscribing and unsubscribing *)

Lemma set_listeners_same r : set_listeners (listeners r) r = r.
Proof. destruct r; reflexivity. Qed.

Example matchThread_1 : matchThread "/t/1" = Some [("id", "1")].
Proof. reflexivity. Qed.
Example matchThread_nested : matchThread "/t/1/2" = None.
Proof. reflexivity. Qed.
Example matchThread_none : matchThread "/t/" = None.
Proof. reflexivity. Qed.

Lemma filter_no_listener s (ls : list RouteListener) :
  (forall l, l ∈ ls -> conn l <> s) -> filter (fun l => conn l ≠ s) ls = ls.
Proof.
  intros H. induction ls as [|l ls IH]; [reflexivity|].
  rewrite filter_cons_True by (apply H; left). f_equal.
  apply IH. intros l' Hl'. apply H. right. exact Hl'.
Qed.

Lemma readConnection_set_outRoutes v R key :
  readConnection (set_outRoutes v R) key = readConnection R key.
Proof. reflexivity. Qed.

Lemma readConnection_registered R key ref :
  connections R !! key = Some ref -> readConnection R key = Some (Registered ref).
Proof. intros H. unfold readConnection. rewrite H. reflexivity. Qed.

Lemma readConnection_undefined R key :
  connections R !! key = None -> key ∉ objectPrototypeNames -> readConnection R key = None.
Proof.
  intros H Hn. unfold readConnection. rewrite H.
  rewrite bool_decide_eq_false_2 by exact Hn. reflexivity.
Qed.

Lemma readConnection_inherited R key :
  connections R !! key = None -> key ∈ objectPrototypeNames ->
  readConnection R key = Some (FromPrototype key).
Proof.
  intros H Hn. unfold readConnection. rewrite H.
  rewrite bool_decide_eq_true_2 by exact Hn. reflexivity.
Qed.

(** What [on path] followed by [off path] leaves of a layer. *)
Lemma subscribe_then_unsubscribe_layers path s R :
  is_Some (readConnection R s) ->
  snd (unsubsctibeConnectionFromRoute path s
         (snd (subscribeConnectionToRoute path s R))) =
  set_outRoutes
    (map (fun r =>
            match matchPath r path with
            | Some _ => set_listeners (filter (fun l => conn l ≠ s) (listeners r)) r
            | None => r
            end) (outRoutes R)) R.
Proof.
  intros [v Hs]. unfold subscribeConnectionToRoute, unsubsctibeConnectionFromRoute.
  rewrite Hs. cbn [snd]. rewrite readConnection_set_outRoutes, Hs. cbn [snd].
  unfold set_outRoutes. cbn. f_equal.
  rewrite map_map. apply map_ext. intros r.
  destruct (matchPath r path) as [ps|] eqn:Hm; cbn; rewrite Hm; [|reflexivity].
  unfold set_listeners. cbn. f_equal.
  rewrite filter_app. rewrite (filter_cons_False _ _ []) by (cbn; intros Hne; apply Hne; reflexivity).
  rewrite filter_nil, app_nil_r. reflexivity.
Qed.

(** C8, amended. If the connection has no listener in a layer that accepts
    the path, subscribing it to the path and unsubscribing it again leaves
    the router, and so every listener list, as before. *)
Theorem subscribe_then_unsubscribe_restores path s R :
  (forall r, r ∈ outRoutes R -> is_Some (matchPath r path) ->
             forall l, l ∈ listeners r -> conn l <> s) ->
  snd (unsubsctibeConnectionFromRoute path s
         (snd (subscribeConnectionToRoute path s R))) = R.
Proof.
  intros Hfree. destruct (readConnection R s) as [v|] eqn:Hs.
  - rewrite (subscribe_then_unsubscribe_layers path s R) by (rewrite Hs; eauto).
    clear Hs. destruct R as [n cs rs]. unfold set_outRoutes. cbn in *. f_equal.
    induction rs as [|r rs IH]; cbn; [reflexivity|]. f_equal.
    + destruct (matchPath r path) as [ps|] eqn:Hm; [|reflexivity].
      rewrite filter_no_listener; [apply set_listeners_same|].
      apply (Hfree r); [left | rewrite Hm; eauto].
    + apply IH. intros r' Hr'. apply Hfree. right. exact Hr'.
  - unfold subscribeConnectionToRoute, unsubsctibeConnectionFromRoute.
    rewrite Hs. cbn. rewrite Hs. reflexivity.
Qed.

(** The hypotheses of the theorem above hold in a concrete case. *)
Lemma subscribe_then_unsubscribe_restores_witness :
  (forall r, r ∈ outRoutes routerTwoConnections -> is_Some (matchPath r "/t/2") ->
             forall l, l ∈ listeners r -> conn l <> "bbbb") /\
  is_Some (connections routerTwoConnections !! "bbbb") /\
  snd (unsubsctibeConnectionFromRoute "/t/2" "bbbb"
         (snd (subscribeConnectionToRoute "/t/2" "bbbb" routerTwoConnections))) =
  routerTwoConnections.
Proof.
  assert (forall r, r ∈ outRoutes routerTwoConnections -> is_Some (matchPath r "/t/2") ->
                    forall l, l ∈ listeners r -> conn l <> "bbbb") as H.
  { intros r Hr _ l Hl. simpl in Hr. apply list_elem_of_singleton in Hr. subst r.
    simpl in Hl. apply list_elem_of_singleton in Hl. subst l. simpl. discriminate. }
  split; [exact H|]. split; [vm_compute; eauto|].
  exact (subscribe_then_unsubscribe_restores "/t/2" "bbbb" routerTwoConnections H).
Defined.

(** C8 as stated fails: a connection that listens to "/t/1" and subscribes
    to "/t/2" and unsubscribes from it again has lost its listener for
    "/t/1". *)
Lemma unsubscribe_drops_earlier_subscription :
  let R := routerWithListener in
  let R' := snd (unsubsctibeConnectionFromRoute "/t/2" "5ec2e7"
                   (snd (subscribeConnectionToRoute "/t/2" "5ec2e7" R))) in
  listeners <$> outRoutes R = [[{| conn := "5ec2e7"; params := ["1"] |}]] /\
  listeners <$> outRoutes R' = [[]] /\
  listeners <$> outRoutes R' <> listeners <$> outRoutes R.
Proof.
  cbv zeta. split; [reflexivity|]. split; [vm_compute; reflexivity|].
  vm_compute. discriminate.
Qed.

(** ** Subscribing before the secret is registered *)

Lemma handleMessage_on {Env} (hooks : Hooks Env) now id r s :
  id <> -1 -> getReceivedPairById id (fst s) = None ->
  let w := {| wid := id; wmsg := MsgSubscribeToRoute r |} in
  handleMessage hooks now w s =
  match onSubscribeToRoute hooks (fst s) r (snd s) with
  | (Ret _, env') =>
      (Ret tt,
       (recordReceived w (Immediate (new_MsgResponseOK id PUndefined)) (fst s), env'),
       EvDispatch w ::
         (if connected (fst s)
          then [EvSend {| wid := -1; wmsg := Res (new_MsgResponseOK id PUndefined) |}]
          else []))
  | (Throw _, env') =>
      (Ret tt,
       (recordReceived w (noResponse id) (fst s), env'),
       EvDispatch w ::
         (if connected (fst s)
          then [EvSend {| wid := -1;
                          wmsg := Res (new_MsgGenericError id "Error handling message") |}]
          else []))
  end.
Proof.
  intros Hid Hnone. cbv zeta.
  rewrite (handleMessage_first hooks now _ s) by assumption.
  cbn [wid wmsg dispatch]. unfold handleRouteSubscription. munfold. cbn [fst snd].
  destruct (onSubscribeToRoute hooks _ r (snd s)) as [[[]|e] env']; cbn [fst snd].
  - cbv zeta. cbn [default from_option]. unfold Datatypes.id. cbn [postAndForget].
    rewrite postAndForgetMsg_spec. cbn. rewrite ?app_nil_r. reflexivity.
  - rewrite postAndForgetMsg_spec. cbn. rewrite ?app_nil_r. reflexivity.
Qed.

Lemma handleMessage_off {Env} (hooks : Hooks Env) now id r s :
  id <> -1 -> getReceivedPairById id (fst s) = None ->
  let w := {| wid := id; wmsg := MsgUnsubscribeFromRoute r |} in
  handleMessage hooks now w s =
  match onUnsubscribeFromRoute hooks (fst s) r (snd s) with
  | (Ret _, env') =>
      (Ret tt,
       (recordReceived w (Immediate (new_MsgResponseOK id PUndefined)) (fst s), env'),
       EvDispatch w ::
         (if connected (fst s)
          then [EvSend {| wid := -1; wmsg := Res (new_MsgResponseOK id PUndefined) |}]
          else []))
  | (Throw _, env') =>
      (Ret tt,
       (recordReceived w (noResponse id) (fst s), env'),
       EvDispatch w ::
         (if connected (fst s)
          then [EvSend {| wid := -1;
                          wmsg := Res (new_MsgGenericError id "Error handling message") |}]
          else []))
  end.
Proof.
  intros Hid Hnone. cbv zeta.
  rewrite (handleMessage_first hooks now _ s) by assumption.
  cbn [wid wmsg dispatch]. unfold handleRouteUnsubscription. munfold. cbn [fst snd].
  destruct (onUnsubscribeFromRoute hooks _ r (snd s)) as [[[]|e] env']; cbn [fst snd].
  - cbv zeta. cbn [default from_option]. unfold Datatypes.id. cbn [postAndForget].
    rewrite postAndForgetMsg_spec. cbn. rewrite ?app_nil_r. reflexivity.
  - rewrite postAndForgetMsg_spec. cbn. rewrite ?app_nil_r. reflexivity.
Qed.

(** C10. A server connection whose secret, a string, has no entry in the
    directory receives [on route] under an id other than -1.  Where the
    secret is not the name of a property of [Object.prototype],
    [subscribeConnectionToRoute] throws, the sender is answered
    [{status: 500, data: "Error handling message"}] and the router is
    unchanged.  Where it is such a name (other than [__proto__], which
    not every runtime defines), [!this.connections[connSecret]] is false
    although no connection is registered: the call returns, a listener is
    added to every layer that accepts the path and the sender is answered
    [{status: 200, data: "OK"}]. *)
Theorem subscription_before_registration (self : ConnRef) now id r c R key :
  id <> -1 ->
  getReceivedPairById id c = None ->
  getSecret c = PStr key ->
  connections R !! key = None ->
  let w := {| wid := id; wmsg := MsgSubscribeToRoute r |} in
  let sent m := if connected c then [EvSend {| wid := -1; wmsg := Res m |}] else [] in
  (key ∉ objectPrototypeNames ->
   (exists e, subscribeConnectionToRoute r key R = (Throw e, R)) /\
   handleMessage (routerHooks self) now w (c, R) =
     (Ret tt,
      (recordReceived w (Immediate (new_MsgGenericError id "No response")) c, R),
      EvDispatch w ::
        sent {| target := id; status := 500; res_data := PStr "Error handling message" |})) /\
  (key ∈ objectPrototypeNames -> key <> "__proto__" ->
   let R' := set_outRoutes (subscribed r key <$> outRoutes R) R in
   subscribeConnectionToRoute r key R = (Ret tt, R') /\
   handleMessage (routerHooks self) now w (c, R) =
     (Ret tt,
      (recordReceived w
         (Immediate {| target := id; status := 200; res_data := PStr "OK" |}) c, R'),
      EvDispatch w :: sent {| target := id; status := 200; res_data := PStr "OK" |})).
Proof.
  intros Hid Hnone Hsecret Hdir. cbv zeta. split.
  - intros Hname.
    pose proof (readConnection_undefined R _ Hdir Hname) as Hread. split.
    + eexists. unfold subscribeConnectionToRoute. rewrite Hread. reflexivity.
    + rewrite (handleMessage_on (routerHooks self) now id r (c, R)) by assumption.
      cbv zeta. cbn [fst snd onSubscribeToRoute routerHooks].
      rewrite Hsecret. cbn [toPropertyKey].
      unfold subscribeConnectionToRoute. rewrite Hread. reflexivity.
  - intros Hname _.
    pose proof (readConnection_inherited R _ Hdir Hname) as Hread. split.
    + unfold subscribeConnectionToRoute. rewrite Hread. reflexivity.
    + rewrite (handleMessage_on (routerHooks self) now id r (c, R)) by assumption.
      cbv zeta. cbn [fst snd onSubscribeToRoute routerHooks].
      rewrite Hsecret. cbn [toPropertyKey].
      unfold subscribeConnectionToRoute. rewrite Hread. reflexivity.
Qed.

(** The theorem above on a connection without a secret, and on one whose
    secret is "constructor" after the directory entry of that name has been
    removed by the close of another connection. *)
Lemma subscription_before_registration_witness :
  let on := {| wid := 1; wmsg := MsgSubscribeToRoute "/t/1" |} in
  let reply status data :=
    EvSend {| wid := -1; wmsg := Res {| target := 1; status := status; res_data := data |} |} in
  (let res := handleMessage (routerHooks 1%nat) 5 on (openServerConn, routerWithListener) in
   getSecret openServerConn = PStr "" /\
   events_of res = [EvDispatch on; reply 500 (PStr "Error handling message")] /\
   snd (state_of res) = routerWithListener) /\
  (let res := handleMessage (routerHooks 1%nat) 6000 on
                (namedConstructor, routerWithoutConnections) in
   heap worldShadowed !! 1%nat = Some namedConstructor /\
   router worldShadowed = routerWithoutConnections /\
   getSecret namedConstructor = PStr "constructor" /\
   events_of res = [EvDispatch on; reply 200 (PStr "OK")] /\
   listeners <$> outRoutes (snd (state_of res)) =
     [[{| conn := "constructor"; params := ["1"] |}]]).
Proof.
  cbv zeta. split.
  - pose proof (subscription_before_registration 1%nat 5 1 "/t/1" openServerConn
                  routerWithListener "" ltac:(discriminate) eq_refl eq_refl eq_refl)
      as [H _].
    assert ("" ∉ objectPrototypeNames) as Hname
      by (apply (bool_decide_eq_false_1 ("" ∈ objectPrototypeNames)); reflexivity).
    destruct (H Hname) as [_ H2].
    split; [reflexivity|]. rewrite H2. split; reflexivity.
  - pose proof (subscription_before_registration 1%nat 6000 1 "/t/1" namedConstructor
                  routerWithoutConnections "constructor" ltac:(discriminate) eq_refl eq_refl
                  eq_refl) as [_ H].
    assert ("constructor" ∈ objectPrototypeNames) as Hname
      by (apply (bool_decide_eq_true_1 ("constructor" ∈ objectPrototypeNames)); reflexivity).
    destruct (H Hname ltac:(discriminate)) as [_ H2].
    split; [vm_compute; reflexivity|]. split; [vm_compute; reflexivity|].
    split; [reflexivity|]. rewrite H2. split; reflexivity.
Defined.

(** ** Broadcast *)

Lemma paramsMatch_prefix lp pa : paramsMatch lp pa = true <-> lp `prefix_of` pa.
Proof.
  revert pa. induction lp as [|x lp IH]; intros pa; simpl.
  - split; [intros _; apply prefix_nil | reflexivity].
  - destruct pa as [|y pa].
    + split; [discriminate|]. intros [k Hk]. discriminate.
    + destruct (String.eqb_spec x y) as [->|Hne].
      * rewrite IH. split; [apply prefix_cons | apply prefix_cons_inv_2].
      * split; [discriminate|]. intros H. apply prefix_cons_inv_1 in H. congruence.
Qed.

Lemma sendToRouteCalls_app a b :
  sendToRouteCalls (a ++ b) = sendToRouteCalls a ++ sendToRouteCalls b.
Proof. unfold sendToRouteCalls. apply omap_app. Qed.

Lemma sendToRouteCalls_none evs :
  Forall (fun e => ~ isSendToRoute e) evs -> sendToRouteCalls evs = [].
Proof.
  induction 1 as [|e evs He _ IH]; [reflexivity|].
  unfold sendToRouteCalls in *. simpl. destruct e; simpl in *; try exact IH.
  exfalso. apply He. exact I.
Qed.

Lemma sendToRoute_returns now r v payload hs c :
  outcome_of (sendToRoute now r v payload hs None c) = Ret tt.
Proof.
  unfold sendToRoute, outcome_of. munfold.
  destruct (SEND_LIMIT_PER_SEC <? messagesSentInASecond c);
    rewrite postAndExpectResponse_spec by reflexivity; cbv zeta;
    destruct (connected c);
    try (destruct (sendWrappedMsg now _ None _) as [[? ?] ?]); reflexivity.
Qed.

Lemma callSendToRoute_some now ref r v payload w :
  exists w' ev,
    callSendToRoute now (Some (Registered ref)) r v payload w =
      (Ret tt, w', EvSendToRoute ref :: ev) /\
    router w' = router w /\ reactions w' = reactions w /\
    sendToRouteCalls ev = [].
Proof.
  unfold callSendToRoute, onConn. munfold.
  destruct (heap w !! ref) as [c|] eqn:Hc.
  - pose proof (sendToRoute_returns now r v payload None c) as Hret.
    assert (sat (fun _ : Connection => True) (fun e => ~ isSendToRoute e)
              (sendToRoute now r v payload None None)) as Hsat
      by (apply sat_sendToRoute; simpl; auto).
    destruct (Hsat c I) as [_ Hev].
    unfold outcome_of, events_of in *.
    destruct (sendToRoute now r v payload None None c) as [[o c'] ev]. simpl in *.
    subst o. eexists _, ev. split; [reflexivity|]. repeat split.
    apply sendToRouteCalls_none, Hev.
  - eexists w, []. repeat split.
Qed.

Lemma broadcastToListener_spec now route verb payload exceptConn r matched l w :
  match selected (router w) exceptConn r matched l with
  | None =>
      broadcastToListener now route verb payload exceptConn r matched l w = (Ret tt, w, [])
  | Some (target, VAsync v) =>
      broadcastToListener now route verb payload exceptConn r matched l w =
      (Ret tt,
       set_reactions
         (reactions w ++
          [{| rc_conn := target; rc_isValid := v; rc_route := route; rc_verb := verb;
              rc_payload := payload |}]) w, [])
  | Some (_, VSync false) =>
      broadcastToListener now route verb payload exceptConn r matched l w = (Ret tt, w, [])
  | Some (target, VSync true) =>
      broadcastToListener now route verb payload exceptConn r matched l w =
      match callSendToRoute now target route verb payload w with
      | (o, w', ev) => (o, w', ev)
      end
  end.
Proof.
  unfold selected, broadcastToListener. munfold.
  destruct (bool_decide (readConnection (router w) (conn l) ≠ Registered <$> exceptConn));
    cbn; [|reflexivity].
  destruct (paramsMatch (params l) (objectValues matched)); [|reflexivity].
  destruct (validate r (readConnection (router w) (conn l)) matched) as [[|]|v]; cbn;
    reflexivity.
Qed.

Lemma broadcast_layer now route verb payload exceptConn r matched ls : forall w,
  resolved (omap (selected (router w) exceptConn r matched) ls) ->
  exists w' ev,
    forEach ls (broadcastToListener now route verb payload exceptConn r matched) w =
      (Ret tt, w', ev) /\
    router w' = router w /\
    reactions w' =
      reactions w ++
      validLater route verb payload (omap (selected (router w) exceptConn r matched) ls) /\
    sendToRouteCalls ev = validNow (omap (selected (router w) exceptConn r matched) ls).
Proof.
  induction ls as [|l ls IH]; intros w Hres.
  - exists w, []. cbn. rewrite app_nil_r. auto.
  - cbn [forEach]. rewrite mbind_run. cbn [omap list_omap] in Hres |- *.
    pose proof (broadcastToListener_spec now route verb payload exceptConn r matched l w)
      as Hl.
    destruct (selected (router w) exceptConn r matched l) as [[target [[|]|v]]|] eqn:Hsel.
    + (* the validator accepts at once *)
      inversion Hres as [|? ? Htarget Hrest]; subst. cbn in Htarget.
      destruct target as [[ref|name]|];
        try (destruct (Htarget eq_refl) as [? Hno]; discriminate Hno).
      destruct (callSendToRoute_some now ref route verb payload w)
        as (w1 & ev1 & Hcall & Hr1 & Hx1 & Hc1).
      rewrite Hcall in Hl. rewrite Hl.
      rewrite <- Hr1 in Hrest. destruct (IH w1 Hrest) as (w2 & ev2 & Hrun & Hr2 & Hx2 & Hc2).
      rewrite Hrun. exists w2, (EvSendToRoute ref :: ev1 ++ ev2).
      split; [reflexivity|]. split; [congruence|]. rewrite Hr1 in *. split.
      * rewrite Hx2, Hx1. reflexivity.
      * change (EvSendToRoute ref :: ev1 ++ ev2) with ((EvSendToRoute ref :: ev1) ++ ev2).
        rewrite sendToRouteCalls_app, Hc2. cbn. unfold sendToRouteCalls in Hc1 |- *.
        cbn. rewrite Hc1. reflexivity.
    + inversion Hres as [|? ? _ Hrest]; subst. rewrite Hl.
      destruct (IH w Hrest) as (w2 & ev2 & Hrun & Hr2 & Hx2 & Hc2).
      rewrite Hrun. exists w2, ev2. cbn. auto.
    + inversion Hres as [|? ? _ Hrest]; subst. rewrite Hl.
      set (w1 := set_reactions _ w) in *.
      assert (router w1 = router w) as Hr1 by reflexivity.
      rewrite <- Hr1 in Hrest.
      destruct (IH w1 Hrest) as (w2 & ev2 & Hrun & Hr2 & Hx2 & Hc2).
      rewrite Hrun. exists w2, ev2. rewrite Hr1 in *.
      split; [reflexivity|]. split; [congruence|]. split.
      * rewrite Hx2. unfold w1. cbn. rewrite <- app_assoc. reflexivity.
      * exact Hc2.
    + rewrite Hl. destruct (IH w Hres) as (w2 & ev2 & Hrun & Hr2 & Hx2 & Hc2).
      rewrite Hrun. exists w2, ev2. cbn. auto.
Qed.

Lemma validLater_app r v p a b :
  validLater r v p (a ++ b) = validLater r v p a ++ validLater r v p b.
Proof. unfold validLater. apply omap_app. Qed.

Lemma validNow_app a b : validNow (a ++ b) = validNow a ++ validNow b.
Proof. unfold validNow. apply omap_app. Qed.

Lemma broadcast_layers now route verb payload exceptConn rs : forall w,
  resolved (flat_map (fun r => match matchPath r route with
                               | Some matched => selectedIn (router w) exceptConn r matched
                               | None => []
                               end) rs) ->
  exists w' ev,
    forEach rs
      (fun r => match matchPath r route with
                | Some matched =>
                    forEach (listeners r)
                      (broadcastToListener now route verb payload exceptConn r matched)
                | None => ret tt
                end) w = (Ret tt, w', ev) /\
    router w' = router w /\
    reactions w' =
      reactions w ++
      validLater route verb payload
        (flat_map (fun r => match matchPath r route with
                            | Some matched => selectedIn (router w) exceptConn r matched
                            | None => []
                            end) rs) /\
    sendToRouteCalls ev =
      validNow (flat_map (fun r => match matchPath r route with
                                   | Some matched =>
                                       selectedIn (router w) exceptConn r matched
                                   | None => []
                                   end) rs).
Proof.
  induction rs as [|r rs IH]; intros w Hres.
  - exists w, []. cbn. rewrite app_nil_r. auto.
  - cbn [forEach flat_map] in Hres |- *. rewrite mbind_run.
    apply Forall_app in Hres as [Hres1 Hres2].
    destruct (matchPath r route) as [matched|].
    + destruct (broadcast_layer now route verb payload exceptConn r matched
                  (listeners r) w Hres1) as (w1 & ev1 & Hrun1 & Hr1 & Hx1 & Hc1).
      rewrite Hrun1. rewrite <- Hr1 in Hres2.
      destruct (IH w1 Hres2) as (w2 & ev2 & Hrun2 & Hr2 & Hx2 & Hc2).
      rewrite Hrun2. exists w2, (ev1 ++ ev2). rewrite Hr1 in *.
      split; [reflexivity|]. split; [congruence|]. split.
      * rewrite Hx2, Hx1, validLater_app, <- app_assoc. reflexivity.
      * rewrite sendToRouteCalls_app, validNow_app, Hc1, Hc2. reflexivity.
    + destruct (IH w Hres2) as (w2 & ev2 & Hrun2 & Hr2 & Hx2 & Hc2).
      cbn. rewrite Hrun2. exists w2, ev2. cbn. auto.
Qed.

Lemma internalBroadcast_calls now route action payload exceptConn w :
  resolved (selectedListeners (router w) route exceptConn) ->
  exists w' ev,
    internalBroadcast now route action payload exceptConn w = (Ret tt, w', ev) /\
    router w' = router w /\
    reactions w' =
      reactions w ++
      validLater route action payload (selectedListeners (router w) route exceptConn) /\
    sendToRouteCalls ev = validNow (selectedListeners (router w) route exceptConn).
Proof.
  intros Hres. unfold internalBroadcast. rewrite mbind_run. cbn [get].
  destruct (broadcast_layers now route action payload exceptConn (outRoutes (router w))
              w Hres) as (w' & ev & Hrun & Hr & Hx & Hc).
  rewrite Hrun. exists w', ev. auto.
Qed.

Lemma runReactions_calls_go now rs : forall w,
  exists w' ev,
    forEach rs
      (fun rc => match rc_isValid rc with
                 | Some true =>
                     tryCatch
                       (callSendToRoute now (rc_conn rc) (rc_route rc) (rc_verb rc)
                          (rc_payload rc))
                       (fun _ => ret tt)
                 | _ => ret tt
                 end) w = (Ret tt, w', ev) /\
    router w' = router w /\ reactions w' = reactions w /\
    sendToRouteCalls ev =
      omap (fun rc => match rc_isValid rc with
                      | Some true => connectionOf (rc_conn rc)
                      | _ => None
                      end) rs.
Proof.
  induction rs as [|rc rs IH]; intros w.
  - exists w, []. auto.
  - cbn [forEach omap list_omap]. rewrite mbind_run.
    destruct (rc_isValid rc) as [[|]|].
    + destruct (rc_conn rc) as [[ref|name]|].
      * destruct (callSendToRoute_some now ref (rc_route rc) (rc_verb rc) (rc_payload rc) w)
          as (w1 & ev1 & Hcall & Hr1 & Hx1 & Hc1).
        rewrite tryCatch_run, Hcall.
        destruct (IH w1) as (w2 & ev2 & Hrun & Hr2 & Hx2 & Hc2).
        rewrite Hrun. exists w2, (EvSendToRoute ref :: ev1 ++ ev2).
        split; [reflexivity|]. split; [congruence|]. split; [congruence|].
        change (EvSendToRoute ref :: ev1 ++ ev2) with ((EvSendToRoute ref :: ev1) ++ ev2).
        rewrite sendToRouteCalls_app, Hc2. unfold sendToRouteCalls in Hc1 |- *. cbn.
        rewrite Hc1. reflexivity.
      * rewrite tryCatch_run. cbn [callSendToRoute throw ret].
        destruct (IH w) as (w2 & ev2 & Hrun & Hr2 & Hx2 & Hc2).
        rewrite Hrun. exists w2, ev2. cbn. auto.
      * rewrite tryCatch_run. cbn [callSendToRoute throw ret].
        destruct (IH w) as (w2 & ev2 & Hrun & Hr2 & Hx2 & Hc2).
        rewrite Hrun. exists w2, ev2. cbn. auto.
    + cbn. destruct (IH w) as (w2 & ev2 & Hrun & Hr2 & Hx2 & Hc2).
      rewrite Hrun. exists w2, ev2. cbn. auto.
    + cbn. destruct (IH w) as (w2 & ev2 & Hrun & Hr2 & Hx2 & Hc2).
      rewrite Hrun. exists w2, ev2. cbn. auto.
Qed.

Lemma validLater_after r v p sel :
  omap (fun rc => match rc_isValid rc with
                  | Some true => connectionOf (rc_conn rc)
                  | _ => None
                  end)
       (validLater r v p sel) = validAfter sel.
Proof.
  unfold validLater, validAfter. induction sel as [|[t [b|o]] sel IH]; cbn;
    [reflexivity | exact IH |].
  destruct o as [[|]|]; cbn; rewrite IH; destruct t as [[?|?]|]; reflexivity.
Qed.

Lemma paramsMatch_same_length lp pa :
  length lp = length pa -> (paramsMatch lp pa = true <-> lp = pa).
Proof.
  intros Hlen. rewrite paramsMatch_prefix. split.
  - intros Hpre. apply prefix_length_eq; [exact Hpre | lia].
  - intros ->. reflexivity.
Qed.

(** What a broadcast does when no listener it selects is missing from the
    directory: [sendToRoute] is called, in the loops, on the selected
    listeners whose validator accepts at once and, when the promises of the
    validators have settled, on those whose validator accepts then; the
    router is unchanged. *)
Lemma broadcast_calls now route action payload exceptConn w :
  reactions w = [] ->
  resolved (selectedListeners (router w) route exceptConn) ->
  exists w1 ev1 w2 ev2,
    internalBroadcast now route action payload exceptConn w = (Ret tt, w1, ev1) /\
    runReactions now w1 = (Ret tt, w2, ev2) /\
    router w2 = router w /\
    sendToRouteCalls ev1 = validNow (selectedListeners (router w) route exceptConn) /\
    sendToRouteCalls ev2 = validAfter (selectedListeners (router w) route exceptConn).
Proof.
  intros Hnone Hres.
  destruct (internalBroadcast_calls now route action payload exceptConn w Hres)
    as (w1 & ev1 & Hrun & Hr & Hx & Hc).
  rewrite Hnone in Hx. cbn in Hx.
  destruct (runReactions_calls_go now (reactions w1) (set_reactions [] w1))
    as (w2 & ev2 & Hrun2 & Hr2 & Hx2 & Hc2).
  exists w1, ev1, w2, ev2. split; [exact Hrun|]. split.
  - unfold runReactions. rewrite mbind_run. cbn [get]. rewrite mbind_run. cbn [modify].
    rewrite Hrun2. reflexivity.
  - split; [cbn in Hr2; congruence|]. split; [exact Hc|].
    rewrite Hc2, Hx. apply validLater_after.
Qed.

(** C6. Two broadcasts of "/t/1".  In the first the only listener
    subscribed to "/t" of the layer "/t/:id?": its stored vector is empty, the
    vector captured from "/t/1" is ["1"], and [sendToRoute] is called on it.
    In the second the first listener of "/t/:id" is left over from a removed
    connection: reading it from the directory gives [undefined], the call of
    [sendToRoute] on it throws, and the second listener, which meets every
    condition, is not reached. *)
Theorem broadcast_recipients_differ :
  (let r := broadcastPost 7 "/t/1" (PStr "hi") None worldOptional in
   (listeners <$> outRoutes (router worldOptional)) =
     [[{| conn := "5ec2e7"; params := [] |}]] /\
   (objectValues <$> matchOptional "/t/1") = Some ["1"] /\
   sendToRouteCalls (events_of r) = [0%nat]) /\
  (let r := broadcastPost 7 "/t/1" (PStr "hi") (Some 2%nat) worldStale in
   (listeners <$> outRoutes (router worldStale)) =
     [[{| conn := "aaaa"; params := ["1"] |}; {| conn := "bbbb"; params := ["1"] |}]] /\
   connections (router worldStale) !! "aaaa" = None /\
   connections (router worldStale) !! "bbbb" = Some 1%nat /\
   outcome_of r = Throw "TypeError" /\
   sendToRouteCalls (events_of r) = []).
Proof.
  split; cbv zeta.
  - repeat split; vm_compute; reflexivity.
  - repeat split; vm_compute; reflexivity.
Qed.

(** * Further properties *)

(** ** The reconnect queue *)

Lemma sendWrappedMsg_open now w c :
  connected c = true ->
  sendWrappedMsg now w None c = (Ret tt, recordSent now w c, [EvSend w]).
Proof.
  intros Hc. unfold sendWrappedMsg, strategy_send, recordSent. munfold.
  destruct (messageNeedsAck w); cbn.
  - destruct (findLastIndex (hasId (wid w)) (messagesToAck c)) as [i|] eqn:Hf; cbn.
    + destruct (findLastIndex_Some _ _ _ Hf) as (e & He & _). rewrite He. cbn.
      rewrite Hc. reflexivity.
    + rewrite Hc. reflexivity.
  - rewrite Hc. reflexivity.
Qed.

Lemma recordSent_connected now w c : connected (recordSent now w c) = connected c.
Proof.
  unfold recordSent. destruct (messageNeedsAck w); [|reflexivity].
  destruct (findLastIndex _ _); [|reflexivity].
  destruct (_ !! _); reflexivity.
Qed.

Lemma flush_loop now ws : forall c,
  connected c = true ->
  forEach ws (fun w => sendWrappedMsg now w None) c =
  (Ret tt, foldl (fun c' w => recordSent now w c') c ws, EvSend <$> ws).
Proof.
  induction ws as [|w ws IH]; intros c Hc; [reflexivity|].
  cbn [forEach foldl fmap list_fmap]. rewrite mbind_run, (sendWrappedMsg_open now w c Hc).
  rewrite IH by (rewrite recordSent_connected; exact Hc). reflexivity.
Qed.

Lemma recordSent_has_id now w c :
  messageNeedsAck w = true -> wid w ∈ ackIds (recordSent now w c).
Proof.
  intros Hack. unfold recordSent. rewrite Hack.
  destruct (findLastIndex (hasId (wid w)) (messagesToAck c)) as [i|] eqn:Hf.
  - destruct (findLastIndex_Some _ _ _ Hf) as (e & He & Hid & _). rewrite He.
    rewrite ackIds_resent by exact He. unfold ackIds.
    apply list_elem_of_fmap. exists e. split.
    + unfold hasId in Hid. lia.
    + eapply list_elem_of_lookup_2; eauto.
  - unfold ackIds. cbn. rewrite fmap_app. apply elem_of_app. right. cbn. left.
Qed.

Lemma recordSent_keeps_ids now w c x : x ∈ ackIds c -> x ∈ ackIds (recordSent now w c).
Proof.
  intros Hx. unfold recordSent. destruct (messageNeedsAck w); [|exact Hx].
  destruct (findLastIndex (hasId (wid w)) (messagesToAck c)) as [i|] eqn:Hf.
  - destruct (messagesToAck c !! i) as [e|] eqn:He; [|exact Hx].
    rewrite ackIds_resent by exact He. exact Hx.
  - unfold ackIds in *. cbn. rewrite fmap_app. apply elem_of_app. left. exact Hx.
Qed.

Lemma flushed_has_ids now ws : forall c w,
  w ∈ ws -> messageNeedsAck w = true ->
  wid w ∈ ackIds (foldl (fun c' w' => recordSent now w' c') c ws).
Proof.
  induction ws as [|w0 ws IH]; intros c w Hin Hack; [inversion Hin|].
  cbn [foldl]. apply elem_of_cons in Hin as [->|Hin].
  - clear IH. generalize (recordSent_has_id now w0 c Hack).
    generalize (recordSent now w0 c). induction ws as [|w1 ws IH]; intros c1 H; [exact H|].
    cbn [foldl]. apply IH. apply recordSent_keeps_ids. exact H.
  - apply IH; assumption.
Qed.

Lemma flushed_connected now ws : forall c,
  connected (foldl (fun c' w => recordSent now w c') c ws) = connected c.
Proof.
  induction ws as [|w ws IH]; intros c; [reflexivity|].
  cbn [foldl]. rewrite IH. apply recordSent_connected.
Qed.

Lemma recordSent_callbacks now w c : callbacks (recordSent now w c) = callbacks c.
Proof.
  unfold recordSent. destruct (messageNeedsAck w); [|reflexivity].
  destruct (findLastIndex _ _); [|reflexivity].
  destruct (_ !! _); reflexivity.
Qed.

Lemma sendMessagesFromLaterList_open now c :
  connected c = true ->
  sendMessagesFromLaterList now c =
  (Ret tt,
   set_messagesToSendAfterReconnect []
     (foldl (fun c' w => recordSent now w c') c (messagesToSendAfterReconnect c)),
   EvSend <$> messagesToSendAfterReconnect c).
Proof.
  intros Hc. unfold sendMessagesFromLaterList. rewrite mbind_run. cbn [get].
  rewrite mbind_run, (flush_loop now _ c Hc). cbn. rewrite app_nil_r. reflexivity.
Qed.

(** X1. When the socket of a connection opens, and when setStrategy completes,
    every envelope queued in messagesToSendAfterReconnect is handed to the
    transport once, in the order in which it was queued; the queue is left
    empty, the connection is connected, and every queued envelope that needs
    an acknowledgement has an entry in messagesToAck. *)
Theorem queued_messages_are_flushed_in_order {Env} (hooks : Hooks Env) now (s : Connection * Env) :
  let queue := messagesToSendAfterReconnect (fst s) in
  (let r := socketOpened now s in
   outcome_of r = Ret tt /\
   events_of r = EvSend <$> queue /\
   messagesToSendAfterReconnect (fst (state_of r)) = [] /\
   connected (fst (state_of r)) = true /\
   (forall w, w ∈ queue -> messageNeedsAck w = true -> wid w ∈ ackIds (fst (state_of r))) /\
   snd (state_of r) = snd s) /\
  (let r := setStrategy hooks now s in
   outcome_of r = Ret tt /\
   events_of r = EvSend <$> queue /\
   messagesToSendAfterReconnect (fst (state_of r)) = [] /\
   connected (fst (state_of r)) = true /\
   (forall w, w ∈ queue -> messageNeedsAck w = true -> wid w ∈ ackIds (fst (state_of r)))).
Proof.
  destruct s as [c env]. cbv zeta. split.
  - unfold socketOpened. munfold. cbn [fst snd].
    rewrite (sendMessagesFromLaterList_open now (set_connected true c)) by reflexivity.
    cbn. repeat split.
    + rewrite flushed_connected. reflexivity.
    + intros w Hin Hack. apply flushed_has_ids; assumption.
  - unfold setStrategy, close, connect, clearClosingTimer. munfold. cbn [fst snd].
    match goal with |- context [sendMessagesFromLaterList now ?c0] =>
      rewrite (sendMessagesFromLaterList_open now c0) by reflexivity end.
    cbn. repeat split.
    + rewrite flushed_connected. reflexivity.
    + intros w Hin Hack. apply flushed_has_ids; assumption.
Qed.


(** X2. handleMessage returns for every inbound envelope {id, msg} in every
    state: an exception raised while the message is dispatched (an unknown
    message type, a hook or a handshake callback that throws) is caught and
    does not leave handleMessage. *)
Theorem handleMessage_never_throws {Env} (hooks : Hooks Env) now w s :
  outcome_of (handleMessage hooks now w s) = Ret tt.
Proof.
  destruct (Z.eq_dec (wid w) (-1)) as [Hid|Hid].
  - rewrite (handleMessage_forget hooks now w s Hid).
    destruct (dispatch hooks (wid w) (wmsg w) s) as [[o s1] e1]. reflexivity.
  - destruct (getReceivedPairById (wid w) (fst s)) as [received|] eqn:Hrec.
    + rewrite (handleMessage_duplicate hooks now w s received Hid Hrec).
      unfold onFst, outcome_of.
      match goal with |- context [postAndForget ?n ?r ?c] =>
        pose proof (postAndForget_returns n r c) as H; unfold outcome_of in H;
        destruct (postAndForget n r c) as [[? ?] ?] end.
      exact H.
    + rewrite (handleMessage_first hooks now w s Hid Hrec).
      destruct (dispatch hooks (wid w) (wmsg w) s) as [[[r|e] s1] e1]; cbn.
      * destruct (postAndForget now _ (fst s1)) as [[? ?] ?]. reflexivity.
      * destruct (postAndForgetMsg now _ (fst s1)) as [[? ?] ?]. reflexivity.
Qed.

(** ** Sending to a route within the limit *)

Lemma postAndExpectResponse_posted now msg c :
  isRes msg = false ->
  postAndExpectResponse now msg c =
  (Ret (nextMsgId c), posted now msg c,
   if connected c then [EvSend (new_MsgWrapper (nextMsgId c) msg)] else []).
Proof.
  intros Hres. rewrite (postAndExpectResponse_spec now msg c Hres). cbv zeta.
  unfold posted. destruct (connected c) eqn:Hc; [|reflexivity].
  rewrite sendWrappedMsg_open by exact Hc. reflexivity.
Qed.

Lemma posted_counter now msg c :
  messagesSentInASecond (posted now msg c) = messagesSentInASecond c.
Proof.
  unfold posted, recordSent. destruct (connected c); [|reflexivity].
  destruct (messageNeedsAck _); [|reflexivity].
  cbn. destruct (findLastIndex _ _); [|reflexivity]. destruct (_ !! _); reflexivity.
Qed.

Lemma posted_callbacks now msg c : callbacks (posted now msg c) = callbacks c.
Proof.
  unfold posted, recordSent. destruct (connected c); [|reflexivity].
  destruct (messageNeedsAck _); [|reflexivity].
  cbn. destruct (findLastIndex _ _); [|reflexivity]. destruct (_ !! _); reflexivity.
Qed.

Lemma posted_nextMsgId now msg c : nextMsgId (posted now msg c) = nextMsgId c + 1.
Proof.
  unfold posted, recordSent. destruct (connected c); [|reflexivity].
  destruct (messageNeedsAck _); [|reflexivity].
  cbn. destruct (findLastIndex _ _); [|reflexivity]. destruct (_ !! _); reflexivity.
Qed.

Lemma posted_pongsReceived now msg c :
  pongsReceived (posted now msg c) = pongsReceived c.
Proof.
  unfold posted, recordSent. destruct (connected c); [|reflexivity].
  destruct (messageNeedsAck _); [|reflexivity].
  cbn. destruct (findLastIndex _ _); [|reflexivity]. destruct (_ !! _); reflexivity.
Qed.

Lemma posted_connected now msg c : connected (posted now msg c) = connected c.
Proof.
  unfold posted. destruct (connected c) eqn:Hc; [|exact Hc].
  rewrite recordSent_connected. exact Hc.
Qed.

Lemma sendToRoute_spec now r v payload hs cb c :
  sendToRoute now r v payload hs cb c =
  let msg := Route (new_MsgRoute r v (if truthy payload then payload else PStr "") hs) in
  let c1 := posted now msg c in
  let c2 := set_messagesSentInASecond (messagesSentInASecond c1 + 1) c1 in
  (Ret tt,
   match cb with
   | Some tag => set_callbacks (<[nextMsgId c := CbUser tag]> (callbacks c2)) c2
   | None => c2
   end,
   (if SEND_LIMIT_PER_SEC <? messagesSentInASecond c
    then match cb with
         | Some tag =>
             [EvCallback tag
                (ArgMsg (new_MsgResponseWithCode (-1) 429 (PStr rateLimitText)))]
         | None => []
         end
    else []) ++
   (if connected c then [EvSend (new_MsgWrapper (nextMsgId c) msg)] else [])).
Proof.
  unfold sendToRoute. rewrite mbind_run. cbn [get]. rewrite mbind_run. cbv zeta.
  destruct (SEND_LIMIT_PER_SEC <? messagesSentInASecond c); destruct cb as [tag|];
    cbn [emit ret]; rewrite mbind_run, postAndExpectResponse_posted by reflexivity;
    rewrite mbind_run; cbn [modify]; cbn [mbind M_bind bind modify ret];
    rewrite ?app_nil_r; reflexivity.
Qed.

(** X3. While messagesSentInASecond is at most 100, sendToRoute calls no
    callback and returns: the route envelope takes the id nextMsgId and
    carries the payload, or the empty string when the payload is falsy; it is
    sent if the transport is open and appended to the reconnect queue
    otherwise; nextMsgId and the counter grow by one and the callback, if
    given, is registered under the id. *)
Theorem sendToRoute_within_limit now r v payload hs callback c :
  messagesSentInASecond c <= SEND_LIMIT_PER_SEC ->
  let res := sendToRoute now r v payload hs callback c in
  let id := nextMsgId c in
  let w := new_MsgWrapper id
             (Route (new_MsgRoute r v (if truthy payload then payload else PStr "") hs)) in
  outcome_of res = Ret tt /\
  events_of res = (if connected c then [EvSend w] else []) /\
  nextMsgId (state_of res) = id + 1 /\
  messagesSentInASecond (state_of res) = messagesSentInASecond c + 1 /\
  callbacks (state_of res) =
    match callback with
    | Some tag => <[id := CbUser tag]> (callbacks c)
    | None => callbacks c
    end /\
  (connected c = false ->
   messagesToAck (state_of res) = messagesToAck c /\
   messagesToSendAfterReconnect (state_of res) = messagesToSendAfterReconnect c ++ [w]).
Proof.
  intros Hlimit. cbv zeta. rewrite sendToRoute_spec. cbv zeta.
  assert ((SEND_LIMIT_PER_SEC <? messagesSentInASecond c) = false) as ->
    by (apply Z.ltb_ge; exact Hlimit).
  unfold outcome_of, events_of, state_of. cbn [fst snd app].
  split; [reflexivity|]. split; [reflexivity|].
  split; [destruct callback; cbn; apply posted_nextMsgId|].
  split; [destruct callback; cbn; rewrite posted_counter; reflexivity|].
  split; [destruct callback; cbn; rewrite posted_callbacks; reflexivity|].
  intros Hc. unfold posted. rewrite Hc. destruct callback; cbn; split; reflexivity.
Qed.

Lemma sendToRoute_within_limit_witness :
  messagesSentInASecond openServerConn <= SEND_LIMIT_PER_SEC /\
  events_of (sendToRoute 5 "/a" "POST" (PNum 0) None (Some 3%nat) openServerConn) =
    [EvSend {| wid := 0;
               wmsg := Route {| verb := "POST"; route := "/a"; route_data := PStr "";
                                headers := None |} |}] /\
  messagesSentInASecond
    (state_of (sendToRoute 5 "/a" "POST" (PNum 0) None (Some 3%nat) openServerConn)) = 1.
Proof.
  assert (messagesSentInASecond openServerConn <= SEND_LIMIT_PER_SEC) as H
    by (vm_compute; discriminate).
  destruct (sendToRoute_within_limit 5 "/a" "POST" (PNum 0) None (Some 3%nat)
              openServerConn H) as (_ & Hev & _ & Hcount & _).
  split; [exact H|]. split; [exact Hev | exact Hcount].
Defined.

Lemma run_sendToRoute_quiet {Env} (hooks : Hooks Env) ops : forall s,
  Forall (fun nop => isSendToRouteOp (snd nop)) ops ->
  messagesSentInASecond (fst s) + Z.of_nat (length ops) <= SEND_LIMIT_PER_SEC + 1 ->
  Forall (fun e => ~ isCallbackEvent e) (snd (run hooks ops s)) /\
  messagesSentInASecond (fst (fst (run hooks ops s))) =
    messagesSentInASecond (fst s) + Z.of_nat (length ops).
Proof.
  induction ops as [|[now op] ops IH]; intros s Hops Hlen.
  - cbn. split; [constructor | lia].
  - inversion Hops as [|? ? Hop Hrest]; subst. cbn in Hop.
    destruct op; try contradiction. clear Hop.
    cbn [run step]. unfold onFst. rewrite sendToRoute_spec. cbv zeta.
    cbn [length] in Hlen.
    assert ((SEND_LIMIT_PER_SEC <? messagesSentInASecond (fst s)) = false) as ->
      by (apply Z.ltb_ge; lia).
    set (c1 := match callback with Some _ => _ | None => _ end).
    assert (messagesSentInASecond c1 = messagesSentInASecond (fst s) + 1) as Hc1.
    { unfold c1. destruct callback; cbn; rewrite posted_counter; reflexivity. }
    specialize (IH (c1, snd s) Hrest). cbn [fst] in IH. rewrite Hc1 in IH.
    destruct IH as [IH1 IH2]; [lia|].
    destruct (run hooks ops (c1, snd s)) as [s2 e2]. cbn [fst snd] in *.
    split.
    + apply Forall_app. split; [|exact IH1].
      destruct (connected (fst s)); repeat constructor. cbn. tauto.
    + rewrite IH2. cbn [length]. lia.
Qed.

(** X4. After the counter has been reset, up to 101 consecutive calls of
    sendToRoute call no callback (the test is counter > 100), and the counter
    then equals the number of calls. *)
Theorem rate_limit_lets_101_calls_pass {Env} (hooks : Hooks Env) now ops s :
  Forall (fun nop => isSendToRouteOp (snd nop)) ops ->
  (length ops <= 101)%nat ->
  let s0 := state_of (step hooks now OpRateReset s) in
  Forall (fun e => ~ isCallbackEvent e) (snd (run hooks ops s0)) /\
  messagesSentInASecond (fst (fst (run hooks ops s0))) = Z.of_nat (length ops).
Proof.
  intros Hops Hlen. cbv zeta.
  destruct (run_sendToRoute_quiet hooks ops (state_of (step hooks now OpRateReset s)) Hops)
    as [H1 H2].
  - cbn. unfold SEND_LIMIT_PER_SEC. lia.
  - split; [exact H1|]. rewrite H2. cbn. lia.
Qed.

Lemma rate_limit_lets_101_calls_pass_witness :
  let ops := replicate 101 (5, OpSendToRoute "/a" "GET" (PStr "") None (Some 3%nat)) in
  Forall (fun nop => isSendToRouteOp (snd nop)) ops /\
  (length ops <= 101)%nat /\
  messagesSentInASecond
    (fst (fst (run (defaultHooks unit) ops
                 (state_of (step (defaultHooks unit) 4 OpRateReset (rateLimited, tt)))))) = 101.
Proof.
  cbv zeta.
  assert (Forall (fun nop : Z * Op => isSendToRouteOp (snd nop))
            (replicate 101 (5, OpSendToRoute "/a" "GET" (PStr "") None (Some 3%nat)))) as H1.
  { apply Forall_replicate. exact I. }
  assert (length (replicate 101 (5, OpSendToRoute "/a" "GET" (PStr "") None (Some 3%nat)))
          <= 101)%nat as H2 by (rewrite length_replicate; lia).
  split; [exact H1|]. split; [exact H2|].
  exact (proj2 (rate_limit_lets_101_calls_pass (defaultHooks unit) 4 _ (rateLimited, tt) H1 H2)).
Defined.

(** ** The retry timer *)

Lemma step_ackEntriesNeedAck {Env} (hooks : Hooks Env) now op :
  sat (fun se : Connection * Env => ackEntriesNeedAck (fst se)) (fun _ => True)
    (step hooks now op).
Proof.
  apply sat_step; unfold ackEntriesNeedAck; intros; simpl; auto.
  - apply Forall_app. split; [assumption|]. repeat constructor. assumption.
  - apply Forall_insert; [assumption|]. simpl.
    match goal with H : Forall _ _, H' : _ !! _ = Some _ |- _ =>
      exact (proj1 (Forall_lookup _ _) H _ _ H') end.
  - apply Forall_delete. assumption.
Qed.

Lemma sendWrappedMsg_at now w i e c :
  messageNeedsAck w = true -> messagesToAck c !! i = Some e -> connected c = true ->
  sendWrappedMsg now w (Some i) c =
  (Ret tt, set_messagesToAck (<[i := resent now e]> (messagesToAck c)) c, [EvSend w]).
Proof.
  intros Hack Hi Hc. unfold sendWrappedMsg, strategy_send. munfold.
  rewrite Hack, Hi. cbn. rewrite Hc. reflexivity.
Qed.

Lemma retry_loop now : forall (todo past : list SentMessages) c,
  messagesToAck c = past ++ todo ->
  connected c = true ->
  Forall (fun e => messageNeedsAck (wrappedMsg e) = true) todo ->
  forEach (seq (length past) (length todo))
    (fun i =>
       c' ← get;
       match messagesToAck c' !! i with
       | Some m =>
           if RESEND_NOT_ANSWERED_MESSAGES_AFTER_MS <? now - sentAt m
           then sendWrappedMsg now (wrappedMsg m) (Some i)
           else ret tt
       | None => ret tt
       end) c =
  (Ret tt, set_messagesToAck (past ++ (retried now <$> todo)) c,
   (fun e => EvSend (wrappedMsg e)) <$> filter (fun e => overdue now e = true) todo).
Proof.
  induction todo as [|e todo IH]; intros past c Hacks Hc Hneed.
  - cbn. rewrite app_nil_r in *. rewrite <- Hacks. destruct c; reflexivity.
  - inversion Hneed as [|? ? He Hrest]; subst.
    cbn [length seq forEach]. rewrite mbind_run, mbind_run. cbn [get].
    assert (messagesToAck c !! length past = Some e) as Hlook.
    { rewrite Hacks. rewrite lookup_app_r by lia.
      replace (length past - length past)%nat with 0%nat by lia. reflexivity. }
    rewrite Hlook. unfold retried at 1, overdue at 1 2.
    cbn [fmap list_fmap].
    destruct (RESEND_NOT_ANSWERED_MESSAGES_AFTER_MS <? now - sentAt e) eqn:Hover.
    + rewrite filter_cons_True by (unfold overdue; exact Hover).
      rewrite (sendWrappedMsg_at now (wrappedMsg e) (length past) e c He Hlook Hc).
      set (c1 := set_messagesToAck _ c).
      specialize (IH (past ++ [resent now e]) c1).
      rewrite length_app in IH. cbn in IH.
      replace (length past + 1)%nat with (S (length past)) in IH by lia.
      rewrite IH; [| | exact Hc | exact Hrest].
      * cbn. unfold c1. cbn. rewrite <- app_assoc. reflexivity.
      * unfold c1. cbn. rewrite Hacks.
        rewrite insert_app_r_alt by lia.
        replace (length past - length past)%nat with 0%nat by lia. cbn.
        rewrite <- app_assoc. reflexivity.
    + rewrite filter_cons_False by (unfold overdue; rewrite Hover; discriminate).
      cbn [ret]. 
      specialize (IH (past ++ [e]) c).
      rewrite length_app in IH. cbn in IH.
      replace (length past + 1)%nat with (S (length past)) in IH by lia.
      rewrite IH; [| | exact Hc | exact Hrest].
      * cbn. rewrite <- app_assoc. reflexivity.
      * rewrite Hacks, <- app_assoc. reflexivity.
Qed.

Lemma retryTick_spec now c :
  ackEntriesNeedAck c ->
  retryTick now c =
  if connected c
  then (Ret tt, set_messagesToAck (retried now <$> messagesToAck c) c,
        (fun e => EvSend (wrappedMsg e)) <$>
          filter (fun e => overdue now e = true) (messagesToAck c))
  else (Ret tt, c, []).
Proof.
  intros Hneed. unfold retryTick. rewrite mbind_run. cbn [get].
  destruct (connected c) eqn:Hc; [|reflexivity]. cbn [negb].
  pose proof (retry_loop now (messagesToAck c) [] c eq_refl Hc Hneed) as H.
  cbn [length app] in H. rewrite H. reflexivity.
Qed.

Lemma filter_none {A} (P : A -> Prop) `{forall x, Decision (P x)} (l : list A) :
  Forall (fun x => ~ P x) l -> filter P l = [].
Proof.
  induction 1 as [|x l Hx _ IH]; [reflexivity|].
  rewrite filter_cons_False by exact Hx. exact IH.
Qed.

(** X5. A tick of the retry interval does nothing while the transport is
    closed. While it is open it sends again exactly the entries of
    messagesToAck that were sent more than 3000 ms ago, in their order, sets
    their sentAt to now and increments their sentAmount; the ids in
    messagesToAck stay the same, and a second tick at the same instant sends
    nothing. *)
Theorem retry_timer_resends_overdue_messages now c :
  ackEntriesNeedAck c ->
  let r := retryTick now c in
  outcome_of r = Ret tt /\
  (connected c = false -> state_of r = c /\ events_of r = []) /\
  (connected c = true ->
   events_of r =
     (fun e => EvSend (wrappedMsg e)) <$>
       filter (fun e => overdue now e = true) (messagesToAck c) /\
   messagesToAck (state_of r) = retried now <$> messagesToAck c /\
   ackIds (state_of r) = ackIds c /\
   events_of (retryTick now (state_of r)) = []).
Proof.
  intros Hneed. cbv zeta. rewrite (retryTick_spec now c Hneed).
  destruct (connected c) eqn:Hc; unfold outcome_of, state_of, events_of; cbn [fst snd].
  - split; [reflexivity|]. split; [discriminate|]. intros _.
    split; [reflexivity|]. split; [reflexivity|]. split.
    + unfold ackIds. cbn. rewrite <- list_fmap_compose. apply list_fmap_ext.
      intros i e _. cbn. unfold retried. destruct (overdue now e); reflexivity.
    + rewrite retryTick_spec.
      * cbn. rewrite Hc. cbn.
        rewrite filter_none; [reflexivity|].
        apply Forall_fmap, Forall_forall. intros e _.
        cbn. unfold retried. destruct (overdue now e) eqn:Ho.
        -- unfold overdue, resent, RESEND_NOT_ANSWERED_MESSAGES_AFTER_MS. cbn.
           rewrite Z.sub_diag. discriminate.
        -- rewrite Ho. discriminate.
      * unfold ackEntriesNeedAck in *. cbn. apply Forall_fmap.
        eapply Forall_impl; [exact Hneed|]. intros e He. cbn.
        unfold retried. destruct (overdue now e); exact He.
  - split; [reflexivity|]. split; [auto|discriminate].
Qed.

Lemma retry_timer_resends_overdue_messages_witness :
  ackEntriesNeedAck awaitingAck /\
  events_of (retryTick 3001 awaitingAck) = [] /\
  events_of (retryTick 3002 awaitingAck) = [EvSend {| wid := 0; wmsg := MsgPing |}] /\
  messagesToAck (state_of (retryTick 3002 awaitingAck)) =
    [{| wrappedMsg := {| wid := 0; wmsg := MsgPing |}; sentAt := 3002; sentAmount := 2 |}].
Proof.
  assert (ackEntriesNeedAck awaitingAck) as H by (repeat constructor).
  destruct (retry_timer_resends_overdue_messages 3001 awaitingAck H) as (_ & _ & H1).
  destruct (retry_timer_resends_overdue_messages 3002 awaitingAck H) as (_ & _ & H2).
  split; [exact H|]. split; [exact (proj1 (H1 eq_refl))|].
  split; [exact (proj1 (H2 eq_refl)) | exact (proj1 (proj2 (H2 eq_refl)))].
Defined.

(** X6. In every state reached from a new connection, no entry of
    messagesToAck holds a response or an envelope with id -1; so every frame
    the retry timer sends is an envelope with an id that is not a response. *)
Theorem responses_are_never_retried {Env} (hooks : Hooks Env) secret client (env : Env) ops now :
  let c := fst (fst (run hooks ops (newConnection secret client, env))) in
  Forall (fun e => wid (wrappedMsg e) <> -1 /\ isRes (wmsg (wrappedMsg e)) = false)
    (messagesToAck c) /\
  Forall (fun ev => exists w, ev = EvSend w /\ wid w <> -1 /\ isRes (wmsg w) = false)
    (events_of (retryTick now c)).
Proof.
  cbv zeta.
  assert (ackEntriesNeedAck (fst (fst (run hooks ops (newConnection secret client, env)))))
    as Hneed.
  { apply (sat_run ackEntriesNeedAck (fun _ => True) hooks ops).
    - intros now' op. apply step_ackEntriesNeedAck.
    - constructor. }
  assert (forall w, messageNeedsAck w = true -> wid w <> -1 /\ isRes (wmsg w) = false) as Hw.
  { intros w H. unfold messageNeedsAck in H. apply andb_true_iff in H as [H1 H2].
    apply negb_true_iff in H1, H2. split; [lia | exact H2]. }
  split.
  - eapply Forall_impl; [exact Hneed|]. intros e He. apply Hw, He.
  - rewrite (retryTick_spec now _ Hneed). destruct (connected _); [|constructor].
    unfold events_of. cbn [snd]. apply Forall_fmap, Forall_forall. intros e He.
    apply list_elem_of_filter in He as [_ He]. cbn. eexists. split; [reflexivity|].
    apply Hw. unfold ackEntriesNeedAck in Hneed. rewrite Forall_forall in Hneed.
    apply Hneed, He.
Qed.

(** ** Envelopes without an id, ping and pong *)

Lemma dispatch_sends_nothing {Env} (hooks : Hooks Env) id msg L :
  sat (fun se : Connection * Env => receivedMessages (fst se) = L)
      (fun e => ~ isSend e) (dispatch hooks id msg).
Proof.
  unfold dispatch, handleDataSet, handleRouteSubscription, handleRouteUnsubscription,
    handleRouteMessage, handleResponse, runCallback, removeMessageToAck.
  sat_go ltac:(intros; simpl; auto);
    try apply (sat_callHook (fun c => receivedMessages c = L)).
  apply (sat_onFst (fun c => receivedMessages c = L)).
  sat_go ltac:(intros; simpl; auto).
Qed.

(** X7. An inbound envelope with id -1 is dispatched on every delivery, is not
    recorded in receivedMessages, and no frame is ever sent because of it: no
    response, and for a route message nothing is sent when the handler's
    promise settles either. *)
Theorem inbound_without_id_is_never_answered {Env} (hooks : Hooks Env) now w s :
  wid w = -1 ->
  let r := handleMessage hooks now w s in
  outcome_of r = Ret tt /\
  receivedMessages (fst (state_of r)) = receivedMessages (fst s) /\
  Forall (fun e => ~ isSend e) (events_of r) /\
  (exists evs, events_of r = EvDispatch w :: evs) /\
  (forall m,
     wmsg w = Route m ->
     let p := length (promises (fst s)) in
     events_of r = [EvDispatch w; EvRouteMessage (-1) m] /\
     forall now' result,
       events_of (settleRouteMessage now' p result (fst (state_of r))) = []).
Proof.
  intros Hid. cbv zeta. rewrite (handleMessage_forget hooks now w s Hid).
  destruct (dispatch_sends_nothing hooks (wid w) (wmsg w) (receivedMessages (fst s)) s eq_refl)
    as [Hrec Hev].
  unfold outcome_of, state_of, events_of in *.
  destruct (dispatch hooks (wid w) (wmsg w) s) as [[o s1] e1] eqn:Hd. cbn [fst snd] in *.
  split; [reflexivity|]. split; [exact Hrec|]. split.
  - constructor; [cbn; tauto | exact Hev].
  - split; [eauto|]. intros m Hm. rewrite Hm, Hid in Hd. rewrite dispatch_route in Hd.
    inversion Hd; subst. split; [reflexivity|]. intros now' result.
    unfold settleRouteMessage. munfold. cbn.
    rewrite lookup_app_r by lia. rewrite Nat.sub_diag. cbn.
    destruct result; reflexivity.
Qed.

Lemma inbound_without_id_is_never_answered_witness :
  let w := {| wid := -1; wmsg := MsgOther "err" |} in
  wid w = -1 /\
  outcome_of (handleMessage (defaultHooks unit) 5 w openServer) = Ret tt /\
  receivedMessages (fst (state_of (handleMessage (defaultHooks unit) 5 w openServer))) = [].
Proof.
  cbv zeta. split; [reflexivity|].
  destruct (inbound_without_id_is_never_answered (defaultHooks unit) 5
              {| wid := -1; wmsg := MsgOther "err" |} openServer eq_refl) as (H1 & H2 & _).
  split; [exact H1 | exact H2].
Defined.


Lemma sendPing_spec {Env} now round (s : Connection * Env) :
  sendPing now round s =
  (Ret tt,
   (set_callbacks (<[nextMsgId (fst s) := CbPong round]> (callbacks (posted now pingMsg (fst s))))
      (posted now pingMsg (fst s)), snd s),
   if connected (fst s) then [EvSend (new_MsgWrapper (nextMsgId (fst s)) pingMsg)] else []).
Proof.
  unfold sendPing. rewrite mbind_run. unfold onFst at 1.
  rewrite postAndExpectResponse_posted by reflexivity.
  unfold updateConn, onFst, modify. cbn. rewrite app_nil_r. reflexivity.
Qed.

Lemma handleMessage_ping {Env} (hooks : Hooks Env) now id s :
  id <> -1 -> getReceivedPairById id (fst s) = None ->
  handleMessage hooks now {| wid := id; wmsg := MsgPing |} s =
  (Ret tt,
   (recordReceived {| wid := id; wmsg := MsgPing |}
      (Immediate (new_MsgResponseOK id (PStr "pong"))) (fst s), snd s),
   EvDispatch {| wid := id; wmsg := MsgPing |} ::
     (if connected (fst s)
      then [EvSend {| wid := -1; wmsg := Res (new_MsgResponseOK id (PStr "pong")) |}]
      else [])).
Proof.
  intros Hid Hnone.
  rewrite (handleMessage_first hooks now _ s) by assumption.
  cbn [wid wmsg dispatch]. unfold ret. cbv zeta. cbn [default from_option].
  unfold Datatypes.id. cbn [postAndForget].
  rewrite postAndForgetMsg_spec. reflexivity.
Qed.

(** X8. A ping sent by sendPingWaitForPong is answered by an open peer with a
    200 response carrying pong; once the sender has processed that response
    the callback is gone and the check after the wait leaves the connection
    open, whereas without the response the check closes it. *)
Theorem answered_ping_keeps_connection_open {EnvA EnvB}
    (hooksA : Hooks EnvA) (hooksB : Hooks EnvB) now round sA sB :
  connected (fst sA) = true ->
  connected (fst sB) = true ->
  getReceivedPairById (nextMsgId (fst sA)) (fst sB) = None ->
  0 <= nextMsgId (fst sA) ->
  round ∉ pongsReceived (fst sA) ->
  let id := nextMsgId (fst sA) in
  let ping := {| wid := id; wmsg := MsgPing |} in
  let pong := {| wid := -1;
                 wmsg := Res {| target := id; status := 200; res_data := PStr "pong" |} |} in
  let sA1 := state_of (sendPing now round sA) in
  let sA2 := state_of (handleMessage hooksA now pong sA1) in
  events_of (sendPing now round sA) = [EvSend ping] /\
  events_of (handleMessage hooksB now ping sB) = [EvDispatch ping; EvSend pong] /\
  callbacks (fst sA2) !! id = None /\
  connected (fst (state_of (pongTimeout round sA2))) = true /\
  connected (fst (state_of (pongTimeout round sA1))) = false.
Proof.
  intros HcA HcB Hnew Hpos Hround. cbv zeta.
  rewrite sendPing_spec, HcA.
  rewrite (handleMessage_ping hooksB now _ sB) by (assumption || lia). rewrite HcB.
  unfold events_of, state_of. cbn [fst snd].
  split; [reflexivity|]. split; [reflexivity|].
  set (a1 := set_callbacks _ _).
  assert (callbacks a1 !! nextMsgId (fst sA) = Some (CbPong round)) as Hcb.
  { unfold a1. cbn. apply lookup_insert_eq. }
  assert (pongsReceived a1 = pongsReceived (fst sA)) as Hpongs.
  { unfold a1. cbn. apply posted_pongsReceived. }
  assert (connected a1 = true) as Hc1.
  { unfold a1. cbn. rewrite posted_connected. exact HcA. }
  rewrite (handleMessage_forget hooksA now _ (a1, snd sA)) by reflexivity.
  cbn [wid wmsg dispatch]. rewrite mbind_run, handleResponse_spec.
  cbn [status target fst snd]. cbn [Z.eqb Pos.eqb]. rewrite Hcb.
  unfold runCallback, translated. cbn [status Z.eqb Pos.eqb].
  unfold noError, new_RouteResponse. cbn [rr_error].
  unfold updateConn, onFst, modify. cbn [fst snd].
  rewrite removeMessageToAck_spec. cbn [ret fst snd state_of].
  split; [|split].
  - destruct (findLastIndex _ _); cbn; apply lookup_delete_eq.
  - unfold pongTimeout. munfold. cbn [fst snd].
    rewrite bool_decide_eq_true_2.
    + cbn. destruct (findLastIndex _ _); cbn; exact Hc1.
    + destruct (findLastIndex _ _); cbn; left.
  - unfold pongTimeout. munfold. cbn [fst snd].
    rewrite bool_decide_eq_false_2 by (rewrite Hpongs; exact Hround).
    reflexivity.
Qed.

Lemma answered_ping_keeps_connection_open_witness :
  connected (fst openServer) = true /\
  getReceivedPairById (nextMsgId (fst openServer)) (fst openServer) = None /\
  0 <= nextMsgId (fst openServer) /\
  (0%nat ∉ pongsReceived (fst openServer)) /\
  events_of (handleMessage (defaultHooks unit) 5 {| wid := 0; wmsg := MsgPing |} openServer) =
    [EvDispatch {| wid := 0; wmsg := MsgPing |};
     EvSend {| wid := -1;
               wmsg := Res {| target := 0; status := 200; res_data := PStr "pong" |} |}] /\
  connected (fst (state_of (pongTimeout 0 (state_of (sendPing 5 0 openServer))))) = false.
Proof.
  assert (0 <= nextMsgId (fst openServer)) as Hpos by (vm_compute; discriminate).
  assert (0%nat ∉ pongsReceived (fst openServer)) as Hround by (cbn; apply not_elem_of_nil).
  destruct (answered_ping_keeps_connection_open (defaultHooks unit) (defaultHooks unit)
              5 0%nat openServer openServer eq_refl eq_refl eq_refl Hpos Hround)
    as (_ & Hpong & _ & _ & Hclosed).
  split; [reflexivity|]. split; [reflexivity|]. split; [exact Hpos|].
  split; [exact Hround|]. split; [exact Hpong | exact Hclosed].
Defined.

(** ** Closing, and the answers of route handlers *)


(** X9. When its transport closes, a client connection calls onClose at once.
    A server connection arms a timer instead and calls onClose when the timer
    fires, once; a new socket or a reopened transport before that cancels the
    call. *)
Theorem server_close_waits_for_the_timer {Env} (hooks : Hooks Env) now1 now2 now3 isOpen
    (c : Connection) (env : Env) :
  let closed := set_connected false c in
  let armed := set_closingTimer true (set_closingTimer false closed) in
  let fired := set_closingTimer false armed in
  (isClient c = true ->
   step hooks now1 OpTransportClose (c, env) = (Ret tt, (closed, onClose hooks closed env), [])) /\
  (isClient c = false ->
   step hooks now1 OpTransportClose (c, env) = (Ret tt, (armed, env), []) /\
   run hooks [(now1, OpTransportClose); (now2, OpCloseTimer)] (c, env) =
     ((fired, onClose hooks fired env), []) /\
   run hooks [(now1, OpTransportClose); (now2, OpCloseTimer); (now3, OpCloseTimer)] (c, env) =
     ((fired, onClose hooks fired env), []) /\
   snd (fst (run hooks [(now1, OpTransportClose); (now2, OpSetSocket isOpen);
                        (now3, OpCloseTimer)] (c, env))) = env /\
   snd (fst (run hooks [(now1, OpTransportClose); (now2, OpTransportOpen);
                        (now3, OpCloseTimer)] (c, env))) = onOpen hooks env).
Proof.
  cbv zeta. split; intros Hc.
  - cbn [step]. unfold transportClosed. munfold. cbn [fst snd isClient set_connected].
    rewrite Hc. reflexivity.
  - split; [|split; [|split; [|split]]].
    + cbn [step]. unfold transportClosed, clearClosingTimer. munfold.
      cbn [fst snd isClient set_connected]. rewrite Hc. reflexivity.
    + cbn [run step]. unfold transportClosed, closeTimerFired, clearClosingTimer. munfold.
      cbn [fst snd isClient set_connected]. rewrite Hc. reflexivity.
    + cbn [run step]. unfold transportClosed, closeTimerFired, clearClosingTimer. munfold.
      cbn [fst snd isClient set_connected]. rewrite Hc. reflexivity.
    + cbn [run step]. unfold transportClosed, closeTimerFired, setSocket, clearClosingTimer.
      munfold. cbn [fst snd isClient set_connected]. rewrite Hc. cbn. rewrite Hc. reflexivity.
    + cbn [run step]. unfold transportClosed, closeTimerFired, transportOpened,
        clearClosingTimer. munfold.
      cbn [fst snd isClient set_connected]. rewrite Hc. reflexivity.
Qed.

Lemma server_close_waits_for_the_timer_witness :
  step clientHooks 0 OpTransportClose (openClientConn, subscribedClient) =
    (Ret tt,
     (set_connected false openClientConn,
      set_reconnectTimeout true (set_isFullyConnected false subscribedClient)), []) /\
  run (defaultHooks unit) [(0, OpTransportClose); (5000, OpCloseTimer)] openServer =
    ((set_closingTimer false
        (set_closingTimer true (set_closingTimer false (set_connected false openServerConn))),
      tt), []).
Proof.
  split.
  - exact (proj1 (server_close_waits_for_the_timer clientHooks 0 1 2 true
                    openClientConn subscribedClient) eq_refl).
  - exact (proj1 (proj2 (proj2 (server_close_waits_for_the_timer (defaultHooks unit)
                                  0 5000 2 true openServerConn tt) eq_refl))).
Defined.


(** X10. For the first delivery of a route message with an id on an open
    connection, onRouteMessage is called once; when its promise is fulfilled
    the response sent is 200 with OK for no result, 200 with the data (or OK
    when there is none) for a result without error, and 400 with the error
    otherwise. If the promise is rejected nothing is sent, then or on later
    deliveries of the same id. *)
Theorem route_handler_result_is_the_response {Env} (hooks : Hooks Env) now now' id m s :
  id <> -1 ->
  getReceivedPairById id (fst s) = None ->
  connected (fst s) = true ->
  let w := {| wid := id; wmsg := Route m |} in
  let p := length (promises (fst s)) in
  let r1 := handleMessage hooks now w s in
  let reply resp := EvSend {| wid := -1; wmsg := Res resp |} in
  events_of r1 = [EvDispatch w; EvRouteMessage id m] /\
  events_of (settleRouteMessage now' p (HResolved None) (fst (state_of r1))) =
    [reply {| target := id; status := 200; res_data := PStr "OK" |}] /\
  (forall data err,
     match err with Some e => truthy e = false | None => True end ->
     events_of (settleRouteMessage now' p
                  (HResolved (Some {| rr_data := data; rr_error := err |}))
                  (fst (state_of r1))) =
       [reply {| target := id; status := 200;
                 res_data := match data with PUndefined => PStr "OK" | _ => data end |}]) /\
  (forall data e,
     truthy e = true ->
     events_of (settleRouteMessage now' p
                  (HResolved (Some {| rr_data := data; rr_error := Some e |}))
                  (fst (state_of r1))) =
       [reply {| target := id; status := 400; res_data := e |}]) /\
  (let c2 := state_of (settleRouteMessage now' p HRejected (fst (state_of r1))) in
   events_of (settleRouteMessage now' p HRejected (fst (state_of r1))) = [] /\
   forall now'', events_of (handleMessage hooks now'' w (c2, snd (state_of r1))) = []).
Proof.
  intros Hid Hnone Hc. cbv zeta.
  rewrite (handleMessage_route hooks now id m s Hid Hnone).
  unfold events_of at 1, state_of. cbn [fst snd].
  split; [reflexivity|].
  assert (forall resp,
    events_of (settleRouteMessage now' (length (promises (fst s))) (HResolved resp)
      (recordReceived {| wid := id; wmsg := Route m |} (Promised (length (promises (fst s))))
         (set_promises (promises (fst s) ++ [PPending id 1]) (fst s)))) =
    [EvSend {| wid := -1; wmsg := Res (routeReply id resp) |}]) as Hsettle.
  { intros resp. unfold settleRouteMessage. rewrite mbind_run. cbn [get].
    cbn [promises recordReceived set_receivedMessages set_promises].
    rewrite lookup_app_r by lia. rewrite Nat.sub_diag. cbn [lookup list_lookup].
    rewrite mbind_run. cbn [modify replicate forEach]. rewrite mbind_run.
    rewrite postAndForgetMsg_spec. cbn. rewrite Hc. reflexivity. }
  split; [apply Hsettle|]. split; [|split; [|split]].
  - intros data err Herr. rewrite Hsettle. unfold routeReply, noError. cbn [rr_error rr_data].
    destruct err as [e|]; [rewrite Herr|]; reflexivity.
  - intros data e He. rewrite Hsettle. unfold routeReply, noError. cbn [rr_error].
    rewrite He. reflexivity.
  - unfold settleRouteMessage. munfold.
    cbn [promises recordReceived set_receivedMessages set_promises].
    rewrite lookup_app_r by lia. rewrite Nat.sub_diag. reflexivity.
  - intros now''. unfold settleRouteMessage. munfold.
    cbn [promises recordReceived set_receivedMessages set_promises].
    rewrite lookup_app_r by lia. rewrite Nat.sub_diag. cbn [lookup list_lookup fst snd].
    set (c2 := set_promises _ _).
    assert (getReceivedPairById id c2 =
            Some {| wrapper := {| wid := id; wmsg := Route m |};
                    response := {| _original := Promised (length (promises (fst s))) |} |})
      as Hrec.
    { unfold c2.
      transitivity (getReceivedPairById id
                (recordReceived {| wid := id; wmsg := Route m |}
                   (Promised (length (promises (fst s))))
                   (set_promises (promises (fst s) ++ [PPending id 1]) (fst s))));
        [reflexivity|].
      rewrite getReceivedPairById_push. cbn [wid]. rewrite Z.eqb_refl. reflexivity. }
    rewrite (handleMessage_duplicate hooks now'' {| wid := id; wmsg := Route m |}
               (c2, snd s) _ Hid Hrec).
    assert (promises c2 !! length (promises (fst s)) = Some PRejected) as Hp.
    { unfold c2. cbn. rewrite insert_app_r_alt by lia. rewrite Nat.sub_diag. cbn.
      rewrite lookup_app_r by lia. rewrite Nat.sub_diag. reflexivity. }
    unfold isPending, getOriginal. cbn [response _original fst]. rewrite Hp.
    unfold onFst, postAndForget. munfold. cbn [fst]. rewrite Hp. reflexivity.
Qed.

Lemma route_handler_result_is_the_response_witness :
  events_of (handleMessage (defaultHooks unit) 0 routeEnvelope openServer) =
    [EvDispatch routeEnvelope;
     EvRouteMessage 42 {| verb := "POST"; route := "/x/7"; route_data := PObj [];
                          headers := None |}] /\
  events_of (settleRouteMessage 1 0 (HResolved None)
               (fst (state_of (handleMessage (defaultHooks unit) 0 routeEnvelope openServer)))) =
    [EvSend {| wid := -1;
               wmsg := Res {| target := 42; status := 200; res_data := PStr "OK" |} |}].
Proof.
  pose proof (route_handler_result_is_the_response (defaultHooks unit) 0 1 42
                {| verb := "POST"; route := "/x/7"; route_data := PObj []; headers := None |}
                openServer ltac:(discriminate) eq_refl eq_refl) as H.
  exact (conj (proj1 H) (proj1 (proj2 H))).
Defined.

(** ** The secret handshake *)

Lemma setSocket_client {Env} now isOpen (s : Connection * Env) :
  isClient (fst s) = true ->
  let c1 := set_closingTimer false (set_connected isOpen (fst s)) in
  let msg := msg_ConnDataSet "secret" (default PUndefined (header (fst s) !! "secret")) in
  setSocket now isOpen s =
  (Ret tt,
   (set_callbacks (<[nextMsgId (fst s) := CbHandshake]> (callbacks (posted now msg c1)))
      (posted now msg c1), snd s),
   if isOpen then [EvSend (new_MsgWrapper (nextMsgId (fst s)) msg)] else []).
Proof.
  intros Hclient. cbv zeta. unfold setSocket, clearClosingTimer.
  rewrite mbind_run. unfold updateConn at 1, onFst at 1, modify at 1. cbn [fst snd].
  rewrite mbind_run. unfold updateConn at 1, onFst at 1, modify at 1. cbn [fst snd app].
  rewrite mbind_run. cbn [get fst snd isClient set_closingTimer set_connected].
  rewrite Hclient. rewrite mbind_run. unfold onFst at 1. cbn [fst snd header set_closingTimer set_connected].
  rewrite postAndExpectResponse_posted by reflexivity.
  unfold updateConn, onFst, modify. cbn. rewrite app_nil_r. reflexivity.
Qed.

Lemma handleMessage_set {Env} (hooks : Hooks Env) now id key value s :
  id <> -1 -> getReceivedPairById id (fst s) = None ->
  let w := {| wid := id; wmsg := MsgDataSet key value |} in
  let c1 := set_header (<[key := value]> (header (fst s))) (fst s) in
  handleMessage hooks now w s =
  match onDataSet hooks c1 (key, value) (snd s) with
  | (Ret _, env') =>
      (Ret tt,
       (recordReceived w (Immediate (new_MsgResponseOK id (PArr [PStr key; value]))) c1, env'),
       EvDispatch w ::
         (if connected (fst s)
          then [EvSend {| wid := -1;
                          wmsg := Res (new_MsgResponseOK id (PArr [PStr key; value])) |}]
          else []))
  | (Throw _, env') =>
      (Ret tt,
       (recordReceived w (noResponse id) c1, env'),
       EvDispatch w ::
         (if connected (fst s)
          then [EvSend {| wid := -1;
                          wmsg := Res (new_MsgGenericError id "Error handling message") |}]
          else []))
  end.
Proof.
  intros Hid Hnone. cbv zeta.
  rewrite (handleMessage_first hooks now _ s) by assumption.
  cbn [wid wmsg dispatch]. unfold handleDataSet. munfold. cbn [fst snd].
  destruct (onDataSet hooks _ (key, value) (snd s)) as [[[]|e] env']; cbn [fst snd].
  - cbv zeta. cbn [default from_option]. unfold Datatypes.id. cbn [postAndForget].
    rewrite postAndForgetMsg_spec. cbn. rewrite ?app_nil_r. reflexivity.
  - rewrite postAndForgetMsg_spec. cbn. rewrite ?app_nil_r. reflexivity.
Qed.

Lemma runCallback_handshake {Env} (hooks : Hooks Env) key v (s : Connection * Env) :
  runCallback hooks CbHandshake (new_RouteResponse (PArr [PStr key; v])) s =
  let c' := set_header (<[key := v]> (header (fst s))) (fst s) in
  (Ret tt,
   (c', if truthy (default PUndefined (header c' !! "secret"))
        then onClientConnect hooks (snd s) else snd s), []).
Proof.
  unfold runCallback. munfold. cbn.
  destruct (truthy _); reflexivity.
Qed.

(** X11. A client given a connecting socket queues a set message with its
    secret and sends it when the socket opens. The server stores the secret,
    enters the connection in the router's directory under it and answers 200
    with the pair [key, value]; when the client processes that answer it calls
    onClientConnect and the handshake callback is removed. *)
Theorem secret_handshake_registers_the_client {EnvC} (hooksC : Hooks EnvC) (self : ConnRef)
    now secret (c : Connection) (envC : EnvC) (sc : Connection) (R : Router) :
  isClient c = true ->
  header c !! "secret" = Some (PStr secret) ->
  secret <> "" ->
  0 <= nextMsgId c ->
  messagesToSendAfterReconnect c = [] ->
  connected sc = true ->
  getReceivedPairById (nextMsgId c) sc = None ->
  let id := nextMsgId c in
  let hello := {| wid := id; wmsg := MsgDataSet "secret" (PStr secret) |} in
  let welcome :=
    {| wid := -1;
       wmsg := Res {| target := id; status := 200;
                      res_data := PArr [PStr "secret"; PStr secret] |} |} in
  let rC1 := run hooksC [(now, OpSetSocket false); (now, OpSocketOpen)] (c, envC) in
  let rS := handleMessage (routerHooks self) now hello (sc, R) in
  let rC2 := handleMessage hooksC now welcome (fst rC1) in
  snd rC1 = [EvSend hello] /\
  events_of rS = [EvDispatch hello; EvSend welcome] /\
  connections (snd (state_of rS)) = <[secret := self]> (connections R) /\
  outRoutes (snd (state_of rS)) = outRoutes R /\
  getSecret (fst (state_of rS)) = PStr secret /\
  getSecret (fst (state_of rC2)) = PStr secret /\
  snd (state_of rC2) = onClientConnect hooksC envC /\
  callbacks (fst (state_of rC2)) !! id = None.
Proof.
  intros Hclient Hsecret Hne Hpos Hqueue Hconn Hnew. cbv zeta.
  assert (String.eqb secret "" = false) as Hneb by (apply String.eqb_neq; exact Hne).
  assert (exists c1,
            run hooksC [(now, OpSetSocket false); (now, OpSocketOpen)] (c, envC) =
              ((c1, envC),
               [EvSend {| wid := nextMsgId c; wmsg := MsgDataSet "secret" (PStr secret) |}]) /\
            callbacks c1 !! nextMsgId c = Some CbHandshake) as (c1 & Hrun & Hcb).
  { cbn [run step].
    rewrite (setSocket_client now false (c, envC) Hclient). cbv zeta.
    cbn [fst snd]. rewrite Hsecret. cbn [default from_option]. unfold Datatypes.id.
    unfold posted. cbn [connected set_closingTimer set_connected
      messagesToSendAfterReconnect nextMsgId]. rewrite Hqueue. cbn [app].
    unfold socketOpened. rewrite mbind_run. unfold updateConn, onFst at 1, modify.
    cbn [fst snd]. unfold onFst. cbn [fst snd].
    rewrite sendMessagesFromLaterList_open by reflexivity.
    cbn [messagesToSendAfterReconnect set_connected set_callbacks
         set_messagesToSendAfterReconnect set_nextMsgId foldl fmap list_fmap app].
    eexists. split; [reflexivity|].
    cbn [callbacks set_messagesToSendAfterReconnect].
    rewrite recordSent_callbacks. cbn. apply lookup_insert_eq. }
  rewrite Hrun. cbn [fst snd].
  rewrite (handleMessage_set (routerHooks self) now (nextMsgId c) "secret" (PStr secret)
             (sc, R)) by (assumption || lia).
  cbv zeta. cbn [fst snd onDataSet routerHooks String.eqb Ascii.eqb Bool.eqb toPropertyKey].
  rewrite Hconn. unfold events_of, state_of. cbn [fst snd].
  split; [reflexivity|]. split; [reflexivity|]. split; [reflexivity|].
  split; [reflexivity|]. split.
  { unfold getSecret, recordReceived. cbn [header set_receivedMessages set_header].
    rewrite lookup_insert_eq. cbn [truthy]. rewrite Hneb. reflexivity. }
  rewrite (handleMessage_forget hooksC now _ (c1, envC)) by reflexivity.
  cbn [wid wmsg dispatch]. rewrite mbind_run, handleResponse_spec.
  cbn [status target fst snd Z.eqb Pos.eqb]. rewrite Hcb.
  unfold translated. cbn [status Z.eqb Pos.eqb res_data].
  rewrite runCallback_handshake. cbv zeta. cbn [fst snd header set_header].
  rewrite lookup_insert_eq. cbn [default from_option truthy]. unfold Datatypes.id.
  assert (truthy (PStr secret) = true) as Ht by (cbn; rewrite Hneb; reflexivity).
  rewrite Ht. rewrite removeMessageToAck_spec. unfold ret, state_of. cbn [fst snd app].
  split; [|split].
  - unfold getSecret.
    destruct (findLastIndex _ _); cbn; rewrite lookup_insert_eq; cbn; rewrite Hneb; reflexivity.
  - reflexivity.
  - destruct (findLastIndex _ _); cbn; apply lookup_delete_eq.
Qed.

Lemma secret_handshake_registers_the_client_witness :
  let hello := {| wid := 0; wmsg := MsgDataSet "secret" (PStr "5ec2e7") |} in
  let welcome :=
    {| wid := -1;
       wmsg := Res {| target := 0; status := 200;
                      res_data := PArr [PStr "secret"; PStr "5ec2e7"] |} |} in
  let rC1 := run clientHooks [(0, OpSetSocket false); (0, OpSocketOpen)]
               (closedClientConn, subscribedClient) in
  let rS := handleMessage (routerHooks 0%nat) 0 hello (openServerConn, newRouter) in
  snd rC1 = [EvSend hello] /\
  events_of rS = [EvDispatch hello; EvSend welcome] /\
  connections (snd (state_of rS)) = <["5ec2e7" := 0%nat]> (connections newRouter) /\
  isFullyConnected (snd (state_of (handleMessage clientHooks 0 welcome (fst rC1)))) = true.
Proof.
  pose proof (secret_handshake_registers_the_client clientHooks 0%nat 0 "5ec2e7"
                closedClientConn subscribedClient openServerConn newRouter
                eq_refl eq_refl ltac:(discriminate) (Z.le_refl 0) eq_refl eq_refl eq_refl) as H.
  cbv zeta in H. cbv zeta.
  destruct H as (H1 & H2 & H3 & _ & _ & _ & H7 & _).
  split; [exact H1|]. split; [exact H2|]. split; [exact H3|].
  exact (f_equal isFullyConnected H7).
Defined.

(** ** Subscriptions of a registered connection, new sockets *)

(** X12. For an open connection whose secret is in the router's directory, the
    first delivery of an on message with an id appends a listener with the
    captured parameter values to every outbound layer that accepts the path
    and is answered 200 OK, also when no layer accepts the path, which leaves
    the router unchanged; such an off message removes every listener of the
    connection from every layer that accepts the path and is answered 200 OK. *)
Theorem subscription_of_registered_connection (self : ConnRef) now id r c R ref :
  id <> -1 ->
  getReceivedPairById id c = None ->
  connected c = true ->
  connections R !! toPropertyKey (getSecret c) = Some ref ->
  let key := toPropertyKey (getSecret c) in
  let ok := EvSend {| wid := -1;
                      wmsg := Res {| target := id; status := 200; res_data := PStr "OK" |} |} in
  let on := {| wid := id; wmsg := MsgSubscribeToRoute r |} in
  let off := {| wid := id; wmsg := MsgUnsubscribeFromRoute r |} in
  (let res := handleMessage (routerHooks self) now on (c, R) in
   events_of res = [EvDispatch on; ok] /\
   connections (snd (state_of res)) = connections R /\
   outRoutes (snd (state_of res)) = subscribed r key <$> outRoutes R /\
   (Forall (fun layer => matchPath layer r = None) (outRoutes R) ->
    snd (state_of res) = R)) /\
  (let res := handleMessage (routerHooks self) now off (c, R) in
   events_of res = [EvDispatch off; ok] /\
   connections (snd (state_of res)) = connections R /\
   outRoutes (snd (state_of res)) = unsubscribed r key <$> outRoutes R).
Proof.
  intros Hid Hnone Hc Hdir. cbv zeta. split.
  - rewrite (handleMessage_on (routerHooks self) now id r (c, R)) by assumption.
    cbv zeta. cbn [fst snd onSubscribeToRoute routerHooks].
    unfold subscribeConnectionToRoute.
    rewrite (readConnection_registered R _ ref Hdir), Hc.
    unfold events_of, state_of. cbn [fst snd].
    split; [reflexivity|]. split; [reflexivity|]. split; [reflexivity|].
    intros Hnone'. destruct R as [n cs rs]. unfold set_outRoutes. cbn in *. f_equal.
    induction Hnone' as [|layer rs Hl _ IH]; [reflexivity|].
    cbn. rewrite Hl. f_equal. exact IH.
  - rewrite (handleMessage_off (routerHooks self) now id r (c, R)) by assumption.
    cbv zeta. cbn [fst snd onUnsubscribeFromRoute routerHooks].
    unfold unsubsctibeConnectionFromRoute.
    rewrite (readConnection_registered R _ ref Hdir), Hc.
    unfold events_of, state_of. cbn [fst snd].
    split; [reflexivity|]. split; reflexivity.
Qed.

Lemma subscription_of_registered_connection_witness :
  let on := {| wid := 1; wmsg := MsgSubscribeToRoute "/t/2" |} in
  let res := handleMessage (routerHooks 0%nat) 5 on (fst afterHandshake, routerWithListener) in
  events_of res =
    [EvDispatch on;
     EvSend {| wid := -1;
               wmsg := Res {| target := 1; status := 200; res_data := PStr "OK" |} |}] /\
  outRoutes (snd (state_of res)) =
    [threadLayer [{| conn := "5ec2e7"; params := ["1"] |};
                  {| conn := "5ec2e7"; params := ["2"] |}]].
Proof.
  pose proof (subscription_of_registered_connection 0%nat 5 1 "/t/2" (fst afterHandshake)
                routerWithListener 0%nat ltac:(discriminate) eq_refl eq_refl eq_refl) as H.
  cbv zeta in H. cbv zeta. destruct H as ((H1 & _ & H3 & _) & _).
  split; [exact H1|]. rewrite H3. reflexivity.
Defined.

Lemma setSocket_server {Env} now isOpen (s : Connection * Env) :
  isClient (fst s) = false ->
  setSocket now isOpen s =
  (Ret tt, (set_closingTimer false (set_connected isOpen (fst s)), snd s), []).
Proof.
  intros Hc. unfold setSocket, clearClosingTimer. munfold. cbn [fst snd isClient
    set_closingTimer set_connected]. rewrite Hc. reflexivity.
Qed.

(** X13. addSocket with a non-empty secret that is in the directory gives the
    socket to the connection object registered under it and changes nothing
    else. With a secret that is not in the directory but names a property of
    Object.prototype (other than __proto__, which not every runtime defines),
    the read of the directory gives that value, the call of setSocket on it is
    a TypeError and nothing changes. Without a secret, with
    an empty one or with one that is neither in the directory nor such a name
    it creates a new server connection on the socket, with an empty secret, at
    a fresh place. *)
Theorem addSocket_reuses_or_creates now isOpen reconnectSecret w :
  (forall s ref c,
     reconnectSecret = Some s -> s <> "" ->
     connections (router w) !! s = Some ref ->
     heap w !! ref = Some c -> isClient c = false ->
     addSocket now isOpen reconnectSecret w =
     (Ret tt,
      set_heap (<[ref := set_closingTimer false (set_connected isOpen c)]> (heap w)) w, [])) /\
  (forall s,
     reconnectSecret = Some s ->
     connections (router w) !! s = None ->
     s ∈ objectPrototypeNames -> s <> "__proto__" ->
     addSocket now isOpen reconnectSecret w = (Throw "TypeError", w, [])) /\
  ((reconnectSecret = None \/ reconnectSecret = Some "" \/
    exists s, reconnectSecret = Some s /\ connections (router w) !! s = None /\
              s ∉ objectPrototypeNames) ->
   let ref := fresh (dom (heap w)) in
   heap w !! ref = None /\
   addSocket now isOpen reconnectSecret w =
   (Ret tt,
    set_heap (<[ref := set_closingTimer false (set_connected isOpen (newConnection "" false))]>
                (heap w)) w, [])).
Proof.
  split; [|split].
  - intros s ref c -> Hne Hdir Hheap Hserver.
    unfold addSocket. rewrite mbind_run. cbn [get].
    apply String.eqb_neq in Hne.
    rewrite Hne, (readConnection_registered (router w) s ref Hdir).
    unfold onServerConn. rewrite Hheap.
    rewrite (setSocket_server now isOpen (c, router w) Hserver). cbn [fst snd].
    destruct w as [R h rs]. reflexivity.
  - intros s -> Hdir Hname _.
    assert (String.eqb s "" = false) as Hne.
    { apply String.eqb_neq. intros ->. revert Hname.
      apply (bool_decide_eq_false_1 ("" ∈ objectPrototypeNames)). reflexivity. }
    unfold addSocket. rewrite mbind_run. cbn [get].
    rewrite Hne, (readConnection_inherited (router w) s Hdir Hname). reflexivity.
  - intros Hnew. cbv zeta.
    assert (heap w !! fresh (dom (heap w)) = None) as Hfresh.
    { apply not_elem_of_dom. apply is_fresh. }
    split; [exact Hfresh|].
    unfold addSocket. rewrite mbind_run. cbn [get].
    assert (match reconnectSecret with
            | Some s => if String.eqb s "" then None else readConnection (router w) s
            | None => None
            end = None) as ->.
    { destruct Hnew as [->|[->|(s & -> & Hs & Hname)]]; [reflexivity|reflexivity|].
      destruct (String.eqb s ""); [reflexivity|].
      apply readConnection_undefined; assumption. }
    rewrite mbind_run. cbn [modify]. unfold onServerConn.
    cbn [heap set_heap router]. rewrite lookup_insert_eq.
    rewrite (setSocket_server now isOpen (newConnection "" false, router w) eq_refl).
    cbn [fst snd]. rewrite insert_insert_eq. destruct w as [R h rs]. reflexivity.
Qed.

Lemma addSocket_reuses_or_creates_witness :
  addSocket 0 true (Some "5ec2e7") worldOptional =
    (Ret tt,
     set_heap (<[0%nat := set_closingTimer false (set_connected true openServerConn)]>
                 (heap worldOptional)) worldOptional, []) /\
  addSocket 0 true (Some "toString") worldOptional = (Throw "TypeError", worldOptional, []) /\
  heap worldOptional !! fresh (dom (heap worldOptional)) = None.
Proof.
  split; [|split].
  - exact (proj1 (addSocket_reuses_or_creates 0 true (Some "5ec2e7") worldOptional)
             "5ec2e7" 0%nat openServerConn eq_refl ltac:(discriminate) eq_refl eq_refl eq_refl).
  - exact (proj1 (proj2 (addSocket_reuses_or_creates 0 true (Some "toString") worldOptional))
             "toString" eq_refl eq_refl
             (bool_decide_eq_true_1 ("toString" ∈ objectPrototypeNames) eq_refl)
             ltac:(discriminate)).
  - exact (proj1 (proj2 (proj2 (addSocket_reuses_or_creates 0 true None worldOptional))
                    (or_introl eq_refl))).
Defined.

(** ** The connection a broadcast leaves out *)

Lemma sendToRouteCalls_nil_not evs x :
  sendToRouteCalls evs = [] -> Forall (fun e => e <> EvSendToRoute x) evs.
Proof.
  unfold sendToRouteCalls. induction evs as [|e evs IH]; intros H; [constructor|].
  destruct e; cbn in H; try discriminate; constructor; try discriminate; auto.
Qed.

Lemma callSendToRoute_not now target r v payload x :
  target <> Some (Registered x) ->
  sat (noReactionFor x) (fun e => e <> EvSendToRoute x) (callSendToRoute now target r v payload).
Proof.
  intros Hne w Hw. destruct target as [[ref|name]|].
  - destruct (callSendToRoute_some now ref r v payload w) as (w' & ev & Hcall & _ & Hx & Hev).
    rewrite Hcall. unfold state_of, events_of. cbn [fst snd]. split.
    + unfold noReactionFor. rewrite Hx. exact Hw.
    + constructor; [congruence | apply sendToRouteCalls_nil_not, Hev].
  - cbn. split; [exact Hw | constructor].
  - cbn. split; [exact Hw | constructor].
Qed.

Lemma broadcastToListener_not now route verb payload x r matched l :
  sat (noReactionFor x) (fun e => e <> EvSendToRoute x)
    (broadcastToListener now route verb payload (Some x) r matched l).
Proof.
  intros w Hw.
  pose proof (broadcastToListener_spec now route verb payload (Some x) r matched l w) as Hl.
  unfold selected in Hl.
  destruct (bool_decide (readConnection (router w) (conn l) ≠ Registered <$> Some x)) eqn:Hd;
    cbn in Hl.
  - apply bool_decide_eq_true in Hd.
    destruct (paramsMatch (params l) (objectValues matched)); cbn in Hl.
    + destruct (validate r (readConnection (router w) (conn l)) matched) as [[|]|v].
      * rewrite Hl.
        destruct (callSendToRoute_not now _ route verb payload x Hd w Hw) as [H1 H2].
        unfold state_of, events_of in *.
        destruct (callSendToRoute now _ route verb payload w) as [[o w'] ev]. auto.
      * rewrite Hl. split; [exact Hw | constructor].
      * rewrite Hl. unfold state_of, events_of. cbn [fst snd]. split; [|constructor].
        unfold noReactionFor. cbn. apply Forall_app. split; [exact Hw|].
        repeat constructor. exact Hd.
    + rewrite Hl. split; [exact Hw | constructor].
  - rewrite Hl. split; [exact Hw | constructor].
Qed.

Lemma internalBroadcast_not now route action payload x :
  sat (noReactionFor x) (fun e => e <> EvSendToRoute x)
    (internalBroadcast now route action payload (Some x)).
Proof.
  unfold internalBroadcast. apply sat_mbind; [apply sat_get|]. intros w0.
  apply sat_forEach. intros r. destruct (matchPath r route) as [matched|]; [|apply sat_ret].
  apply sat_forEach. intros l. apply broadcastToListener_not.
Qed.

Lemma runReactions_not now x w :
  noReactionFor x w ->
  Forall (fun e => e <> EvSendToRoute x) (events_of (runReactions now w)).
Proof.
  intros Hw. unfold runReactions. rewrite mbind_run. cbn [get]. rewrite mbind_run. cbn [modify].
  assert (sat (fun _ : World => True) (fun e => e <> EvSendToRoute x)
            (forEach (reactions w)
               (fun rc =>
                  match rc_isValid rc with
                  | Some true =>
                      tryCatch
                        (callSendToRoute now (rc_conn rc) (rc_route rc) (rc_verb rc)
                           (rc_payload rc))
                        (fun _ => ret tt)
                  | _ => ret tt
                  end))) as Hsat.
  { unfold noReactionFor in Hw. induction Hw as [|rc rcs Hrc _ IH]; [apply sat_ret|].
    cbn [forEach]. apply sat_mbind; [|intros _; exact IH].
    destruct (rc_isValid rc) as [[|]|]; try apply sat_ret.
    apply sat_tryCatch; [|intros _; apply sat_ret].
    intros w' _. destruct (callSendToRoute_not now _ (rc_route rc) (rc_verb rc)
                             (rc_payload rc) x Hrc (set_reactions [] w')) as [_ H].
    { constructor. }
    split; [exact I|].
    destruct (rc_conn rc) as [[ref|name]|].
    - destruct (callSendToRoute_some now ref (rc_route rc) (rc_verb rc) (rc_payload rc) w')
        as (w2 & ev & Hcall & _ & _ & Hev).
      rewrite Hcall. unfold events_of. cbn [snd].
      constructor; [congruence | apply sendToRouteCalls_nil_not, Hev].
    - constructor.
    - constructor. }
  destruct (Hsat (set_reactions [] w) I) as [_ H]. unfold events_of in *.
  destruct (forEach _ _ (set_reactions [] w)) as [[o w'] ev]. cbn in *. exact H.
Qed.

(** X14. Called while no validator promise of an earlier broadcast is pending,
    broadcastPost, broadcastDeletion and broadcastUpdate never call
    sendToRoute on the connection given as exceptConn: not during the call and
    not later, when the promises of the validators are fulfilled. *)
Theorem broadcast_never_reaches_excepted_connection now now' route payload x w :
  reactions w = [] ->
  skips x now' (broadcastPost now route payload (Some x) w) /\
  skips x now' (broadcastDeletion now route payload (Some x) w) /\
  skips x now' (broadcastUpdate now route payload (Some x) w).
Proof.
  intros Hnone.
  assert (noReactionFor x w) as Hw by (unfold noReactionFor; rewrite Hnone; constructor).
  assert (forall action, skips x now' (internalBroadcast now route action payload (Some x) w))
    as H.
  { intros action.
    destruct (internalBroadcast_not now route action payload x w Hw) as [H1 H2].
    split; [exact H2 | apply runReactions_not; exact H1]. }
  repeat split; apply H.
Qed.

Lemma broadcast_never_reaches_excepted_connection_witness :
  reactions worldTwoListeners = [] /\
  (let all := broadcastPost 7 "/t/1" (PStr "hi") None worldTwoListeners in
   let others := broadcastPost 7 "/t/1" (PStr "hi") (Some 1%nat) worldTwoListeners in
   sendToRouteCalls (events_of all) = [0%nat; 1%nat] /\
   outcome_of others = Ret tt /\
   sendToRouteCalls (events_of others) = [0%nat] /\
   Forall (fun e => e <> EvSendToRoute 1%nat) (events_of others)) /\
  (let all := broadcastUpdate 7 "/t/1" (PStr "hi") None worldTwoListenersLater in
   let others := broadcastUpdate 7 "/t/1" (PStr "hi") (Some 1%nat) worldTwoListenersLater in
   sendToRouteCalls (events_of (runReactions 8 (state_of all))) = [0%nat; 1%nat] /\
   sendToRouteCalls (events_of (runReactions 8 (state_of others))) = [0%nat] /\
   Forall (fun e => e <> EvSendToRoute 1%nat) (events_of (runReactions 8 (state_of others)))).
Proof.
  split; [reflexivity|]. cbv zeta. split.
  - split; [vm_compute; reflexivity|]. split; [vm_compute; reflexivity|].
    split; [vm_compute; reflexivity|].
    exact (proj1 (proj1 (broadcast_never_reaches_excepted_connection 7 8 "/t/1" (PStr "hi")
                           1%nat worldTwoListeners eq_refl))).
  - split; [vm_compute; reflexivity|]. split; [vm_compute; reflexivity|].
    exact (proj2 (proj2 (proj2 (broadcast_never_reaches_excepted_connection 7 8 "/t/1"
                                  (PStr "hi") 1%nat worldTwoListenersLater eq_refl)))).
Defined.

(** ** Message ids *)

Lemma sat_get_bind {St B} (P : St -> Prop) Q (k : St -> M St B) :
  (forall s0, P s0 -> sat P Q (k s0)) -> sat P Q (get ≫= k).
Proof.
  intros H s Hs. specialize (H s Hs s Hs). rewrite mbind_run. cbn [get].
  unfold state_of, events_of in *. destruct (k s s) as [[o s2] e2]. exact H.
Qed.

Lemma sat_forEach_in {St A} (P : St -> Prop) Q (l : list A) (f : A -> M St unit) :
  (forall x, x ∈ l -> sat P Q (f x)) -> sat P Q (forEach l f).
Proof.
  induction l as [|x l IH]; intros Hf; cbn [forEach]; [apply sat_ret|].
  apply sat_mbind; [apply Hf; left|]. intros _. apply IH.
  intros y Hy. apply Hf. right. exact Hy.
Qed.

Ltac sat_case :=
  match goal with
  | |- sat _ _ (match ?x with _ => _ end) => destruct x eqn:?
  | |- sat _ _ (if ?x then _ else _) => destruct x eqn:?
  end.

Ltac sat_walk known tac :=
  repeat first
    [ known
    | apply sat_ret | apply sat_mret | apply sat_throw | apply sat_get
    | apply sat_emit; solve [tac]
    | apply sat_modify; solve [tac]
    | apply sat_updateConn; solve [tac]
    | apply sat_callHook
    | apply sat_onFst
    | apply sat_get_bind; intros ? ?
    | apply sat_mbind; [|intros ?]
    | apply sat_tryCatch; [|intros ?]
    | apply sat_forEach_in; intros ? ?
    | sat_case ].


Section Ids.
Variable N : Z.
Let Q : Event -> Prop := fun _ => True.

Local Ltac ids :=
  intros; unfold idsWithin in *; cbn in *; intuition eauto.

Lemma idsWithin_sendWrappedMsg now w sentIdx :
  (messageNeedsAck w = true -> wid w < N) ->
  sat (idsWithin N) Q (sendWrappedMsg now w sentIdx).
Proof.
  intros Hw. unfold sendWrappedMsg, strategy_send.
  sat_walk ltac:(idtac; fail) ltac:(first [exact I | ids]).
  - apply sat_modify. ids. apply Forall_insert; [assumption|]. cbn.
    match goal with H : Forall _ (messagesToAck ?c), H' : messagesToAck ?c !! _ = Some _ |- _ =>
      exact (proj1 (Forall_lookup _ _) H _ _ H') end.
  - apply sat_modify. ids. apply Forall_app. split; [assumption|]. repeat constructor. cbn. auto.
Qed.

Local Ltac leaf := first [ exact I | ids ].

Local Ltac known :=
  idtac;
  match goal with
  | |- sat _ _ (sendWrappedMsg _ _ _) => apply idsWithin_sendWrappedMsg; cbn
  end.

Local Ltac walk := sat_walk ltac:(idtac; known) ltac:(leaf).

Lemma idsWithin_sendToRouteAndForget now r v payload hs :
  sat (idsWithin N) Q (sendToRouteAndForget now r v payload hs).
Proof.
  unfold sendToRouteAndForget, postAndForgetMsg. walk. discriminate.
Qed.

Lemma idsWithin_sendMessagesFromLaterList now :
  sat (idsWithin N) Q (sendMessagesFromLaterList now).
Proof.
  unfold sendMessagesFromLaterList. walk. intros _.
  match goal with H : idsWithin N ?c, H' : _ ∈ messagesToSendAfterReconnect ?c |- _ =>
    destruct H as (_ & _ & Hq & _); rewrite Forall_forall in Hq; exact (Hq _ H') end.
Qed.

Lemma idsWithin_retryTick now : sat (idsWithin N) Q (retryTick now).
Proof.
  unfold retryTick. walk. intros _.
  match goal with H : idsWithin N ?c, H' : messagesToAck ?c !! _ = Some _ |- _ =>
    destruct H as (_ & Ha & _); exact (proj1 (Forall_lookup _ _) Ha _ _ H') end.
Qed.

Lemma idsWithin_rateReset : sat (idsWithin N) Q rateReset.
Proof. unfold rateReset. walk. Qed.

Lemma idsWithin_settleRouteMessage now p result :
  sat (idsWithin N) Q (settleRouteMessage now p result).
Proof.
  unfold settleRouteMessage, postAndForgetMsg. walk. discriminate.
Qed.

Context {Env : Type} (hooks : Hooks Env).
Local Abbreviation P' := (fun se : Connection * Env => idsWithin N (fst se)).

Lemma idsWithin_handleMessage now w : sat P' Q (handleMessage hooks now w).
Proof.
  unfold handleMessage, dispatch, handleDataSet, handleRouteSubscription,
    handleRouteUnsubscription, handleRouteMessage, handleResponse, runCallback,
    postAndForget, postAndForgetMsg, removeMessageToAck.
  walk.
  all: try discriminate.
  - apply sat_modify. ids. apply map_Forall_delete. assumption.
  - apply sat_modify. ids. apply Forall_delete. assumption.
Qed.

Lemma idsWithin_lifecycle now op :
  match op with
  | OpTransportOpen | OpTransportClose | OpCloseTimer | OpClose | OpConnect
  | OpSetStrategy | OpSocketOpen | OpPongTimeout _ => True
  | _ => False
  end ->
  sat P' Q (step hooks now op).
Proof.
  destruct op; try contradiction; intros _; cbn [step];
    unfold transportOpened, transportClosed, closeTimerFired, close, connect, setStrategy,
      socketOpened, pongTimeout, close, clearClosingTimer;
    sat_walk ltac:(idtac;
                   match goal with
                   | |- sat _ _ (sendMessagesFromLaterList _) =>
                       apply idsWithin_sendMessagesFromLaterList
                   end) ltac:(leaf).
Qed.

Lemma idsWithin_step_other now op :
  ~ usesPostAndExpectResponse op -> sat P' Q (step hooks now op).
Proof.
  intros Hop. destruct op; try (exfalso; apply Hop; exact I);
    try (apply idsWithin_lifecycle; exact I); cbn [step].
  - apply sat_onFst, idsWithin_sendToRouteAndForget.
  - apply idsWithin_handleMessage.
  - apply sat_onFst, idsWithin_retryTick.
  - apply sat_onFst, idsWithin_rateReset.
  - apply sat_onFst, idsWithin_settleRouteMessage.
Qed.
End Ids.

Lemma idsWithin_posted N now msg c :
  idsWithin N c -> idsWithin (N + 1) (posted now msg c).
Proof.
  intros (Hn & Ha & Hq & Hcb).
  assert (Forall (fun e => wid (wrappedMsg e) < N + 1) (messagesToAck c)) as Ha'
    by (eapply Forall_impl; [exact Ha|]; cbn; intros; lia).
  assert (Forall (fun w => wid w < N + 1) (messagesToSendAfterReconnect c)) as Hq'
    by (eapply Forall_impl; [exact Hq|]; cbn; intros; lia).
  assert (map_Forall (fun k (_ : Callback) => k < N + 1) (callbacks c)) as Hcb'
    by (eapply map_Forall_impl; [exact Hcb|]; cbn; intros; lia).
  unfold posted. destruct (connected c).
  - unfold recordSent. destruct (messageNeedsAck _).
    + cbn [messagesToAck set_nextMsgId wid new_MsgWrapper].
      destruct (findLastIndex _ _) as [i|].
      * destruct (messagesToAck c !! i) as [e|] eqn:He.
        -- repeat split; cbn; try assumption; [lia|].
           apply Forall_insert; [exact Ha'|]. cbn.
           exact (proj1 (Forall_lookup _ _) Ha' _ _ He).
        -- repeat split; cbn; try assumption; lia.
      * repeat split; cbn; try assumption; [lia|].
        apply Forall_app. split; [exact Ha'|]. repeat constructor. cbn. lia.
    + repeat split; cbn; try assumption; lia.
  - repeat split; cbn; try assumption; [lia|].
    apply Forall_app. split; [exact Hq'|]. repeat constructor. cbn. lia.
Qed.

Lemma idsWithin_callback N k cb c :
  k < N -> idsWithin N c -> idsWithin N (set_callbacks (<[k := cb]> (callbacks c)) c).
Proof.
  intros Hk (Hn & Ha & Hq & Hcb). repeat split; cbn; try assumption.
  apply map_Forall_insert_2; assumption.
Qed.

Lemma idsWithin_setter N (f : Connection -> Connection) c :
  nextMsgId (f c) = nextMsgId c -> messagesToAck (f c) = messagesToAck c ->
  messagesToSendAfterReconnect (f c) = messagesToSendAfterReconnect c ->
  callbacks (f c) = callbacks c ->
  idsWithin N c -> idsWithin N (f c).
Proof. intros H1 H2 H3 H4. unfold idsWithin. rewrite H1, H2, H3, H4. auto. Qed.

(** An operation gives out at most one id. *)
Lemma step_idsWithin {Env} (hooks : Hooks Env) now op s :
  idsFresh (fst s) ->
  let c' := fst (state_of (step hooks now op s)) in
  idsWithin (nextMsgId (fst s)) c' \/ idsWithin (nextMsgId (fst s) + 1) c'.
Proof.
  intros Hs. cbv zeta. unfold idsFresh in *.
  set (N := nextMsgId (fst s)) in *.
  destruct op;
    try (left;
         match goal with |- context [step hooks now ?op s] =>
           refine (proj1 (idsWithin_step_other N hooks now op _ s Hs)); cbn; tauto
         end).
  - (* post *)
    cbn [step]. unfold onFst, post. rewrite mbind_run.
    destruct (isRes msg) eqn:Hres.
    + left. unfold postAndExpectResponse. rewrite Hres. cbn. exact Hs.
    + rewrite postAndExpectResponse_posted by exact Hres.
      pose proof (idsWithin_posted N now msg (fst s) Hs) as H1.
      right. destruct callback as [tag|]; cbn.
      * apply idsWithin_callback; [unfold N; lia | exact H1].
      * exact H1.
  - (* sendToRoute *)
    cbn [step]. unfold onFst. rewrite sendToRoute_spec. cbv zeta.
    unfold state_of. cbn [fst snd].
    set (msg := Route _).
    pose proof (idsWithin_posted N now msg (fst s) Hs) as H1.
    right.
    assert (idsWithin (N + 1)
              (set_messagesSentInASecond (messagesSentInASecond (posted now msg (fst s)) + 1)
                 (posted now msg (fst s)))) as H2
      by (apply idsWithin_setter; auto).
    destruct callback as [tag|].
    + apply idsWithin_callback; [unfold N; lia | exact H2].
    + exact H2.
  - (* ping *)
    cbn [step]. rewrite sendPing_spec. unfold state_of. cbn [fst snd].
    right. apply idsWithin_callback; [unfold N; lia|].
    apply idsWithin_posted, Hs.
  - (* setSocket *)
    cbn [step]. destruct (isClient (fst s)) eqn:Hclient.
    + rewrite (setSocket_client now isOpen s Hclient). cbv zeta.
      unfold state_of. cbn [fst snd].
      right. apply idsWithin_callback; [unfold N; lia|].
      apply idsWithin_posted. apply idsWithin_setter; auto.
    + rewrite (setSocket_server now isOpen s Hclient). unfold state_of. cbn [fst snd].
      left. apply idsWithin_setter; auto.
Qed.

Lemma step_idsFresh {Env} (hooks : Hooks Env) now op s :
  idsFresh (fst s) -> idsFresh (fst (state_of (step hooks now op s))).
Proof.
  intros Hs. unfold idsFresh.
  destruct (step_idsWithin hooks now op s Hs) as [H|H]; destruct H as (Hn & H);
    rewrite Hn; split; auto.
Qed.

(** In a run the ids in use stay below [nextMsgId], which grows by at most
    one with each operation. *)
Lemma run_idsFresh {Env} (hooks : Hooks Env) ops : forall s,
  idsFresh (fst s) ->
  let c := fst (fst (run hooks ops s)) in
  idsFresh c /\
  nextMsgId (fst s) <= nextMsgId c <= nextMsgId (fst s) + Z.of_nat (length ops).
Proof.
  induction ops as [|[now op] ops IH]; intros s Hs; cbv zeta.
  - cbn [run fst length]. split; [exact Hs | lia].
  - cbn [run length].
    pose proof (step_idsFresh hooks now op s Hs) as Hfresh.
    pose proof (step_idsWithin hooks now op s Hs) as Hnext. cbv zeta in Hnext.
    unfold state_of in Hfresh, Hnext.
    destruct (step hooks now op s) as [[o s1] e1]. cbn [fst snd] in Hfresh, Hnext.
    specialize (IH s1 Hfresh). cbv zeta in IH.
    destruct (run hooks ops s1) as [s2 e2]. cbn [fst] in IH |- *.
    destruct IH as [IH1 IH2]. split; [exact IH1|].
    assert (nextMsgId (fst s1) = nextMsgId (fst s) \/
            nextMsgId (fst s1) = nextMsgId (fst s) + 1) as [Hn|Hn]
      by (destruct Hnext as [(Hn & _)|(Hn & _)]; auto).
    + lia.
    + lia.
Qed.

(** X15. In a run of at most 2^53 operations from a new connection nextMsgId
    is at most the number of operations, so that every nextMsgId++ of the run
    was exact; in the state reached every id that awaits an acknowledgement,
    is queued for the next connection or has a callback registered is below
    nextMsgId, no callback is registered under nextMsgId itself, and
    postAndExpectResponse returns nextMsgId: up to there an id is not given
    out twice. *)
Theorem message_ids_are_never_reused {Env} (hooks : Hooks Env) secret client (env : Env) ops :
  Z.of_nat (length ops) <= 2 ^ 53 ->
  let c := fst (fst (run hooks ops (newConnection secret client, env))) in
  0 <= nextMsgId c <= Z.of_nat (length ops) /\
  (forall e, e ∈ messagesToAck c -> wid (wrappedMsg e) < nextMsgId c) /\
  (forall w, w ∈ messagesToSendAfterReconnect c -> wid w < nextMsgId c) /\
  (forall k, is_Some (callbacks c !! k) -> k < nextMsgId c) /\
  callbacks c !! nextMsgId c = None /\
  (forall now msg,
     isRes msg = false ->
     outcome_of (postAndExpectResponse now msg c) = Ret (nextMsgId c)).
Proof.
  intros _. cbv zeta.
  assert (idsFresh (newConnection secret client)) as Hnew.
  { repeat split; cbn; try constructor. apply map_Forall_empty. }
  destruct (run_idsFresh hooks ops (newConnection secret client, env) Hnew) as [H Hn].
  cbn [fst nextMsgId newConnection] in Hn.
  destruct H as (_ & Ha & Hq & Hcb).
  split; [exact Hn|]. split; [|split; [|split; [|split]]].
  - intros e He. rewrite Forall_forall in Ha. apply Ha, He.
  - intros w Hw. rewrite Forall_forall in Hq. apply Hq, Hw.
  - intros k [cb Hk]. exact (Hcb k cb Hk).
  - destruct (callbacks _ !! nextMsgId _) as [cb|] eqn:Hk; [|reflexivity].
    specialize (Hcb _ _ Hk). cbn in Hcb. lia.
  - intros now msg Hres. rewrite postAndExpectResponse_posted by exact Hres. reflexivity.
Qed.

Lemma message_ids_are_never_reused_witness :
  let c := fst (fst (run (defaultHooks unit)
                       [(0, OpSetSocket true); (1, OpPost MsgPing (Some 7%nat));
                        (2, OpPost MsgPing None)]
                       (newConnection "5ec2e7" true, tt))) in
  (wid ∘ wrappedMsg) <$> messagesToAck c = [0; 1; 2] /\
  nextMsgId c = 3 /\
  callbacks c !! 3 = None /\
  outcome_of (postAndExpectResponse 3 MsgPing c) = Ret 3.
Proof.
  pose proof (message_ids_are_never_reused (defaultHooks unit) "5ec2e7" true tt
                [(0, OpSetSocket true); (1, OpPost MsgPing (Some 7%nat));
                 (2, OpPost MsgPing None)] ltac:(discriminate)) as H.
  cbv zeta in H. destruct H as (_ & _ & _ & _ & Hfree & Hnext).
  cbv zeta. split; [reflexivity|]. split; [reflexivity|].
  split; [exact Hfree | exact (Hnext 3 MsgPing eq_refl)].
Defined.

(** ** The rate counter *)

Lemma step_counterIs {Env} (hooks : Hooks Env) k now op :
  ~ touchesCounter op ->
  sat (fun se : Connection * Env => counterIs k (fst se)) (fun _ => True) (step hooks now op).
Proof.
  intros Hop. destruct op; try (exfalso; apply Hop; exact I); cbn [step];
    unfold post, sendToRouteAndForget, handleMessage, retryTick, sendPing, pongTimeout,
      settleRouteMessage, transportOpened, transportClosed, closeTimerFired, close, connect,
      setStrategy, setSocket, socketOpened, clearClosingTimer, dispatch, handleDataSet,
      handleRouteSubscription, handleRouteUnsubscription, handleRouteMessage, handleResponse,
      runCallback, postAndForget, postAndForgetMsg, removeMessageToAck,
      sendMessagesFromLaterList, postAndExpectResponse, sendWrappedMsg, strategy_send;
    sat_walk ltac:(idtac; fail) ltac:(first [exact I | intros; cbn; assumption]).
Qed.


Lemma step_sendToRoute_counter {Env} (hooks : Hooks Env) now r v payload hs cb s :
  messagesSentInASecond
    (fst (state_of (step hooks now (OpSendToRoute r v payload hs cb) s))) =
  messagesSentInASecond (fst s) + 1.
Proof.
  cbn [step]. unfold onFst. rewrite sendToRoute_spec. cbv zeta.
  unfold state_of. cbn [fst snd]. destruct cb; cbn; rewrite posted_counter; reflexivity.
Qed.

(** X16. Over any sequence of operations without a reset of the counter,
    messagesSentInASecond grows by exactly the number of sendToRoute calls:
    post, sendToRouteAndForget, retries, pings, the handshake and inbound
    messages do not count. *)
Theorem rate_counter_counts_sendToRoute_calls {Env} (hooks : Hooks Env) ops : forall s,
  Forall (fun nop => ~ isRateReset (snd nop)) ops ->
  messagesSentInASecond (fst (fst (run hooks ops s))) =
    messagesSentInASecond (fst s) + Z.of_nat (countSendToRoute ops).
Proof.
  induction ops as [|[now op] ops IH]; intros s Hops.
  - cbn. lia.
  - inversion Hops as [|? ? Hop Hrest]; subst. cbn [snd] in Hop.
    cbn [run].
    assert (messagesSentInASecond (fst (state_of (step hooks now op s))) +
              Z.of_nat (countSendToRoute ops) =
            messagesSentInASecond (fst s) + Z.of_nat (countSendToRoute ((now, op) :: ops)))
      as Hstep.
    { destruct op;
        try (match goal with |- context [step hooks now ?op s] =>
               pose proof (proj1 (step_counterIs hooks (messagesSentInASecond (fst s)) now op
                                    (fun H => H) s eq_refl)) as Hk
             end; unfold counterIs in Hk; rewrite Hk; reflexivity).
      - rewrite step_sendToRoute_counter. cbn [countSendToRoute]. lia.
      - exfalso. apply Hop. exact I. }
    unfold state_of in Hstep.
    destruct (step hooks now op s) as [[o s1] e1]. cbn [fst snd] in Hstep.
    specialize (IH s1 Hrest).
    destruct (run hooks ops s1) as [s2 e2]. cbn [fst snd] in *. lia.
Qed.

Lemma rate_counter_counts_sendToRoute_calls_witness :
  messagesSentInASecond
    (fst (fst (run (defaultHooks unit)
                 [(0, OpSendToRoute "/x/7" "POST" (PStr "a") None None);
                  (1, OpRetryTick);
                  (2, OpSendToRoute "/x/7" "POST" (PStr "b") None (Some 3%nat))]
                 openServer))) = 2.
Proof.
  apply (rate_counter_counts_sendToRoute_calls (defaultHooks unit)
           [(0, OpSendToRoute "/x/7" "POST" (PStr "a") None None);
            (1, OpRetryTick);
            (2, OpSendToRoute "/x/7" "POST" (PStr "b") None (Some 3%nat))]
           openServer).
  repeat (apply Forall_cons_2; [exact (fun H => H)|]). apply Forall_nil_2.
Defined.

(** ** Registering outbound routes *)

Section RouterSetupProperties.
Variable pathToRegexp : string -> string * list string.
Variable matchOf : string -> string -> option (list (string * string)).

Lemma list_find_regexp_None re (rs : list OutRouteLayer) :
  list_find (fun r => bool_decide (regexp r = re)) rs = None ->
  re ∉ regexp <$> rs.
Proof.
  intros Hnone Hin. apply list_elem_of_fmap in Hin as (r & -> & Hr).
  apply list_find_None in Hnone. rewrite Forall_forall in Hnone.
  specialize (Hnone r Hr). apply Hnone. apply bool_decide_pack. reflexivity.
Qed.

Lemma list_find_app_new re (rs : list OutRouteLayer) r :
  list_find (fun r => bool_decide (regexp r = re)) rs = None ->
  regexp r = re ->
  list_find (fun r => bool_decide (regexp r = re)) (rs ++ [r]) = Some (length rs, r).
Proof.
  intros Hnone Hr. apply list_find_Some. split.
  - rewrite lookup_app_r by lia. rewrite Nat.sub_diag. reflexivity.
  - split; [apply bool_decide_pack; exact Hr|].
    intros j y Hj Hlt. rewrite lookup_app_l in Hj by lia.
    apply list_find_None in Hnone. rewrite Forall_forall in Hnone.
    apply Hnone. eapply list_elem_of_lookup_2. exact Hj.
Qed.

(** X17. Registering an outbound route whose pattern compiles to the
    expression of a pattern registered before returns the id of the existing
    layer and changes nothing, so the first validator stays. setOutRoute keeps
    the directory, adds at most layers without listeners at the end, and keeps
    the expressions of the layers distinct. *)
Theorem setOutRoute_registers_an_expression_once route route' validate validate' R :
  fst (pathToRegexp route') = fst (pathToRegexp route) ->
  let r1 := setOutRoute pathToRegexp matchOf route validate R in
  let R1 := snd r1 in
  setOutRoute pathToRegexp matchOf route' validate' R1 = (fst r1, R1) /\
  connections R1 = connections R /\
  (exists added, outRoutes R1 = outRoutes R ++ added /\
                 Forall (fun r => listeners r = []) added) /\
  (layersDistinct R -> layersDistinct R1).
Proof.
  intros Hsame. cbv zeta. unfold setOutRoute.
  destruct (pathToRegexp route) as [re names] eqn:Hre.
  destruct (pathToRegexp route') as [re' names'] eqn:Hre'. cbn in Hsame. subst re'.
  destruct (list_find (fun r => bool_decide (regexp r = re)) (outRoutes R))
    as [[i target]|] eqn:Hfind.
  - cbn [fst snd]. rewrite Hfind. cbn.
    split; [reflexivity|]. split; [reflexivity|]. split; [|auto].
    exists []. rewrite app_nil_r. auto.
  - cbn [fst snd outRoutes layer_id].
    erewrite (list_find_app_new re (outRoutes R)); [|exact Hfind|reflexivity].
    cbn [layer_id].
    split; [reflexivity|]. split; [reflexivity|]. split.
    + eexists. split; [reflexivity|]. repeat constructor.
    + intros [Hnodup Hids]. split; cbn.
      * rewrite fmap_app. apply NoDup_app. split; [exact Hnodup|]. split.
        -- intros x Hx Hx'. cbn in Hx'. apply list_elem_of_singleton in Hx'. subst x.
           exact (list_find_regexp_None re _ Hfind Hx).
        -- apply NoDup_singleton.
      * apply Forall_app. split.
        -- eapply Forall_impl; [exact Hids|]. cbn. intros. lia.
        -- repeat constructor. cbn. lia.
Qed.
End RouterSetupProperties.

Lemma setOutRoute_registers_an_expression_once_witness :
  let r1 := setOutRoute literalRegexp literalMatch "/news" accept newRouter in
  setOutRoute literalRegexp literalMatch "/news" (fun _ _ => VSync false) (snd r1) =
    (fst r1, snd r1).
Proof.
  exact (proj1 (setOutRoute_registers_an_expression_once literalRegexp literalMatch
                  "/news" "/news" accept (fun _ _ => VSync false) newRouter eq_refl)).
Defined.

(** ** Connection secrets *)

Lemma encoded_byte b :
  padStart 2 "0"%char (toString16 (Byte.to_N b)) =
  String (hexDigit (Byte.to_N b / 16)) (String (hexDigit (Byte.to_N b mod 16)) "").
Proof. destruct b; reflexivity. Qed.

Lemma encoded_byte_hex b :
  isHexChar (hexDigit (Byte.to_N b / 16)) = true /\
  isHexChar (hexDigit (Byte.to_N b mod 16)) = true.
Proof. destruct b; split; reflexivity. Qed.

Lemma decoded_byte b :
  match hexValue (hexDigit (Byte.to_N b / 16)), hexValue (hexDigit (Byte.to_N b mod 16)) with
  | Some x, Some y => Byte.of_N (16 * x + y)
  | _, _ => None
  end = Some b.
Proof. destruct b; reflexivity. Qed.

Lemma append_empty_r s : s +:+ "" = s.
Proof.
  induction s as [|ch s IH]; [reflexivity|].
  change (String ch (s +:+ "") = String ch s). rewrite IH. reflexivity.
Qed.

Lemma joinWith_empty_cons s l : joinWith "" (s :: l) = s +:+ joinWith "" l.
Proof.
  destruct l as [|s' l]; cbn [joinWith]; [|reflexivity].
  rewrite append_empty_r. reflexivity.
Qed.

Lemma encoded_cons b l :
  joinWith "" (map (fun byte => padStart 2 "0"%char (toString16 (Byte.to_N byte))) (b :: l)) =
  String (hexDigit (Byte.to_N b / 16))
    (String (hexDigit (Byte.to_N b mod 16))
       (joinWith "" (map (fun byte => padStart 2 "0"%char (toString16 (Byte.to_N byte))) l))).
Proof. cbn [map]. rewrite joinWith_empty_cons, encoded_byte. reflexivity. Qed.

Lemma encoded_decodes l :
  decodeHex (length l)
    (joinWith "" (map (fun byte => padStart 2 "0"%char (toString16 (Byte.to_N byte))) l)) =
  Some l.
Proof.
  induction l as [|b l IH]; [reflexivity|].
  rewrite encoded_cons. cbn [length decodeHex].
  pose proof (decoded_byte b) as Hb.
  destruct (hexValue (hexDigit (Byte.to_N b / 16))) as [x|]; [|discriminate].
  destruct (hexValue (hexDigit (Byte.to_N b mod 16))) as [y|]; [|discriminate].
  rewrite Hb, IH. reflexivity.
Qed.

Lemma encoded_length l :
  String.length
    (joinWith "" (map (fun byte => padStart 2 "0"%char (toString16 (Byte.to_N byte))) l)) =
  (2 * length l)%nat.
Proof.
  induction l as [|b l IH]; [reflexivity|].
  rewrite encoded_cons. cbn [String.length length]. rewrite IH. lia.
Qed.

Lemma encoded_hex l :
  allChars isHexChar
    (joinWith "" (map (fun byte => padStart 2 "0"%char (toString16 (Byte.to_N byte))) l)) = true.
Proof.
  induction l as [|b l IH]; [reflexivity|].
  rewrite encoded_cons. cbn [allChars].
  destruct (encoded_byte_hex b) as [-> ->]. exact IH.
Qed.

(** X18. generateSecret(n) is a string of 2n characters among 0-9 and a-f from
    which the n random bytes can be recovered (different bytes give different
    secrets); newConnectionSecret() has 64 characters. getSecret() of a new
    client connection is its generated secret, of a new server connection the
    empty string. *)
Theorem generated_secret_is_hex_of_the_random_bytes len random :
  String.length (generateSecret len random) = (2 * len)%nat /\
  allChars isHexChar (generateSecret len random) = true /\
  (forall random',
     generateSecret len random = generateSecret len random' ->
     forall i, (i < len)%nat -> random i = random' i) /\
  String.length (newConnectionSecret random) = 64%nat /\
  getSecret (newClient random) = PStr (newConnectionSecret random) /\
  getSecret newServer = PStr "".
Proof.
  unfold newClient, newConnectionSecret, generateSecret. cbv zeta.
  split; [|split; [|split; [|split; [|split]]]].
  - rewrite encoded_length, length_map, length_seq. reflexivity.
  - apply encoded_hex.
  - intros random' Heq i Hi.
    pose proof (encoded_decodes (map random (seq 0 len))) as H1.
    pose proof (encoded_decodes (map random' (seq 0 len))) as H2.
    rewrite !length_map in *. rewrite Heq in H1. rewrite H1 in H2.
    inversion H2 as [Hmap].
    assert (map random (seq 0 len) !! i = map random' (seq 0 len) !! i) as Hi'
      by (rewrite Hmap; reflexivity).
    change (map random (seq 0 len)) with (random <$> seq 0 len) in Hi'.
    change (map random' (seq 0 len)) with (random' <$> seq 0 len) in Hi'.
    rewrite !list_lookup_fmap in Hi'.
    rewrite !lookup_seq_lt in Hi' by exact Hi. cbn in Hi'. congruence.
  - rewrite encoded_length, length_map, length_seq. reflexivity.
  - unfold getSecret, newConnection. cbn [header]. rewrite lookup_singleton_eq.
    cbn [truthy].
    destruct (String.eqb_spec
                (joinWith "" (map (fun byte => padStart 2 "0"%char (toString16 (Byte.to_N byte)))
                                (map random (seq 0 32)))) "") as [Hempty|_]; [|reflexivity].
    pose proof (encoded_length (map random (seq 0 32))) as Hlen.
    rewrite Hempty in Hlen. cbn in Hlen. discriminate.
  - reflexivity.
Qed.

(** ** Inbound routes *)

Lemma routeInbound_skip before rest R s id msg :
  Forall (fun l => in_matchPath l (route msg) = None) before ->
  routeInbound (before ++ rest) R s id msg = routeInbound rest R s id msg.
Proof.
  induction 1 as [|l before Hl _ IH]; [reflexivity|].
  cbn [app routeInbound]. rewrite Hl. exact IH.
Qed.

(** X19. Router.handleRouteMessage answers from the first inbound layer whose
    matcher accepts the path and looks at no later layer. With no accepting
    layer the result is empty, which the connection answers with 200 OK; when
    that layer has no handler for the verb the result is the error that the
    route does not support the verb, answered with 400; otherwise the result
    is what the handler of the verb left in the context it was given. *)
Theorem route_message_is_resolved_by_first_accepting_layer RI s id msg :
  (Forall (fun l => in_matchPath l (route msg) = None) (inRoutes RI) ->
   handleRouteMessageOfRouter RI s id msg = HResolved None /\
   routeReply id None = {| target := id; status := 200; res_data := PStr "OK" |}) /\
  (forall before layer rest matched,
     inRoutes RI = before ++ layer :: rest ->
     Forall (fun l => in_matchPath l (route msg) = None) before ->
     in_matchPath layer (route msg) = Some matched ->
     (Forall (fun vh => vh_verb vh <> verb msg) (verbs layer) ->
      handleRouteMessageOfRouter RI s id msg =
        HResolved (Some (new_RouteResponseError (PStr (unsupportedVerb msg)))) /\
      routeReply id (Some (new_RouteResponseError (PStr (unsupportedVerb msg)))) =
        {| target := id; status := 400; res_data := PStr (unsupportedVerb msg) |}) /\
     (forall i vh,
        list_find (fun vh => bool_decide (vh_verb vh = verb msg)) (verbs layer) = Some (i, vh) ->
        handleRouteMessageOfRouter RI s id msg =
          answerOf (vh_handler vh (contextFor layer matched (outbound RI) s msg)))).
Proof.
  unfold handleRouteMessageOfRouter. split.
  - intros Hnone. split; [|reflexivity].
    rewrite <- (app_nil_r (inRoutes RI)). rewrite routeInbound_skip by exact Hnone. reflexivity.
  - intros before layer rest matched Hlayers Hbefore Hmatch. rewrite Hlayers.
    rewrite routeInbound_skip by exact Hbefore. cbn [routeInbound]. rewrite Hmatch.
    split.
    + intros Hverbs.
      assert (list_find (fun vh => bool_decide (vh_verb vh = verb msg)) (verbs layer) = None)
        as ->.
      { apply list_find_None. eapply Forall_impl; [exact Hverbs|]. cbn. intros vh Hvh Hb.
        apply bool_decide_unpack in Hb. contradiction. }
      split; [reflexivity|].
      unfold routeReply, noError, new_RouteResponseError. cbn [rr_error truthy].
      unfold unsupportedVerb, quote.
      destruct (String.eqb_spec ("Route " +:+ String "034" "" +:+ route msg +:+ String "034" "" +:+
                  " does not support verb " +:+ String "034" "" +:+ verb msg +:+ String "034" "") "")
        as [Hempty|_]; [discriminate Hempty | reflexivity].
    + intros i vh Hfind. rewrite Hfind. reflexivity.
Qed.

Lemma route_message_is_resolved_by_first_accepting_layer_witness :
  let RI := onPost literalRegexp literalMatch "/x/7" echo emptyRouter in
  handleRouteMessageOfRouter RI "5ec2e7" 42
    {| verb := "POST"; route := "/y"; route_data := PStr "hi"; headers := None |} =
    HResolved None /\
  handleRouteMessageOfRouter RI "5ec2e7" 42
    {| verb := "GET"; route := "/x/7"; route_data := PStr ""; headers := None |} =
    HResolved (Some (new_RouteResponseError
      (PStr (unsupportedVerb
               {| verb := "GET"; route := "/x/7"; route_data := PStr ""; headers := None |})))).
Proof.
  cbv zeta. split.
  - refine (proj1 (proj1 (route_message_is_resolved_by_first_accepting_layer
                            (snd (setInRoute literalRegexp literalMatch "/x/7" "POST" echo
                                    emptyRouter)) "5ec2e7" 42
                            {| verb := "POST"; route := "/y"; route_data := PStr "hi";
                               headers := None |}) _)).
    apply Forall_cons_2; [reflexivity|apply Forall_nil_2].
  - refine (proj1 (proj1 (proj2 (route_message_is_resolved_by_first_accepting_layer
                                   (snd (setInRoute literalRegexp literalMatch "/x/7" "POST" echo
                                           emptyRouter)) "5ec2e7" 42
                                   {| verb := "GET"; route := "/x/7"; route_data := PStr "";
                                      headers := None |})
                            [] _ [] [] eq_refl (Forall_nil_2 _) eq_refl) _)).
    apply Forall_cons_2; [discriminate|apply Forall_nil_2].
Defined.

Lemma setVerb_find verb handler l :
  exists i vh,
    list_find (fun vh => bool_decide (vh_verb vh = verb)) (verbs (setVerb verb handler l)) =
      Some (i, vh) /\
    vh_handler vh = handler.
Proof.
  unfold setVerb.
  destruct (list_find (fun vh => bool_decide (vh_verb vh = verb)) (verbs l))
    as [[i vh]|] eqn:Hfind.
  - apply list_find_Some in Hfind as (Hi & Hv & Hbefore).
    apply bool_decide_unpack in Hv.
    exists i, {| vh_verb := vh_verb vh; vh_handler := handler |}. split; [|reflexivity].
    cbn [verbs set_verbs]. apply list_find_Some. split.
    + rewrite list_lookup_insert_eq; [reflexivity|]. eapply lookup_lt_Some; eauto.
    + split; [apply bool_decide_pack; exact Hv|].
      intros j y Hj Hlt. rewrite list_lookup_insert_ne in Hj by lia.
      exact (Hbefore j y Hj Hlt).
  - exists (length (verbs l)), {| vh_verb := verb; vh_handler := handler |}.
    split; [|reflexivity]. cbn [verbs set_verbs]. apply list_find_Some. split.
    + rewrite lookup_app_r by lia. rewrite Nat.sub_diag. reflexivity.
    + split; [apply bool_decide_pack; reflexivity|].
      intros j y Hj Hlt. rewrite lookup_app_l in Hj by lia.
      apply list_find_None in Hfind. rewrite Forall_forall in Hfind.
      apply Hfind. eapply list_elem_of_lookup_2; eauto.
Qed.

Lemma setVerb_same verb handler l :
  in_id (setVerb verb handler l) = in_id l /\
  in_regexp (setVerb verb handler l) = in_regexp l /\
  in_matchPath (setVerb verb handler l) = in_matchPath l /\
  in_keys (setVerb verb handler l) = in_keys l.
Proof.
  unfold setVerb. destruct (list_find _ _) as [[i vh]|]; repeat split.
Qed.

Lemma setVerb_replaces verb h1 h2 l :
  setVerb verb h2 (setVerb verb h1 l) = setVerb verb h2 l.
Proof.
  unfold setVerb at 1 3.
  destruct (setVerb_find verb h1 l) as (i & vh & Hfind & Hh). rewrite Hfind.
  unfold setVerb in *.
  destruct (list_find (fun vh => bool_decide (vh_verb vh = verb)) (verbs l))
    as [[j vh0]|] eqn:Hfind0; cbn [verbs set_verbs] in *.
  - apply list_find_Some in Hfind as (Hi & Hv & Hbefore).
    apply list_find_Some in Hfind0 as (Hj & Hv0 & Hbefore0).
    assert (i = j) as ->.
    { destruct (Nat.lt_trichotomy i j) as [Hlt|[->|Hgt]]; [|reflexivity|].
      - exfalso. rewrite list_lookup_insert_ne in Hi by lia.
        exact (Hbefore0 i vh Hi Hlt Hv).
      - exfalso. assert (<[j := {| vh_verb := vh_verb vh0; vh_handler := h1 |}]> (verbs l) !! j
                         = Some {| vh_verb := vh_verb vh0; vh_handler := h1 |}) as Hjj
          by (apply list_lookup_insert_eq; eapply lookup_lt_Some; eauto).
        apply (Hbefore j _ Hjj Hgt). apply bool_decide_pack. cbn.
        apply bool_decide_unpack in Hv0. exact Hv0. }
    rewrite list_lookup_insert_eq in Hi by (eapply lookup_lt_Some; eauto).
    inversion Hi; subst. cbn. unfold set_verbs. cbn. rewrite list_insert_insert_eq.
    reflexivity.
  - apply list_find_Some in Hfind as (Hi & Hv & Hbefore).
    assert (i = length (verbs l)) as ->.
    { destruct (Nat.lt_trichotomy i (length (verbs l))) as [Hlt|[->|Hgt]]; [|reflexivity|].
      - exfalso. rewrite lookup_app_l in Hi by lia.
        apply list_find_None in Hfind0. rewrite Forall_forall in Hfind0.
        apply (Hfind0 vh); [eapply list_elem_of_lookup_2; eauto | exact Hv].
      - exfalso. apply lookup_lt_Some in Hi. rewrite length_app in Hi. cbn in Hi. lia. }
    rewrite lookup_app_r in Hi by lia. rewrite Nat.sub_diag in Hi. inversion Hi; subst.
    cbn. unfold set_verbs. cbn. rewrite insert_app_r_alt by lia. rewrite Nat.sub_diag.
    reflexivity.
Qed.

Section InboundSetupProperties.
Variable pathToRegexp : string -> string * list string.
Variable matchOf : string -> string -> option (list (string * string)).

Lemma list_find_insert_same {A} (P : A -> Prop) `{forall x, Decision (P x)}
    (l : list A) i x y :
  list_find P l = Some (i, x) -> P y -> list_find P (<[i := y]> l) = Some (i, y).
Proof.
  intros Hfind Hy. apply list_find_Some in Hfind as (Hi & Hx & Hbefore).
  apply list_find_Some. split.
  - apply list_lookup_insert_eq. eapply lookup_lt_Some; eauto.
  - split; [exact Hy|]. intros j z Hj Hlt. rewrite list_lookup_insert_ne in Hj by lia.
    exact (Hbefore j z Hj Hlt).
Qed.

Lemma list_find_app_last {A} (P : A -> Prop) `{forall x, Decision (P x)} (l : list A) y :
  list_find P l = None -> P y -> list_find P (l ++ [y]) = Some (length l, y).
Proof.
  intros Hnone Hy. apply list_find_Some. split.
  - rewrite lookup_app_r by lia. rewrite Nat.sub_diag. reflexivity.
  - split; [exact Hy|]. intros j z Hj Hlt. rewrite lookup_app_l in Hj by lia.
    apply list_find_None in Hnone. rewrite Forall_forall in Hnone.
    apply Hnone. eapply list_elem_of_lookup_2; eauto.
Qed.

Lemma setInRoute_layer route verb handler RI :
  exists i l0,
    list_find (fun r => bool_decide (in_regexp r = fst (pathToRegexp route)))
      (inRoutes (snd (setInRoute pathToRegexp matchOf route verb handler RI))) =
      Some (i, setVerb verb handler l0) /\
    connections (outbound (snd (setInRoute pathToRegexp matchOf route verb handler RI))) =
      connections (outbound RI).
Proof.
  unfold setInRoute. destruct (pathToRegexp route) as [re names]. cbn [fst].
  destruct (list_find (fun r => bool_decide (in_regexp r = re)) (inRoutes RI))
    as [[i target]|] eqn:Hfind; cbn [snd inRoutes outbound connections].
  - exists i, target. split; [|reflexivity].
    apply (list_find_insert_same _ _ _ _ _ Hfind).
    apply list_find_Some in Hfind as (_ & Hre & _).
    apply bool_decide_pack. apply bool_decide_unpack in Hre.
    rewrite (proj1 (proj2 (setVerb_same verb handler target))). exact Hre.
  - eexists _, _. split; [|reflexivity].
    apply (list_find_app_last _ _ _ Hfind). apply bool_decide_pack.
    rewrite (proj1 (proj2 (setVerb_same verb handler _))). reflexivity.
Qed.

Lemma setInRoute_known route verb handler RI i l :
  list_find (fun r => bool_decide (in_regexp r = fst (pathToRegexp route))) (inRoutes RI) =
    Some (i, l) ->
  inRoutes (snd (setInRoute pathToRegexp matchOf route verb handler RI)) =
    <[i := setVerb verb handler l]> (inRoutes RI).
Proof.
  unfold setInRoute. destruct (pathToRegexp route) as [re names]. cbn [fst].
  intros ->. reflexivity.
Qed.

(** X20. After setInRoute(pattern, verb, handler), a route message with that
    verb whose path is accepted by the layer of the pattern and by no layer
    before it is answered by that handler: with the error it leaves in the
    context, else with its response. *)
Theorem registered_handler_is_called pattern method handler RI s id msg i layer matched :
  let RI' := snd (setInRoute pathToRegexp matchOf pattern method handler RI) in
  list_find (fun r => bool_decide (in_regexp r = fst (pathToRegexp pattern))) (inRoutes RI') =
    Some (i, layer) ->
  Forall (fun l => in_matchPath l (route msg) = None) (take i (inRoutes RI')) ->
  in_matchPath layer (route msg) = Some matched ->
  verb msg = method ->
  handleRouteMessageOfRouter RI' s id msg =
    answerOf (handler (contextFor layer matched (outbound RI') s msg)).
Proof.
  cbv zeta. intros Hfind Hbefore Hmatch Hverb.
  destruct (setInRoute_layer pattern method handler RI) as (i' & l0 & Hfind' & Hconn).
  rewrite Hfind in Hfind'. inversion Hfind'; subst i' layer. clear Hfind'.
  apply list_find_Some in Hfind as (Hi & _ & _).
  unfold handleRouteMessageOfRouter.
  rewrite <- (take_drop_middle _ _ _ Hi).
  rewrite routeInbound_skip by exact Hbefore. cbn [routeInbound]. rewrite Hmatch.
  destruct (setVerb_find method handler l0) as (j & vh & Hvh & Hh).
  rewrite Hverb, Hvh, Hh. reflexivity.
Qed.

(** X21. Registering a second handler for the same pattern and verb replaces
    the first: the id returned is the same, the inbound layers are those
    obtained by registering only the second handler, and the outbound layers
    and the directory are untouched by both registrations. Handlers registered
    with onPost, onGet and onDelete for one pattern share one layer. *)
Theorem setInRoute_last_handler_wins route verb h1 h2 RI :
  let r1 := setInRoute pathToRegexp matchOf route verb h1 RI in
  let r2 := setInRoute pathToRegexp matchOf route verb h2 (snd r1) in
  fst r2 = fst r1 /\
  inRoutes (snd r2) = inRoutes (snd (setInRoute pathToRegexp matchOf route verb h2 RI)) /\
  outbound (snd r2) = outbound (snd r1) /\
  outRoutes (outbound (snd r1)) = outRoutes (outbound RI) /\
  connections (outbound (snd r1)) = connections (outbound RI) /\
  (forall h3 h4,
     length (inRoutes (onDelete pathToRegexp matchOf route h4
                         (onGet pathToRegexp matchOf route h3
                            (onPost pathToRegexp matchOf route h1 RI)))) =
     length (inRoutes (onPost pathToRegexp matchOf route h1 RI))).
Proof.
  assert (forall h3 h4,
     length (inRoutes (onDelete pathToRegexp matchOf route h4
                         (onGet pathToRegexp matchOf route h3
                            (onPost pathToRegexp matchOf route h1 RI)))) =
     length (inRoutes (onPost pathToRegexp matchOf route h1 RI))) as Hlayers.
  { intros h3 h4. unfold onDelete, onGet, onPost.
    destruct (setInRoute_layer route "POST" h1 RI) as (i & l1 & Hf1 & _).
    set (RI1 := snd (setInRoute pathToRegexp matchOf route "POST" h1 RI)) in *.
    assert (list_find (fun r => bool_decide (in_regexp r = fst (pathToRegexp route)))
              (inRoutes (snd (setInRoute pathToRegexp matchOf route "GET" h3 RI1))) =
            Some (i, setVerb "GET" h3 (setVerb "POST" h1 l1))) as Hf2.
    { rewrite (setInRoute_known route "GET" h3 _ _ _ Hf1).
      apply (list_find_insert_same _ _ _ _ _ Hf1). apply bool_decide_pack.
      rewrite (proj1 (proj2 (setVerb_same "GET" h3 _))).
      apply list_find_Some in Hf1 as (_ & Hre & _). apply bool_decide_unpack in Hre.
      exact Hre. }
    rewrite (setInRoute_known route "DELETE" h4 _ _ _ Hf2), length_insert.
    rewrite (setInRoute_known route "GET" h3 _ _ _ Hf1), length_insert. reflexivity. }
  revert Hlayers.
  cbv zeta. unfold setInRoute. destruct (pathToRegexp route) as [re names].
  destruct (list_find (fun r => bool_decide (in_regexp r = re)) (inRoutes RI))
    as [[i target]|] eqn:Hfind; cbn [fst snd inRoutes outbound].
  - assert (bool_decide (in_regexp (setVerb verb h1 target) = re)) as Hre.
    { apply list_find_Some in Hfind as (_ & Hre & _).
      apply bool_decide_pack. apply bool_decide_unpack in Hre.
      rewrite (proj1 (proj2 (setVerb_same verb h1 target))). exact Hre. }
    rewrite (list_find_insert_same _ _ _ _ _ Hfind Hre). cbn [fst snd inRoutes outbound].
    rewrite list_insert_insert_eq, setVerb_replaces.
    rewrite (proj1 (setVerb_same verb h1 target)). intros Hlayers. repeat split. exact Hlayers.
  - set (fresh1 := setVerb verb h1 _).
    assert (bool_decide (in_regexp fresh1 = re)) as Hre.
    { apply bool_decide_pack. unfold fresh1.
      rewrite (proj1 (proj2 (setVerb_same verb h1 _))). reflexivity. }
    rewrite (list_find_app_last _ _ _ Hfind Hre). cbn [fst snd inRoutes outbound].
    rewrite insert_app_r_alt by lia. rewrite Nat.sub_diag. cbn [insert list_insert].
    unfold fresh1. rewrite setVerb_replaces.
    rewrite (proj1 (setVerb_same verb h1 _)). intros Hlayers. repeat split. exact Hlayers.
Qed.
End InboundSetupProperties.

Lemma registered_handler_is_called_witness :
  handleRouteMessageOfRouter (onPost literalRegexp literalMatch "/x/7" echo emptyRouter)
    "5ec2e7" 42 postToX7 =
  HResolved (Some (new_RouteResponse (PStr "hi"))).
Proof.
  exact (registered_handler_is_called literalRegexp literalMatch "/x/7" "POST" echo emptyRouter
           "5ec2e7" 42 postToX7 0%nat _ [] eq_refl (Forall_nil_2 _) eq_refl eq_refl).
Defined.

Lemma buildParams_go ps : forall ks (acc : gmap string Payload) a k,
  (k ∉ ks -> foldl (assignParam ps) acc (zip (seq a (length ks)) ks) !! k = acc !! k) /\
  (k = "__proto__" ->
   foldl (assignParam ps) acc (zip (seq a (length ks)) ks) !! k = acc !! k) /\
  (k ∈ ks -> k <> "__proto__" ->
   exists j, ks !! j = Some k /\
     foldl (assignParam ps) acc (zip (seq a (length ks)) ks) !! k =
       Some (paramAt ps (a + j))).
Proof.
  induction ks as [|x ks IH]; intros acc a k.
  - split; [reflexivity|]. split; [reflexivity|]. intros H. inversion H.
  - cbn [length seq zip zip_with foldl]. unfold assignParam at 2 4 6. cbn [fst snd].
    split; [|split].
    + intros Hk. apply not_elem_of_cons in Hk as [Hne Hk].
      rewrite (proj1 (IH _ (S a) k) Hk).
      destruct (String.eqb x "__proto__"); [reflexivity|].
      apply lookup_insert_ne. congruence.
    + intros ->. rewrite (proj1 (proj2 (IH _ (S a) "__proto__")) eq_refl).
      destruct (String.eqb_spec x "__proto__") as [->|Hne]; [reflexivity|].
      apply lookup_insert_ne. exact Hne.
    + intros Hk Hproto. destruct (decide (k ∈ ks)) as [Hin|Hnot].
      * destruct (proj2 (proj2 (IH (if String.eqb x "__proto__" then acc
                                    else <[x := paramAt ps a]> acc) (S a) k)) Hin Hproto)
          as (j & Hj & Hv).
        exists (S j). split; [exact Hj|]. rewrite Hv. f_equal. f_equal. lia.
      * apply elem_of_cons in Hk as [->|Hk]; [|contradiction].
        exists 0%nat. split; [reflexivity|].
        rewrite (proj1 (IH _ (S a) x) Hnot).
        destruct (String.eqb_spec x "__proto__") as [Heq|_]; [contradiction|].
        rewrite lookup_insert_eq. f_equal. f_equal. lia.
Qed.



(** ** Transports *)

Lemma lookup_snoc {A} (l : list A) x : (l ++ [x]) !! length l = Some x.
Proof. rewrite lookup_app_r by lia. rewrite Nat.sub_diag. reflexivity. Qed.

Lemma insert_snoc {A} (l : list A) x y : <[length l := y]> (l ++ [x]) = l ++ [y].
Proof. rewrite insert_app_r_alt by lia. rewrite Nat.sub_diag. reflexivity. Qed.

Lemma alter_snoc {A} (f : A -> A) (l : list A) x :
  alter f (length l) (l ++ [x]) = l ++ [f x].
Proof.
  induction l as [|y l IH]; [reflexivity|]. cbn. f_equal. exact IH.
Qed.

Lemma registered_length s m c o :
  length (sockets (ws_onOpen o (ws_onClose c (ws_onMessage m s)))) = length (sockets s).
Proof.
  unfold ws_onOpen, ws_onClose, ws_onMessage. cbn [sockets socket].
  destruct (socket s) as [j|]; cbn [sockets socket]; rewrite ?length_alter; reflexivity.
Qed.

(** X23. WebSocketStrategy's onMessage, onClose and onOpen install their
    handlers on the socket that exists when they are called. Registered before
    connect(), the callbacks are never called for the socket connect()
    creates: its open event only resolves connect(), its messages and its
    close event are dropped. Registered after connect(), messages and the
    close event reach the callbacks. *)
Theorem websocket_callbacks_attach_to_the_existing_socket_only s m c o :
  let registered := ws_onOpen o (ws_onClose c (ws_onMessage m s)) in
  let i := length (sockets s) in
  (let s1 := ws_connect registered in
   let s2 := s_state (socketEvent i SocketOpens s1) in
   socket s1 = Some i /\
   currentSocket s1 =
     Some {| readyState := CONNECTING; ws_onopen := Some ResolveConnect;
             ws_onerror := Some RejectConnect; ws_onmessage := None; ws_onclose := None |} /\
   s_events (socketEvent i SocketOpens s1) = [SConnectResolved] /\
   ws_isConnected s2 = true /\
   (forall w, socketEvent i (SocketMessage w) s2 = (Ret tt, s2, [])) /\
   s_events (socketEvent i SocketCloses s2) = []) /\
  (let s1 := ws_onClose c (ws_onMessage m (ws_connect s)) in
   let s2 := s_state (socketEvent i SocketOpens s1) in
   s_events (socketEvent i SocketOpens s1) = [SConnectResolved] /\
   (forall w, socketEvent i (SocketMessage w) s2 = (Ret tt, s2, [SCallMessage m w])) /\
   s_events (socketEvent i SocketCloses s2) = [SCallClose c]).
Proof.
  cbv zeta. split.
  - pose proof (registered_length s m c o) as Hlen.
    set (registered := ws_onOpen o (ws_onClose c (ws_onMessage m s))) in *.
    clearbody registered. rewrite <- Hlen. clear Hlen s.
    unfold ws_connect, currentSocket, socketEvent, ws_isConnected, currentSocket.
    cbn [sockets socket mbind option_bind].
    rewrite !lookup_snoc.
    cbn [ws_onopen runSocketHandler s_state s_events fst snd set_sockets sockets socket
         option_bind mbind].
    rewrite insert_snoc, !lookup_snoc.
    cbn [ws_onmessage ws_onclose set_readyState readyState runSocketHandler s_events snd].
    repeat split.
  - unfold ws_onClose, ws_onMessage, ws_connect, socketEvent.
    cbn [sockets socket]. rewrite !alter_snoc, !lookup_snoc.
    cbn [ws_onopen runSocketHandler s_state s_events fst snd set_sockets sockets socket].
    rewrite insert_snoc, !lookup_snoc.
    cbn [ws_onmessage ws_onclose set_readyState readyState runSocketHandler s_events snd
         messageCallback closeCallback set_sockets].
    repeat split.
Qed.

(** X24. WebSocketStrategy.send throws that the WebSocket is not connected
    unless the current socket is open, in which case the frame goes to that
    socket and nothing else changes. The strategy is not connected right after
    connect() and not after disconnect(), which closes the current socket and
    can be repeated without effect. *)
Theorem websocket_strategy_sends_only_on_an_open_socket w s :
  (ws_isConnected s = false ->
   ws_send w s = (Throw "WebSocket is not connected", s, [])) /\
  (ws_isConnected s = true ->
   exists i ws, socket s = Some i /\ sockets s !! i = Some ws /\ readyState ws = OPEN /\
                ws_send w s = (Ret tt, s, [SSocketSend i w])) /\
  ws_isConnected (ws_connect s) = false /\
  ws_isConnected (ws_disconnect s) = false /\
  ws_send w (ws_disconnect s) = (Throw "WebSocket is not connected", ws_disconnect s, []) /\
  ws_disconnect (ws_disconnect s) = ws_disconnect s /\
  (forall i ws, socket s = Some i -> sockets s !! i = Some ws ->
     sockets (ws_disconnect s) !! i = Some (closeSocket ws) /\
     readyState (closeSocket ws) <> OPEN).
Proof.
  split; [|split; [|split; [|split; [|split; [|split]]]]].
  - intros Hc. unfold ws_send. rewrite Hc. destruct (socket s); reflexivity.
  - intros Hc. unfold ws_send. unfold ws_isConnected, currentSocket in Hc |- *.
    destruct (socket s) as [i|]; cbn in Hc |- *; [|discriminate].
    destruct (sockets s !! i) as [ws|] eqn:Hi; [|discriminate].
    destruct (readyState ws) eqn:Hr; try discriminate.
    exists i, ws. repeat split; assumption.
  - unfold ws_isConnected, currentSocket, ws_connect. cbn [socket sockets mbind option_bind].
    rewrite lookup_snoc. reflexivity.
  - reflexivity.
  - reflexivity.
  - reflexivity.
  - intros i ws Hs Hi. unfold ws_disconnect. cbn [sockets]. rewrite Hs.
    rewrite list_lookup_alter_eq, Hi. split; [reflexivity|].
    unfold closeSocket. destruct (readyState ws) eqn:Hr; cbn; congruence.
Qed.

Lemma websocket_strategy_sends_only_on_an_open_socket_witness :
  let s := s_state (socketEvent 0 SocketOpens (ws_connect newWebSocketStrategy)) in
  exists i ws, socket s = Some i /\ sockets s !! i = Some ws /\ readyState ws = OPEN /\
               ws_send routeEnvelope s = (Ret tt, s, [SSocketSend i routeEnvelope]).
Proof.
  exact (proj1 (proj2 (websocket_strategy_sends_only_on_an_open_socket routeEnvelope
                         (s_state (socketEvent 0 SocketOpens (ws_connect newWebSocketStrategy)))))
           eq_refl).
Defined.

(** X25. HttpStrategy calls the open callback on every connect() and the close
    callback on every disconnect(), also when it is already disconnected; send
    posts the frame while connected and fails with the error that the HTTP
    connection is not established otherwise, as on a new strategy; a poll that
    returns an envelope gives it to the message callback; a poll that fails
    disconnects and calls the close callback, and later ticks of the poll do
    nothing. *)
Theorem http_strategy_reports_every_connect_and_disconnect o c w s :
  let s0 := http_onClose c (http_onOpen o s) in
  s_events (http_connect s0) = [SCallOpen o] /\
  s_events (http_disconnect s0) = [SCallClose c] /\
  s_events (http_disconnect (s_state (http_disconnect s0))) = [SCallClose c] /\
  http_send w (s_state (http_connect s0)) =
    (Ret tt, s_state (http_connect s0), [SFetchPost w]) /\
  http_send w (s_state (http_disconnect s0)) =
    (Throw "HTTP connection is not established", s_state (http_disconnect s0), []) /\
  http_send w newHttpStrategy =
    (Throw "HTTP connection is not established", newHttpStrategy, []) /\
  (forall m w',
     s_events (http_pollTick (PollMessage w') (s_state (http_connect (http_onMessage m s0)))) =
       [SFetchGet; SCallMessage m w']) /\
  (let s1 := s_state (http_connect s0) in
   s_events (http_pollTick PollFails s1) = [SFetchGet; SCallClose c] /\
   http_isConnected (s_state (http_pollTick PollFails s1)) = false /\
   forall result,
     http_pollTick result (s_state (http_pollTick PollFails s1)) =
       (Ret tt, s_state (http_pollTick PollFails s1), [])).
Proof.
  cbv zeta. repeat split.
Qed.

(** ** The client: routes *)

Lemma colon_is_invalid route : includesColon route = true -> allChars isRouteChar route = false.
Proof.
  induction route as [|ch rest IH]; cbn [includesColon allChars]; [discriminate|].
  intros H. apply orb_true_iff in H as [H|H].
  - apply Ascii.eqb_eq in H. subst ch. reflexivity.
  - rewrite (IH H). apply andb_false_r.
Qed.

(** X26. Client.sendToRoute, behind get, post and delete, throws before
    anything is sent or changed when the route is empty or has a character
    other than a letter, a digit, _, / and -, and with the message about
    colons whenever the route contains a colon; for a valid route it is the
    connection's sendToRoute: on an open connection within the rate limit, get
    and delete send a route envelope with the verb GET or DELETE and the empty
    string as data, post sends the payload, or the empty string when the
    payload is falsy. Client.postAndForget does not check the route: it sends
    the payload as given under id -1 if the transport is open and drops it
    otherwise. *)
Theorem client_sendToRoute_validates_the_route now route verb payload headers resolve c :
  let res := clientSendToRoute now route verb payload headers resolve c in
  (routeIsValid route = false ->
   res = (Throw (if includesColon route then colonError route
                 else invalidCharactersError route), c, [])) /\
  (includesColon route = true -> outcome_of res = Throw (colonError route)) /\
  (route = "" -> outcome_of res = Throw (invalidCharactersError route)) /\
  (routeIsValid route = true ->
   res = sendToRoute now route verb payload headers (Some resolve) c /\
   outcome_of res = Ret tt) /\
  (truthy payload = false ->
   clientPost now route payload headers resolve c = clientPost now route (PStr "") headers resolve c) /\
  (routeIsValid route = true -> connected c = true ->
   messagesSentInASecond c <= SEND_LIMIT_PER_SEC ->
   let sends v data :=
     [EvSend {| wid := nextMsgId c; wmsg := Route (new_MsgRoute route v data headers) |}] in
   events_of (clientGet now route headers resolve c) = sends "GET" (PStr "") /\
   events_of (clientDelete now route headers resolve c) = sends "DELETE" (PStr "") /\
   events_of (clientPost now route payload headers resolve c) =
     sends "POST" (if truthy payload then payload else PStr "")) /\
  clientPostAndForget now route payload headers c =
    (Ret tt, c,
     if connected c
     then [EvSend {| wid := -1; wmsg := Route (new_MsgRoute route "POST" payload headers) |}]
     else []).
Proof.
  cbv zeta. unfold clientSendToRoute.
  split; [|split; [|split; [|split; [|split; [|split]]]]].
  - intros ->. cbn [negb]. destruct (includesColon route); reflexivity.
  - intros Hc. unfold routeIsValid. rewrite (colon_is_invalid _ Hc), andb_false_r.
    cbn [negb]. rewrite Hc. reflexivity.
  - intros ->. reflexivity.
  - intros ->. cbn [negb]. split; [reflexivity|].
    rewrite sendToRoute_spec. reflexivity.
  - intros Hp. unfold clientPost, clientSendToRoute.
    destruct (routeIsValid route); cbn [negb]; [|reflexivity].
    rewrite !sendToRoute_spec. cbv zeta. rewrite Hp. reflexivity.
  - intros Hv Hc Hlimit. cbv zeta. unfold clientGet, clientDelete, clientPost, clientSendToRoute.
    rewrite Hv. cbn [negb]. rewrite !sendToRoute_spec. cbv zeta. unfold events_of. cbn [snd].
    assert ((SEND_LIMIT_PER_SEC <? messagesSentInASecond c) = false) as ->
      by (apply Z.ltb_ge; exact Hlimit).
    rewrite Hc. repeat split.
  - unfold clientPostAndForget, sendToRouteAndForget. apply postAndForgetMsg_spec.
Qed.

Lemma client_sendToRoute_validates_the_route_witness :
  routeIsValid "/threads/:id" = false /\ includesColon "/threads/:id" = true /\
  outcome_of (clientSendToRoute 0 "/threads/:id" "GET" (PStr "") None 0 openClientConn) =
    Throw (colonError "/threads/:id") /\
  routeIsValid "/threads/42" = true /\
  outcome_of (clientSendToRoute 0 "/threads/42" "GET" (PStr "") None 0 openClientConn) = Ret tt.
Proof.
  split; [reflexivity|]. split; [reflexivity|]. split.
  - exact (proj1 (proj2 (client_sendToRoute_validates_the_route
                           0 "/threads/:id" "GET" (PStr "") None 0%nat openClientConn))
             eq_refl).
  - split; [reflexivity|].
    exact (proj2 (proj1 (proj2 (proj2 (proj2 (client_sendToRoute_validates_the_route
                           0 "/threads/42" "GET" (PStr "") None 0%nat openClientConn))))
             eq_refl)).
Defined.

(** ** The client: subscriptions *)

Lemma getProperty_None o key :
  getProperty o key = None <->
  list_find (fun kv => fst kv = key) o = None /\ key ∉ objectPrototypeNames.
Proof.
  unfold getProperty. destruct (list_find _ o) as [[i kv]|].
  - split; [discriminate|]. intros [? _]. discriminate.
  - destruct (bool_decide (key ∈ objectPrototypeNames)) eqn:Hp.
    + apply bool_decide_eq_true in Hp. split; [discriminate|]. intros [_ ?]. contradiction.
    + apply bool_decide_eq_false in Hp. split; auto.
Qed.

Lemma getProperty_create o key callback :
  getProperty o key = None ->
  getProperty (createProperty key callback o) key = Some (Own callback).
Proof.
  intros H. apply getProperty_None in H as [Hfind _].
  unfold getProperty, createProperty.
  rewrite (list_find_app_last _ _ (key, callback) Hfind eq_refl). reflexivity.
Qed.

Lemma deleteProperty_create o key callback :
  list_find (fun kv => fst kv = key) o = None ->
  deleteProperty key (createProperty key callback o) = o.
Proof.
  intros Hfind. unfold deleteProperty, createProperty.
  rewrite filter_app. rewrite filter_cons_False by (cbn; tauto).
  rewrite filter_nil, app_nil_r.
  apply list_find_None in Hfind. induction Hfind as [|x l Hx _ IH]; [reflexivity|].
  rewrite filter_cons_True by exact Hx. rewrite IH. reflexivity.
Qed.

Lemma list_find_delete o key :
  list_find (fun kv : string * nat => fst kv = key) (deleteProperty key o) = None.
Proof.
  apply list_find_None, Forall_forall. intros kv Hin.
  apply list_elem_of_filter in Hin as [Hne _]. exact Hne.
Qed.

Lemma list_find_delete_other o key other :
  other <> key ->
  (snd <$> list_find (fun kv : string * nat => fst kv = other) (deleteProperty key o)) =
  (snd <$> list_find (fun kv : string * nat => fst kv = other) o).
Proof.
  intros Hne. unfold deleteProperty. induction o as [|kv o IH]; [reflexivity|].
  destruct (decide (fst kv = key)) as [Hk|Hk].
  - rewrite filter_cons_False by tauto. rewrite IH. cbn [list_find].
    destruct (decide (fst kv = other)) as [Ho|Ho]; [congruence|].
    destruct (list_find _ o) as [[i x]|]; reflexivity.
  - rewrite filter_cons_True by exact Hk. cbn [list_find].
    destruct (decide (fst kv = other)); [reflexivity|].
    destruct (list_find _ (filter _ o)) as [[i x]|];
      destruct (list_find _ o) as [[j y]|]; cbn in *; congruence.
Qed.

Lemma getProperty_delete_other o key other :
  other <> key -> getProperty (deleteProperty key o) other = getProperty o other.
Proof.
  intros Hne. pose proof (list_find_delete_other o key other Hne) as H.
  unfold getProperty.
  destruct (list_find _ (deleteProperty key o)) as [[i x]|];
    destruct (list_find _ o) as [[j y]|]; cbn in H; try discriminate; [|reflexivity].
  congruence.
Qed.

Lemma post_spec now msg tag c :
  isRes msg = false ->
  post now msg (Some tag) c =
  (Ret tt,
   set_callbacks (<[nextMsgId c := CbUser tag]> (callbacks (posted now msg c)))
     (posted now msg c),
   if connected c then [EvSend (new_MsgWrapper (nextMsgId c) msg)] else []).
Proof.
  intros Hres. unfold post. rewrite mbind_run.
  rewrite postAndExpectResponse_posted by exact Hres.
  cbn [modify]. rewrite app_nil_r. reflexivity.
Qed.

(** X27. Client.on rejects and changes nothing when the route already has a
    subscription, or is the name of a property of Object.prototype. Otherwise
    it stores the callback, so that a second on for the route is rejected,
    posts the on message only once the client is fully connected, keeps the
    subscription on an answer without error and removes it again, rejecting,
    on an answer with an error. *)
Theorem client_on_keeps_one_subscription_per_route
    route callback other now answer response c st :
  let st1 := snd (clientOn route callback st) in
  let w := new_MsgWrapper (nextMsgId c) (MsgSubscribeToRoute route) in
  (forall p, getProperty (subscribedRoutes st) route = Some p ->
     clientOn route callback st = (Throw (alreadySubscribedError route), st)) /\
  (route ∈ objectPrototypeNames ->
     clientOn route callback st = (Throw (alreadySubscribedError route), st)) /\
  (getProperty (subscribedRoutes st) route = None ->
     fst (clientOn route callback st) = Ret tt /\
     getProperty (subscribedRoutes st1) route = Some (Own callback) /\
     clientOn route other st1 = (Throw (alreadySubscribedError route), st1) /\
     (isFullyConnected st = false ->
        clientOnTurn now route answer (c, st1) = (Ret false, (c, st1), [])) /\
     (isFullyConnected st = true ->
        let r := clientOnTurn now route answer (c, st1) in
        outcome_of r = Ret true /\
        events_of r = (if connected c then [EvSend w] else []) /\
        (connected c = false ->
           messagesToSendAfterReconnect (fst (state_of r)) =
             messagesToSendAfterReconnect c ++ [w]) /\
        callbacks (fst (state_of r)) !! nextMsgId c = Some (CbUser answer) /\
        snd (state_of r) = st1) /\
     (noError response = true -> clientOnAnswer route response st1 = (Ret tt, st1)) /\
     (noError response = false ->
        clientOnAnswer route response st1 = (Throw (failedToSubscribeError route), st))).
Proof.
  cbv zeta. split; [|split].
  - intros p Hp. unfold clientOn. rewrite Hp. reflexivity.
  - intros Hin. unfold clientOn, getProperty.
    destruct (list_find _ _) as [[i kv]|]; [reflexivity|].
    rewrite bool_decide_eq_true_2 by exact Hin. reflexivity.
  - intros Hnone. pose proof (getProperty_create _ _ callback Hnone) as Hown.
    unfold clientOn. rewrite Hnone. cbn [fst snd].
    split; [reflexivity|]. split; [exact Hown|].
    split; [cbn [subscribedRoutes set_subscribedRoutes]; rewrite Hown; reflexivity|].
    split; [|split; [|split]].
    + intros Hf. unfold clientOnTurn. rewrite mbind_run. cbn [get snd isFullyConnected
        set_subscribedRoutes]. rewrite Hf. reflexivity.
    + intros Hf. unfold clientOnTurn. rewrite mbind_run. cbn [get snd isFullyConnected
        set_subscribedRoutes]. rewrite Hf. rewrite mbind_run. unfold onFst. cbn [fst snd].
      rewrite post_spec by reflexivity. unfold outcome_of, events_of, state_of.
      cbn [fst snd ret]. rewrite app_nil_r.
      split; [reflexivity|]. split; [reflexivity|].
      split; [|split; [|reflexivity]].
      * intros Hc. unfold posted. rewrite Hc. reflexivity.
      * cbn [callbacks set_callbacks]. apply lookup_insert_eq.
    + intros Hr. unfold clientOnAnswer. rewrite Hr. reflexivity.
    + intros Hr. unfold clientOnAnswer. rewrite Hr.
      cbn [subscribedRoutes set_subscribedRoutes].
      apply getProperty_None in Hnone as [Hfind _].
      rewrite (deleteProperty_create _ _ _ Hfind). destruct st; reflexivity.
Qed.

Lemma client_on_keeps_one_subscription_per_route_witness :
  let st1 := snd (clientOn "/t/2" 5%nat subscribedClient) in
  getProperty (subscribedRoutes st1) "/t/2" = Some (Own 5%nat) /\
  clientOn "/t/2" 6%nat st1 = (Throw (alreadySubscribedError "/t/2"), st1) /\
  clientOnAnswer "/t/2" (new_RouteResponseError (PStr "Error subscribing to route")) st1 =
    (Throw (failedToSubscribeError "/t/2"), subscribedClient).
Proof.
  pose proof (proj2 (proj2 (client_on_keeps_one_subscription_per_route "/t/2" 5%nat 6%nat 0
                              11%nat (new_RouteResponseError (PStr "Error subscribing to route"))
                              openClientConn subscribedClient)) eq_refl) as H.
  cbv zeta in H. cbv zeta. destruct H as (_ & H2 & H3 & _ & _ & _ & H7).
  exact (conj H2 (conj H3 (H7 eq_refl))).
Defined.

(** X28. Client.off posts the off message, queued while the transport is
    closed, and removes the subscription of the route at once, whatever the
    server answers: a later route message for the route calls no callback and
    is still answered, the other subscriptions stay, and the route can be
    subscribed to again. *)
Theorem client_off_stops_delivery_at_once now path answer c st m :
  let r := clientOff now path answer (c, st) in
  let st1 := snd (state_of r) in
  let w := new_MsgWrapper (nextMsgId c) (MsgUnsubscribeFromRoute path) in
  outcome_of r = Ret tt /\
  events_of r = (if connected c then [EvSend w] else []) /\
  (connected c = false ->
     messagesToSendAfterReconnect (fst (state_of r)) =
       messagesToSendAfterReconnect c ++ [w]) /\
  callbacks (fst (state_of r)) !! nextMsgId c = Some (CbUser answer) /\
  (forall other, other <> path ->
     getProperty (subscribedRoutes st1) other = getProperty (subscribedRoutes st) other) /\
  (path ∉ objectPrototypeNames ->
     getProperty (subscribedRoutes st1) path = None /\
     (route m = path -> clientOnRouteMessage st1 m = (None, HResolved None)) /\
     forall callback, fst (clientOn path callback st1) = Ret tt).
Proof.
  cbv zeta. unfold clientOff. rewrite mbind_run. unfold onFst. cbn [fst snd].
  rewrite post_spec by reflexivity. unfold outcome_of, events_of, state_of.
  cbn [fst snd modify]. rewrite app_nil_r.
  split; [reflexivity|]. split; [reflexivity|]. split; [|split; [|split]].
  - intros Hc. unfold posted. rewrite Hc. reflexivity.
  - cbn [callbacks set_callbacks]. apply lookup_insert_eq.
  - intros other Hne. cbn [subscribedRoutes set_subscribedRoutes].
    apply getProperty_delete_other. exact Hne.
  - intros Hproto. cbn [subscribedRoutes set_subscribedRoutes].
    assert (getProperty (deleteProperty path (subscribedRoutes st)) path = None) as Hnone.
    { apply getProperty_None. split; [apply list_find_delete|exact Hproto]. }
    split; [exact Hnone|]. split.
    + intros Hm. unfold clientOnRouteMessage. cbn [subscribedRoutes set_subscribedRoutes].
      rewrite Hm, Hnone. reflexivity.
    + intros callback. unfold clientOn. cbn [subscribedRoutes set_subscribedRoutes].
      rewrite Hnone. reflexivity.
Qed.

Lemma client_off_stops_delivery_at_once_witness :
  let r := clientOff 0 "/t/1" 11%nat (openClientConn, subscribedClient) in
  events_of r = [EvSend {| wid := 0; wmsg := MsgUnsubscribeFromRoute "/t/1" |}] /\
  clientOnRouteMessage (snd (state_of r))
    {| verb := "POST"; route := "/t/1"; route_data := PStr "hi"; headers := None |} =
    (None, HResolved None).
Proof.
  pose proof (client_off_stops_delivery_at_once 0 "/t/1" 11%nat openClientConn subscribedClient
                {| verb := "POST"; route := "/t/1"; route_data := PStr "hi"; headers := None |})
    as H.
  cbv zeta in H. cbv zeta. destruct H as (_ & H2 & _ & _ & _ & H6).
  split; [exact H2|].
  exact (proj1 (proj2 (H6 (proj1 (bool_decide_eq_false ("/t/1" ∈ objectPrototypeNames))
                             eq_refl))) eq_refl).
Defined.

(** ** The client: a broadcast from the server *)

Lemma recordSent_unique now w c : uniqueAcks c -> uniqueAcks (recordSent now w c).
Proof.
  intros Hu. unfold recordSent. destruct (messageNeedsAck w); [|exact Hu].
  destruct (findLastIndex (hasId (wid w)) (messagesToAck c)) as [i|] eqn:Hf.
  - destruct (messagesToAck c !! i) as [e|] eqn:He; [|exact Hu].
    apply uniqueAcks_resent; assumption.
  - apply uniqueAcks_push; assumption.
Qed.

(** X29. A route envelope sent by sendToRoute of an open server connection, as
    a broadcast does, to an open client subscribed to the route makes the
    client, on the first delivery, call the subscribed callback with the data
    and the verb as action, and is answered 200 OK; processing that answer
    removes the envelope from the server's messagesToAck, so that it is not
    sent again. *)
Theorem broadcast_reaches_the_subscribed_callback {Env} (hooks : Hooks Env) (env : Env)
    now now1 now2 now3 path verb payload sc cc st callback :
  connected sc = true ->
  0 <= nextMsgId sc ->
  uniqueAcks sc ->
  callbacks sc !! nextMsgId sc = None ->
  connected cc = true ->
  getReceivedPairById (nextMsgId sc) cc = None ->
  getProperty (subscribedRoutes st) path = Some (Own callback) ->
  let data := if truthy payload then payload else PStr "" in
  let m := new_MsgRoute path verb data None in
  let id := nextMsgId sc in
  let frame := new_MsgWrapper id (Route m) in
  let reply :=
    new_SendAndForgetMsgWrapper (Res {| target := id; status := 200; res_data := PStr "OK" |}) in
  let sent := sendToRoute now path verb payload None None sc in
  let received := handleMessage clientHooks now1 frame (cc, st) in
  let settled :=
    settleRouteMessage now2 (length (promises cc)) (snd (clientOnRouteMessage st m))
      (fst (state_of received)) in
  let acked := handleMessage hooks now3 reply (state_of sent, env) in
  events_of sent = [EvSend frame] /\
  id ∈ ackIds (state_of sent) /\
  events_of received = [EvDispatch frame; EvRouteMessage id m] /\
  snd (state_of received) = st /\
  fst (clientOnRouteMessage st m) = Some (callback, data, verb) /\
  events_of settled = [EvSend reply] /\
  events_of acked = [EvDispatch reply] /\
  (id ∉ ackIds (fst (state_of acked))) /\
  snd (state_of acked) = env.
Proof.
  intros Hsc Hid Hu Hcb Hcc Hnew Hsub. cbv zeta.
  set (data := if truthy payload then payload else PStr "").
  set (m := new_MsgRoute path verb data None).
  assert (nextMsgId sc <> -1) as Hid' by lia.
  assert (messageNeedsAck (new_MsgWrapper (nextMsgId sc) (Route m)) = true) as Hack.
  { unfold messageNeedsAck. cbn [wid wmsg new_MsgWrapper isRes].
    apply andb_true_iff. split; [|reflexivity]. apply negb_true_iff, Z.eqb_neq. exact Hid'. }
  rewrite sendToRoute_spec. cbv zeta. fold data. fold m.
  unfold events_of, state_of. cbn [fst snd].
  rewrite Hsc.
  split; [destruct (SEND_LIMIT_PER_SEC <? messagesSentInASecond sc); reflexivity|].
  set (sc1 := set_messagesSentInASecond _ _).
  assert (ackIds sc1 =
          ackIds (recordSent now (new_MsgWrapper (nextMsgId sc) (Route m))
                    (set_nextMsgId (nextMsgId sc + 1) sc))) as Hids.
  { unfold sc1, posted. rewrite Hsc. reflexivity. }
  assert (uniqueAcks sc1) as Hu1.
  { unfold uniqueAcks. rewrite Hids. apply (recordSent_unique now _ _). exact Hu. }
  assert (callbacks sc1 = callbacks sc) as Hcb1.
  { unfold sc1. cbn [callbacks set_messagesSentInASecond]. apply posted_callbacks. }
  split; [rewrite Hids; exact (recordSent_has_id now _ _ Hack)|].
  unfold new_MsgWrapper.
  rewrite (handleMessage_route clientHooks now1 (nextMsgId sc) m (cc, st) Hid' Hnew).
  cbn [fst snd].
  split; [reflexivity|]. split; [reflexivity|].
  unfold clientOnRouteMessage. cbn [route m new_MsgRoute]. rewrite Hsub. cbn [fst snd].
  split; [reflexivity|]. split.
  - unfold settleRouteMessage. rewrite mbind_run. cbn [get].
    cbn [promises recordReceived set_receivedMessages set_promises].
    rewrite lookup_app_r by lia. rewrite Nat.sub_diag. cbn [lookup list_lookup].
    rewrite mbind_run. cbn [modify replicate forEach]. rewrite mbind_run.
    rewrite postAndForgetMsg_spec. cbn. rewrite Hcc. reflexivity.
  - set (reply := new_SendAndForgetMsgWrapper _).
    assert (handleMessage hooks now3 reply (sc1, env) =
            (Ret tt, (state_of (removeMessageToAck (nextMsgId sc) sc1), env),
             [EvDispatch reply])) as ->.
    { rewrite handleMessage_forget by reflexivity.
      cbn [wid wmsg reply new_SendAndForgetMsgWrapper dispatch].
      rewrite mbind_run, handleResponse_spec. cbn [status target fst snd].
      rewrite Hcb1, Hcb. reflexivity. }
    unfold events_of, state_of. cbn [fst snd].
    split; [reflexivity|]. split; [|reflexivity].
    intros Hin. unfold ackIds in Hin. apply list_elem_of_fmap in Hin as (e & He & Hin).
    exact (removeMessageToAck_gone (nextMsgId sc) sc1 Hu1 e Hin (eq_sym He)).
Qed.

Lemma broadcast_reaches_the_subscribed_callback_witness :
  let frame :=
    {| wid := 0;
       wmsg := Route {| verb := "POST"; route := "/t/1"; route_data := PStr "hi";
                        headers := None |} |} in
  let reply :=
    {| wid := -1; wmsg := Res {| target := 0; status := 200; res_data := PStr "OK" |} |} in
  let sent := sendToRoute 0 "/t/1" "POST" (PStr "hi") None None openServerConn in
  events_of sent = [EvSend frame] /\
  events_of (handleMessage clientHooks 1 frame (openClientConn, subscribedClient)) =
    [EvDispatch frame;
     EvRouteMessage 0 {| verb := "POST"; route := "/t/1"; route_data := PStr "hi";
                         headers := None |}] /\
  fst (clientOnRouteMessage subscribedClient
         {| verb := "POST"; route := "/t/1"; route_data := PStr "hi"; headers := None |}) =
    Some (7%nat, PStr "hi", "POST") /\
  (0 ∉ ackIds (fst (state_of (handleMessage (defaultHooks unit) 3 reply (state_of sent, tt))))).
Proof.
  pose proof (broadcast_reaches_the_subscribed_callback (defaultHooks unit) tt 0 1 2 3
                "/t/1" "POST" (PStr "hi") openServerConn openClientConn subscribedClient 7%nat
                eq_refl (Z.le_refl 0) (NoDup_nil_2 : uniqueAcks openServerConn)
                eq_refl eq_refl eq_refl eq_refl) as H.
  cbv zeta in H. cbv zeta.
  destruct H as (H1 & _ & H3 & _ & H5 & _ & _ & H8 & _).
  exact (conj H1 (conj H3 (conj H5 H8))).
Defined.

(** ** The client: reconnecting *)

Lemma posted_closed now msg c :
  connected c = false ->
  posted now msg c =
  set_messagesToSendAfterReconnect
    (messagesToSendAfterReconnect c ++ [new_MsgWrapper (nextMsgId c) msg])
    (set_nextMsgId (nextMsgId c + 1) c).
Proof. intros Hc. unfold posted. rewrite Hc. reflexivity. Qed.

Lemma resubscribe_loop now answer (st : ClientState) routes : forall c,
  connected c = false ->
  exists c',
    forEach routes
      (fun route => onFst (post now (MsgSubscribeToRoute route) (Some (answer route))))
      (c, st) = (Ret tt, (c', st), []) /\
    connected c' = false /\
    messagesToSendAfterReconnect c' =
      messagesToSendAfterReconnect c ++ resubscriptions (nextMsgId c) routes /\
    (forall k, k < nextMsgId c -> callbacks c' !! k = callbacks c !! k) /\
    (forall i route, routes !! i = Some route ->
       callbacks c' !! (nextMsgId c + Z.of_nat i) = Some (CbUser (answer route))).
Proof.
  induction routes as [|route routes IH]; intros c Hc.
  - exists c. split; [reflexivity|]. split; [exact Hc|].
    split; [cbn; rewrite app_nil_r; reflexivity|]. split; [reflexivity|].
    intros i r Hi. discriminate.
  - cbn [forEach]. rewrite mbind_run. unfold onFst at 1. cbn [fst snd].
    rewrite post_spec by reflexivity. rewrite Hc, (posted_closed _ _ _ Hc).
    set (c1 := set_callbacks _ _).
    assert (connected c1 = false) as Hc1 by exact Hc.
    destruct (IH c1 Hc1) as (c' & Hrun & Hc' & Hq & Hold & Hnew).
    exists c'. rewrite Hrun. split; [reflexivity|]. split; [exact Hc'|].
    assert (nextMsgId c1 = nextMsgId c + 1) as Hn by reflexivity.
    split; [|split].
    + rewrite Hq, Hn. unfold c1, resubscriptions.
      cbn [messagesToSendAfterReconnect set_callbacks set_messagesToSendAfterReconnect].
      rewrite <- app_assoc. f_equal. rewrite imap_cons. cbn [app]. f_equal.
      * f_equal. lia.
      * apply imap_ext. intros i r _. cbn. f_equal. lia.
    + intros k Hk. rewrite Hold by lia. unfold c1. cbn [callbacks set_callbacks
        set_messagesToSendAfterReconnect set_nextMsgId].
      apply lookup_insert_ne. lia.
    + intros [|i] r Hi.
      * cbn in Hi. injection Hi as <-. rewrite Z.add_0_r. rewrite Hold by lia.
        unfold c1. cbn [callbacks set_callbacks]. apply lookup_insert_eq.
      * cbn in Hi. specialize (Hnew i r Hi). rewrite Hn in Hnew.
        replace (nextMsgId c + Z.of_nat (S i)) with (nextMsgId c + 1 + Z.of_nat i) by lia.
        exact Hnew.
Qed.

(** X30. When the socket of a client closes, the client is no longer fully
    connected and a reconnect is scheduled. The reconnect does nothing without
    a URL; otherwise, if the new socket can be created, it gives it to the
    connection, which queues the set message with the secret, and then queues
    one on message per subscribed route in the order of a for-in loop; when
    the socket opens all of them are sent in that order, after what was queued
    before. An answer with an error to such an on message removes the
    subscription of that route and no other. *)
Theorem reconnect_sends_the_secret_before_the_subscriptions now now' answer c st :
  isClient c = true ->
  let routes := forInKeys (subscribedRoutes st) in
  let n := nextMsgId c in
  let hello :=
    new_MsgWrapper n (msg_ConnDataSet "secret" (default PUndefined (header c !! "secret"))) in
  let queue := messagesToSendAfterReconnect c ++ hello :: resubscriptions (n + 1) routes in
  let closed := transportClosed clientHooks (c, st) in
  let c1 := fst (state_of closed) in
  let st1 := snd (state_of closed) in
  (events_of closed = [] /\
   connected c1 = false /\
   st1 = set_reconnectTimeout true (set_isFullyConnected false st)) /\
  (hasUrl st = false ->
   reconnectTimerFired now true answer (state_of closed) =
     (Ret tt, (c1, set_reconnectTimeout false st1), [])) /\
  (hasUrl st = true ->
   reconnectTimerFired now false answer (state_of closed) =
     (Throw "SyntaxError", (c1, set_reconnectTimeout false st1), []) /\
   let r := reconnectTimerFired now true answer (state_of closed) in
   outcome_of r = Ret tt /\
   events_of r = [] /\
   snd (state_of r) = set_reconnectTimeout false st1 /\
   messagesToSendAfterReconnect (fst (state_of r)) = queue /\
   callbacks (fst (state_of r)) !! n = Some CbHandshake /\
   (forall i route, routes !! i = Some route ->
      callbacks (fst (state_of r)) !! (n + 1 + Z.of_nat i) = Some (CbUser (answer route))) /\
   events_of (socketOpened now' (state_of r)) = EvSend <$> queue /\
   events_of (reconnectTimerFired now true answer (state_of r)) = []) /\
  (forall path response,
     (noError response = true -> clientResubscribeAnswer path response st = st) /\
     (noError response = false ->
      let st' := clientResubscribeAnswer path response st in
      (path ∉ objectPrototypeNames -> getProperty (subscribedRoutes st') path = None) /\
      forall other, other <> path ->
        getProperty (subscribedRoutes st') other = getProperty (subscribedRoutes st) other)).
Proof.
  intros Hclient. cbv zeta.
  assert (transportClosed clientHooks (c, st) =
          (Ret tt, (set_connected false c,
                    set_reconnectTimeout true (set_isFullyConnected false st)), [])) as ->.
  { unfold transportClosed. munfold. cbn [fst snd isClient set_connected].
    rewrite Hclient. reflexivity. }
  unfold events_of at 1, state_of. cbn [fst snd].
  split; [repeat split|].
  set (st1 := set_reconnectTimeout true (set_isFullyConnected false st)).
  set (c1 := set_connected false c).
  assert (hasUrl (set_reconnectTimeout false st1) = hasUrl st) as Hurl by reflexivity.
  split; [|split]; cycle 2.
  { intros path response. unfold clientResubscribeAnswer. split.
    - intros ->. reflexivity.
    - intros ->. cbv zeta. cbn [subscribedRoutes set_subscribedRoutes]. split.
      + intros Hp. apply getProperty_None. split; [apply list_find_delete|exact Hp].
      + intros other Hne. apply getProperty_delete_other. exact Hne. }
  - intros Hu. unfold reconnectTimerFired. rewrite mbind_run. cbn [get snd reconnectTimeout
      st1 set_reconnectTimeout]. rewrite mbind_run. cbn [modify fst snd].
    unfold reconnect. rewrite mbind_run. cbn [get snd]. rewrite Hurl, Hu. reflexivity.
  - intros Hu. split.
    + unfold reconnectTimerFired. rewrite mbind_run. cbn [get snd reconnectTimeout
        st1 set_reconnectTimeout]. rewrite mbind_run. cbn [modify fst snd].
      unfold reconnect. rewrite mbind_run. cbn [get snd]. rewrite Hurl, Hu. reflexivity.
    + set (st2 := set_reconnectTimeout false st1).
      set (msg := msg_ConnDataSet "secret" (default PUndefined (header c !! "secret"))).
      set (c2 := set_callbacks (<[nextMsgId c := CbHandshake]>
                    (callbacks (posted now msg (set_closingTimer false c1))))
                    (posted now msg (set_closingTimer false c1))).
      assert (connected c2 = false) as Hc2 by reflexivity.
      destruct (resubscribe_loop now answer st2 (forInKeys (subscribedRoutes st)) c2 Hc2)
        as (c3 & Hloop & Hc3 & Hq & Hold & Hnew).
      assert (reconnectTimerFired now true answer (c1, st1) = (Ret tt, (c3, st2), [])) as ->.
      { unfold reconnectTimerFired. rewrite mbind_run. cbn [get snd reconnectTimeout
          st1 set_reconnectTimeout]. rewrite mbind_run. cbn [modify fst snd].
        unfold reconnect. rewrite mbind_run. cbn [get snd]. rewrite Hurl, Hu.
        cbn [negb]. rewrite mbind_run.
        rewrite (setSocket_client now false (c1, set_reconnectTimeout false st1))
          by exact Hclient.
        cbv zeta. cbn [fst snd]. unfold resubscribeToRoutes. rewrite mbind_run.
        cbn [get snd subscribedRoutes set_reconnectTimeout st1 set_isFullyConnected].
        fold st1. fold st2.
        match goal with |- context [forEach _ _ (?x, st2)] => change x with c2 end.
        rewrite Hloop. reflexivity. }
      unfold outcome_of, events_of, state_of. cbn [fst snd].
      split; [reflexivity|]. split; [reflexivity|]. split; [reflexivity|].
      assert (nextMsgId c2 = nextMsgId c + 1) as Hn by reflexivity.
      assert (messagesToSendAfterReconnect c3 =
              messagesToSendAfterReconnect c ++
              new_MsgWrapper (nextMsgId c) msg :: resubscriptions (nextMsgId c + 1)
                (forInKeys (subscribedRoutes st))) as Hqueue.
      { rewrite Hq, Hn. unfold c2. cbn. rewrite <- app_assoc. reflexivity. }
      split; [exact Hqueue|]. split; [|split; [|split]].
      * rewrite Hold by lia. unfold c2. cbn [callbacks set_callbacks]. apply lookup_insert_eq.
      * intros i route Hi. rewrite <- Hn. apply Hnew. exact Hi.
      * unfold socketOpened. munfold. cbn [fst snd].
        rewrite (sendMessagesFromLaterList_open now' (set_connected true c3)) by reflexivity.
        cbn. rewrite Hqueue. reflexivity.
      * unfold reconnectTimerFired. rewrite mbind_run. reflexivity.
Qed.

Lemma reconnect_sends_the_secret_before_the_subscriptions_witness :
  let closed := transportClosed clientHooks (openClientConn, subscribedClient) in
  let r := reconnectTimerFired 600 true (fun _ => 0%nat) (state_of closed) in
  isFullyConnected (snd (state_of closed)) = false /\
  events_of (socketOpened 700 (state_of r)) =
    EvSend <$> [ {| wid := 0; wmsg := MsgDataSet "secret" (PStr "5ec2e7") |};
                 {| wid := 1; wmsg := MsgSubscribeToRoute "9" |};
                 {| wid := 2; wmsg := MsgSubscribeToRoute "10" |};
                 {| wid := 3; wmsg := MsgSubscribeToRoute "/t/1" |} ].
Proof.
  pose proof (reconnect_sends_the_secret_before_the_subscriptions 600 700 (fun _ => 0%nat)
                openClientConn subscribedClient eq_refl) as H.
  cbv zeta in H. cbv zeta. destruct H as ((_ & _ & H1) & _ & H2 & _).
  split; [exact (f_equal isFullyConnected H1)|].
  exact (proj1 (proj2 (proj2 (proj2 (proj2 (proj2 (proj2 (proj2 (H2 eq_refl))))))))).
Defined.
